(** * Slicing a JSON array on disk: [extract_batch.py] and [split_prompts.py]

    A shallow embedding of the two scripts under [scripts/] and of the part
    of CPython they run on: values as [json.load] builds them, list and
    string slicing, [range], the [json] encoder with [indent=2] and
    [ensure_ascii=False], the [json] decoder, [print] and text files
    opened with [encoding='utf-8'].

    Numbers are Python [int]s (unbounded, [Z]) and Python [float]s (IEEE
    754 binary64, [spec_float] of the standard library): [float.__repr__]
    prints the shortest decimal that reads back as the float, and [float]
    of a literal is the nearest double, ties to even.  One behaviour
    depends on the interpreter: subscripting a [dict] with a slice raises
    [KeyError] from CPython 3.12 on and [TypeError] before; the repository
    pins no version, and the version is part of the environment of a run.
    Standard output encodes as UTF-8 with [errors='strict'], as the files
    the scripts open do; resource limits (memory, recursion depth, the
    length of an integer literal) are not modelled. *)

From Stdlib Require Import ZArith Lia Ascii String DecimalZ DecimalPos DecimalFacts.
From Stdlib Require Import SpecFloat.
From stdpp Require Import base list gmap.

Local Open Scope Z_scope.

(* ===================================================================== *)
(** ** Text *)
(* ===================================================================== *)

(** A Python [str] is a sequence of code points (the values of [ord]),
    lone surrogates included. *)
Abbreviation text := (list N).

Fixpoint s2t (s : string) : text :=
  match s with
  | EmptyString => []
  | String c r => N_of_ascii c :: s2t r
  end.
Arguments s2t : simpl never.

Definition LF : N := 10%N.

(** [str(i)] of an [int]: the decimal digits, with a minus sign when
    negative. *)
Fixpoint text_of_uint (d : Decimal.uint) : text :=
  match d with
  | Decimal.Nil => []
  | Decimal.D0 r => 48%N :: text_of_uint r
  | Decimal.D1 r => 49%N :: text_of_uint r
  | Decimal.D2 r => 50%N :: text_of_uint r
  | Decimal.D3 r => 51%N :: text_of_uint r
  | Decimal.D4 r => 52%N :: text_of_uint r
  | Decimal.D5 r => 53%N :: text_of_uint r
  | Decimal.D6 r => 54%N :: text_of_uint r
  | Decimal.D7 r => 55%N :: text_of_uint r
  | Decimal.D8 r => 56%N :: text_of_uint r
  | Decimal.D9 r => 57%N :: text_of_uint r
  end.

Definition text_of_int (d : Decimal.int) : text :=
  match d with
  | Decimal.Pos u => text_of_uint u
  | Decimal.Neg u => 45%N :: text_of_uint u
  end.

Definition int_str (z : Z) : text := text_of_int (Z.to_int z).
Arguments int_str : simpl never.

(* ===================================================================== *)
(** ** Values and exceptions *)
(* ===================================================================== *)

(** What [json.load] returns: [None], [bool], [int], [float], [str],
    [list] and [dict].  A [float] is a binary64 number ([float64] below says
    which [spec_float]s are).  A [dict] keeps its items in insertion order;
    its keys are [str]s and, in a Python dict, pairwise distinct
    ([json_value] below). *)
Unset Elimination Schemes.
Inductive pyvalue : Type :=
| PNone
| PBool (b : bool)
| PInt (z : Z)
| PFloat (x : spec_float)
| PStr (s : text)
| PList (l : list pyvalue)
| PDict (items : list (text * pyvalue)).
Set Elimination Schemes.

(** The exception classes that occur, and the one split the scripts depend
    on: [except Exception] does not catch [KeyboardInterrupt] and
    [SystemExit], which derive from [BaseException] only. *)
Inductive exn_class : Type :=
| FileNotFoundError
| PermissionError
| IsADirectoryError
| OSError
| UnicodeDecodeError
| UnicodeEncodeError
| JSONDecodeError
| ValueError
| RecursionError
| MemoryError
| TypeError
| KeyError
| KeyboardInterrupt
| SystemExit.

Definition is_Exception (c : exn_class) : bool :=
  match c with
  | KeyboardInterrupt | SystemExit => false
  | _ => true
  end.

(** An exception object: its class and [str(e)]. *)
Record pyexn : Type := Exn { exn_cls : exn_class; exn_str : string }.

Inductive result (A : Type) : Type :=
| Ok (a : A)
| Raise (e : pyexn).
Arguments Ok {A} a.
Arguments Raise {A} e.

Definition rbind {A B} (r : result A) (k : A -> result B) : result B :=
  match r with
  | Ok a => k a
  | Raise e => Raise e
  end.

Fixpoint rmap {A B} (f : A -> result B) (l : list A) : result (list B) :=
  match l with
  | [] => Ok []
  | x :: r => rbind (f x) (fun y => rbind (rmap f r) (fun ys => Ok (y :: ys)))
  end.

(* ===================================================================== *)
(** ** Slices, [len] and [range] *)
(* ===================================================================== *)

(** [PySlice_AdjustIndices] for step 1: a negative bound counts from the
    end, and both bounds are clipped to [0 .. n]. *)
Definition adjust_index (n i : Z) : Z :=
  if i <? 0 then Z.max (i + n) 0 else Z.min i n.

(** [seq[lo:hi]] on a sequence. *)
Definition py_slice {A} (l : list A) (lo hi : Z) : list A :=
  let n := Z.of_nat (length l) in
  let a := adjust_index n lo in
  let b := adjust_index n hi in
  take (Z.to_nat (b - a)) (drop (Z.to_nat a) l).

Definition type_name (v : pyvalue) : string :=
  match v with
  | PNone => "NoneType"
  | PBool _ => "bool"
  | PInt _ => "int"
  | PFloat _ => "float"
  | PStr _ => "str"
  | PList _ => "list"
  | PDict _ => "dict"
  end.

(** [repr(i)] inside an exception message; the messages are ASCII. *)
Fixpoint string_of_uint (d : Decimal.uint) : string :=
  match d with
  | Decimal.Nil => ""
  | Decimal.D0 r => String "0" (string_of_uint r)
  | Decimal.D1 r => String "1" (string_of_uint r)
  | Decimal.D2 r => String "2" (string_of_uint r)
  | Decimal.D3 r => String "3" (string_of_uint r)
  | Decimal.D4 r => String "4" (string_of_uint r)
  | Decimal.D5 r => String "5" (string_of_uint r)
  | Decimal.D6 r => String "6" (string_of_uint r)
  | Decimal.D7 r => String "7" (string_of_uint r)
  | Decimal.D8 r => String "8" (string_of_uint r)
  | Decimal.D9 r => String "9" (string_of_uint r)
  end.

Definition int_repr (z : Z) : string :=
  match Z.to_int z with
  | Decimal.Pos u => string_of_uint u
  | Decimal.Neg u => String "-" (string_of_uint u)
  end.

(** The interpreter that runs the scripts, as far as they can tell: slice
    objects are hashable from CPython 3.12 on. *)
Inductive cpython : Type :=
| Py311   (* CPython 3.11 and earlier *)
| Py312.  (* CPython 3.12 and later *)

(** [data[lo:hi]].  A [list] and a [str] are sliced.  A [dict] hashes the
    slice object to look it up as a key: before CPython 3.12 that raises
    [TypeError: unhashable type: 'slice']; from 3.12 on the lookup fails
    with a [KeyError] that carries the key's [repr].  The other values are
    not subscriptable. *)
Definition getitem_slice (py : cpython) (data : pyvalue) (lo hi : Z)
  : result pyvalue :=
  match data with
  | PList l => Ok (PList (py_slice l lo hi))
  | PStr s => Ok (PStr (py_slice s lo hi))
  | PDict _ =>
      match py with
      | Py311 => Raise (Exn TypeError "unhashable type: 'slice'")
      | Py312 =>
          Raise (Exn KeyError
            ("slice(" ++ int_repr lo ++ ", " ++ int_repr hi ++ ", None)"))
      end
  | _ =>
      Raise (Exn TypeError
        ("'" ++ type_name data ++ "' object is not subscriptable"))
  end.

(** [len(data)]. *)
Definition py_len (data : pyvalue) : result Z :=
  match data with
  | PList l => Ok (Z.of_nat (length l))
  | PStr s => Ok (Z.of_nat (length s))
  | PDict items => Ok (Z.of_nat (length items))
  | _ =>
      Raise (Exn TypeError
        ("object of type '" ++ type_name data ++ "' has no len()"))
  end.

(** [range(start, stop, step)] as the list it iterates over: CPython
    computes the length first and yields [start + k * step]. *)
Definition range_len (start stop step : Z) : Z :=
  if 0 <? step then
    if start <? stop then (stop - start - 1) / step + 1 else 0
  else
    if stop <? start then (start - stop - 1) / (- step) + 1 else 0.

Definition py_range (start stop step : Z) : result (list Z) :=
  if step =? 0 then
    Raise (Exn ValueError "range() arg 3 must not be zero")
  else
    Ok (map (fun k : nat => start + Z.of_nat k * step)
            (seq 0 (Z.to_nat (range_len start stop step)))).

(* ===================================================================== *)
(** ** [split_prompts.py], line 13: the chunks *)
(* ===================================================================== *)

(** [chunk_size = 50] (line 12). *)
Definition chunk_size : Z := 50.

(** [[data[i:i + chunk_size] for i in range(0, len(data), chunk_size)]],
    with the chunk size as a parameter. *)
Definition chunks_of (py : cpython) (size : Z) (data : pyvalue)
  : result (list pyvalue) :=
  rbind (py_len data) (fun n =>
  rbind (py_range 0 n size) (fun idx =>
  rmap (fun i => getitem_slice py data i (i + size)) idx)).

Definition chunks (py : cpython) (data : pyvalue) : result (list pyvalue) :=
  chunks_of py chunk_size data.

(* ===================================================================== *)
(** ** Floats: [float] of a literal and [float.__repr__] *)
(* ===================================================================== *)

(** A Python [float] is an IEEE 754 binary64 number: a [spec_float] of
    precision 53 whose exponent stays below 1024.  A finite one is
    [m * 2 ^ e] with [m < 2 ^ 53] and [-1074 <= e <= 971]. *)
Definition float64 (x : spec_float) : bool := valid_binary 53 1024 x.

(** The exponent of the unit in the last place of the double nearest to
    [p / q]: [floor (log2 (p / q)) - 52], and [-1074] for the subnormals. *)
Definition binade (p q : Z) : Z :=
  Z.max (Z.log2 (Z.shiftl p 1100 / q) - 1100 - 52) (-1074).

(** [n / d] rounded to the nearest integer, ties to even. *)
Definition round_quotient (n d : Z) : Z :=
  let (m0, r) := Z.div_eucl n d in
  if 2 * r <? d then m0
  else if d <? 2 * r then m0 + 1
  else if Z.even m0 then m0 else m0 + 1.

(** The double [m * 2 ^ e], after the carry into the next binade; beyond
    the largest double, infinity. *)
Definition make_double (neg : bool) (m e : Z) : spec_float :=
  let e' := if m =? 9007199254740992 then e + 1 else e in
  let m' := if m =? 9007199254740992 then 4503599627370496 else m in
  match m' with
  | Zpos mp => if e' <=? 971 then S754_finite neg mp e' else S754_infinity neg
  | _ => S754_zero neg
  end.

(** The double nearest to [p / q], ties to even, for [p > 0] and [q > 0]. *)
Definition nearest_double (neg : bool) (p q : Z) : spec_float :=
  let e := binade p q in
  make_double neg
    (round_quotient (if 0 <=? e then p else Z.shiftl p (- e))
                    (if 0 <=? e then Z.shiftl q e else q)) e.

(** [float(s)] for a decimal literal [s] of value [m * 10 ^ e], [m >= 0]:
    CPython reads it with [_Py_dg_strtod], which rounds correctly, so the
    result is the double nearest to that value; a value too large gives an
    infinity, one too small a zero, with no exception. *)
Definition float_of_decimal (neg : bool) (m e : Z) : spec_float :=
  if m =? 0 then S754_zero neg
  else if 0 <=? e then nearest_double neg (m * 10 ^ e) 1
  else nearest_double neg m (10 ^ (- e)).

(** Counting the decimal digits of [n], at most [fuel] and one of them. *)
Fixpoint ndigits_fuel (fuel : nat) (n : Z) : nat :=
  match fuel with
  | O => 1%nat
  | S f => if n <? 10 then 1%nat else S (ndigits_fuel f (n / 10))
  end.

(** The number of decimal digits of [n >= 0]. *)
Definition ndigits (n : Z) : nat := ndigits_fuel (Z.to_nat (Z.log2 n)) n.

(** The last [j] decimal digits of [n], most significant first. *)
Fixpoint fixed_digits (j : nat) (n : Z) : text :=
  match j with
  | O => []
  | S j' => fixed_digits j' (n / 10) ++ [(48 + Z.to_N (n mod 10))%N]
  end.

(** The decimal digits of [n >= 0]. *)
Definition decimal (n : Z) : text := fixed_digits (ndigits n) n.

(** [d * 10 ^ q] with the zeros at the end of [d] moved into the
    exponent. *)
Fixpoint strip10 (fuel : nat) (d q : Z) : Z * Z :=
  match fuel with
  | O => (d, q)
  | S f =>
      if (d mod 10 =? 0) && negb (d =? 0) then strip10 f (d / 10) (q + 1)
      else (d, q)
  end.

(** Whether [x] is the finite double of mantissa [m] and exponent [e]. *)
Definition same_double (x : spec_float) (m : positive) (e : Z) : bool :=
  match x with
  | S754_finite _ m' e' => (m' =? m)%positive && (e' =? e)
  | _ => false
  end.

(** The number of zeros after the point before the first digit of
    [p / q < 1], and one more. *)
Fixpoint leading_zeros (fuel : nat) (p q : Z) : nat :=
  match fuel with
  | O => 1%nat
  | S f => if q <=? 10 * p then 1%nat else S (leading_zeros f (10 * p) q)
  end.

(** The decimal exponent of [p / q]: [10 ^ k <= p / q < 10 ^ (k + 1)]. *)
Definition decimal_exponent (p q : Z) : Z :=
  if q <=? p then Z.of_nat (ndigits (p / q)) - 1
  else - Z.of_nat (leading_zeros 400 p q).

(** The decimal of [n] significant digits for the double [m * 2 ^ e] whose
    decimal exponent is [k]: of the two decimals of [n] digits around it,
    one that reads back as this double, the nearer if both do. *)
Definition candidate (neg : bool) (m : positive) (e k : Z) (n : nat)
  : option (Z * Z) :=
  let p := if 0 <=? e then Z.shiftl (Zpos m) e else Zpos m in
  let q := if 0 <=? e then 1 else Z.shiftl 1 (- e) in
  let sc := Z.of_nat n - 1 - k in
  let num := if 0 <=? sc then p * 10 ^ sc else p in
  let den := if 0 <=? sc then q else q * 10 ^ (- sc) in
  let (lo, r) := Z.div_eucl num den in
  let ok d := (0 <? d) && same_double (float_of_decimal neg d (- sc)) m e in
  if r =? 0 then (if ok lo then Some (lo, - sc) else None)
  else
    match ok lo, ok (lo + 1) with
    | true, true => if 2 * r <=? den then Some (lo, - sc) else Some (lo + 1, - sc)
    | true, false => Some (lo, - sc)
    | false, true => Some (lo + 1, - sc)
    | false, false => None
    end.

(** The first candidate there is, from [n] significant digits on. *)
Fixpoint shortest (neg : bool) (m : positive) (e k : Z) (fuel n : nat)
  : option (Z * Z) :=
  match fuel with
  | O => None
  | S f =>
      match candidate neg m e k n with
      | Some c => Some c
      | None => shortest neg m e k f (S n)
      end
  end.

(** The decimal expansion of [m * 2 ^ e], which is finite. *)
Definition exact_decimal (m : positive) (e : Z) : Z * Z :=
  if 0 <=? e then (Zpos m * 2 ^ e, 0) else (Zpos m * 5 ^ (- e), e).

(** [_Py_dg_dtoa(x, 0, ...)], the digits of [float.__repr__]: the shortest
    decimal [d * 10 ^ q] that reads back as the double, the nearest to it
    among the shortest, [d] with no zero at its end.  Seventeen
    significant digits tell any two doubles apart, so the search always
    ends with a candidate; the expansion in full stands behind it as the
    result of a search that found none, so that the digits read back as
    the double by construction ([float_digits_ok]). *)
Definition float_digits (neg : bool) (m : positive) (e : Z) : Z * Z :=
  let p := if 0 <=? e then Z.shiftl (Zpos m) e else Zpos m in
  let q := if 0 <=? e then 1 else Z.shiftl 1 (- e) in
  let c := match shortest neg m e (decimal_exponent p q) 17 1 with
           | Some c => c
           | None => exact_decimal m e
           end in
  strip10 (Z.to_nat (Z.log2 c.1)) c.1 c.2.

(** The exponent as [%+.02d] prints it, the sign apart: two digits at
    least. *)
Definition exp_digits (x : Z) : text :=
  (if x <? 10 then [48%N] else []) ++ decimal x.

(** [format_float_short] with the format code ['r'] and
    [Py_DTSF_ADD_DOT_0], on the digits [d] and the exponent [q]: with
    [decpt] the position of the point, the exponent form
    [d.ddde+XX] when [decpt <= -4] or [decpt > 16], else all the digits
    with the point where it is, and [.0] after an integer. *)
Definition format_digits (d q : Z) : text :=
  let len := Z.of_nat (ndigits d) in
  let decpt := q + len in
  if (decpt <=? -4) || (16 <? decpt) then
    int_str (d / 10 ^ (len - 1))
    ++ (if len =? 1 then [] else 46%N :: fixed_digits (Z.to_nat (len - 1)) d)
    ++ 101%N :: (if decpt - 1 <? 0 then 45%N else 43%N)
    :: exp_digits (Z.abs (decpt - 1))
  else if q <? 0 then
    int_str (d / 10 ^ (- q)) ++ 46%N :: fixed_digits (Z.to_nat (- q)) d
  else int_str (d * 10 ^ q) ++ s2t ".0".

(** [float.__repr__(x)]. *)
Definition float_repr (x : spec_float) : text :=
  match x with
  | S754_nan => s2t "nan"
  | S754_infinity false => s2t "inf"
  | S754_infinity true => s2t "-inf"
  | S754_zero false => s2t "0.0"
  | S754_zero true => s2t "-0.0"
  | S754_finite neg m e =>
      let c := float_digits neg m e in
      (if neg then [45%N] else []) ++ format_digits c.1 c.2
  end.

(** [floatstr] of [json.encoder], with [allow_nan=True]: the three values
    that are no numbers have names of their own, the others print as
    [float.__repr__] prints them. *)
Definition floatstr (x : spec_float) : text :=
  match x with
  | S754_nan => s2t "NaN"
  | S754_infinity false => s2t "Infinity"
  | S754_infinity true => s2t "-Infinity"
  | _ => float_repr x
  end.
Arguments floatstr : simpl never.

(* ===================================================================== *)
(** ** The JSON encoder: [indent=2], [ensure_ascii=False] *)
(* ===================================================================== *)

Definition hex_digit (d : N) : N :=
  (if d <? 10 then 48 + d else 87 + d)%N.

(** [ESCAPE_DCT] of [json.encoder]: the quote (34), the backslash (92) and
    the control characters are escaped, everything else is copied. *)
Definition escape_char (c : N) : text :=
  if (c =? 34)%N then [92; 34]%N            (* backslash, quote *)
  else if (c =? 92)%N then [92; 92]%N       (* backslash, backslash *)
  else if (c =? 10)%N then [92; 110]%N      (* backslash, n *)
  else if (c =? 13)%N then [92; 114]%N      (* backslash, r *)
  else if (c =? 9)%N then [92; 116]%N       (* backslash, t *)
  else if (c =? 8)%N then [92; 98]%N        (* backslash, b *)
  else if (c =? 12)%N then [92; 102]%N      (* backslash, f *)
  else if (c <? 32)%N then                  (* backslash, u00xx *)
    [92; 117; 48; 48; hex_digit (c / 16); hex_digit (c mod 16)]%N
  else [c].

Definition encode_basestring (s : text) : text :=
  34%N :: flat_map escape_char s ++ [34%N].

(** ['\n' + _indent * level] with [_indent = ' ' * 2]. *)
Definition newline_indent (level : nat) : text :=
  LF :: repeat 32%N (2 * level).
Arguments newline_indent : simpl never.

(** The text of a value that the encoder yields in one piece; [None] for
    the containers. *)
Definition scalar_text (v : pyvalue) : option text :=
  match v with
  | PStr s => Some (encode_basestring s)
  | PNone => Some (s2t "null")
  | PBool true => Some (s2t "true")
  | PBool false => Some (s2t "false")
  | PInt z => Some (int_str z)
  | PFloat x => Some (floatstr x)
  | PList _ | PDict _ => None
  end.

(** A list element: [yield buf + text] for a scalar, [yield buf] and then
    the container's own pieces otherwise. *)
Definition emit (rec : pyvalue -> list text) (buf : text) (v : pyvalue)
  : list text :=
  match scalar_text v with
  | Some t => [buf ++ t]
  | None => buf :: rec v
  end.

(** A dict value, and the top level: no pending [buf]. *)
Definition emit_plain (rec : pyvalue -> list text) (v : pyvalue)
  : list text :=
  match scalar_text v with
  | Some t => [t]
  | None => rec v
  end.

(** [_make_iterencode]: the pieces the encoder yields, in order, for a
    value at the given indentation level. *)
Fixpoint iterencode (level : nat) (v : pyvalue) {struct v} : list text :=
  match v with
  | PList [] => [s2t "[]"]
  | PList (x :: r) =>
      let nl := newline_indent (S level) in
      emit (iterencode (S level)) (s2t "[" ++ nl) x
      ++ flat_map (fun y => emit (iterencode (S level)) (s2t "," ++ nl) y) r
      ++ [newline_indent level; s2t "]"]
  | PDict [] => [s2t "{}"]
  | PDict (kx :: r) =>
      let nl := newline_indent (S level) in
      [s2t "{"; nl]
      ++ ([encode_basestring (fst kx); s2t ": "]
          ++ emit_plain (iterencode (S level)) (snd kx))
      ++ flat_map (fun ky =>
           (s2t "," ++ nl) :: encode_basestring (fst ky) :: s2t ": "
           :: emit_plain (iterencode (S level)) (snd ky)) r
      ++ [newline_indent level; s2t "}"]
  | PStr s => [encode_basestring s]
  | PNone => [s2t "null"]
  | PBool true => [s2t "true"]
  | PBool false => [s2t "false"]
  | PInt z => [int_str z]
  | PFloat x => [floatstr x]
  end.

(** [json.dumps(v, indent=2, ensure_ascii=False)]: [''.join(chunks)]. *)
Definition json_dumps (v : pyvalue) : text := concat (iterencode 0 v).

(* ===================================================================== *)
(** ** Text output: UTF-8, [errors='strict'] *)
(* ===================================================================== *)

Definition is_surrogate (c : N) : bool :=
  ((55296 <=? c) && (c <=? 57343))%N.

(** How many surrogates follow each other at the head of [s]. *)
Fixpoint surrogate_run (s : text) : Z :=
  match s with
  | c :: r => if is_surrogate c then 1 + surrogate_run r else 0
  | [] => 0
  end.

(** The first surrogate of [s]: where it is, which one, and where the run
    of surrogates it starts ends. *)
Fixpoint find_surrogate (pos : Z) (s : text) : option (Z * N * Z) :=
  match s with
  | [] => None
  | c :: r =>
      if is_surrogate c then Some (pos, c, pos + 1 + surrogate_run r)
      else find_surrogate (pos + 1) r
  end.

Definition hex4 (c : N) : string :=
  String (ascii_of_N (hex_digit (c / 4096 mod 16)))
 (String (ascii_of_N (hex_digit (c / 256 mod 16)))
 (String (ascii_of_N (hex_digit (c / 16 mod 16)))
 (String (ascii_of_N (hex_digit (c mod 16))) ""))).

(** [s.encode('utf-8')]: every code point has a UTF-8 form but the
    surrogates, on which the codec raises [UnicodeEncodeError].  The bytes
    are not modelled; the text stands for them. *)
Definition utf8_strict (s : text) : result text :=
  match find_surrogate 0 s with
  | None => Ok s
  | Some (start, c, stop) =>
      Raise (Exn UnicodeEncodeError
        (if stop - start =? 1 then
           "'utf-8' codec can't encode character '\u" ++ hex4 c
           ++ "' in position " ++ int_repr start
           ++ ": surrogates not allowed"
         else
           "'utf-8' codec can't encode characters in position "
           ++ int_repr start ++ "-" ++ int_repr (stop - 1)
           ++ ": surrogates not allowed"))
  end.

(* ===================================================================== *)
(** ** The world the scripts run in *)
(* ===================================================================== *)

(** What a run finds: [python] is the interpreter; [source] is the outcome
    of lines 6-7 of either script,
    [open('data/prompts.json', 'r', encoding='utf-8')] followed by
    [json.load(f)] (the decoded value, or the exception raised while
    locating, reading or parsing the file); [open_w path] is the exception
    [open(path, 'w', encoding='utf-8')] raises, if it does. *)
Record env : Type := Env {
  python : cpython;
  source : result pyvalue;
  open_w : text -> option pyexn
}.

(** What a run does, in order: a [print] call with its text, a file
    closed with the content written to it. *)
Inductive event : Type :=
| Printed (line : text)
| Saved (path content : text).

Record state : Type := State {
  files : gmap text text;
  log : list event
}.

(** A statement: it ends normally with a value or raises, and leaves a
    state either way. *)
Definition M (A : Type) : Type := state -> result A * state.

#[global] Instance M_ret : MRet M := fun A a st => (Ok a, st).

#[global] Instance M_bind : MBind M := fun A B k m st =>
  match m st with
  | (Ok a, st') => k a st'
  | (Raise e, st') => (Raise e, st')
  end.

Definition lift {A} (r : result A) : M A := fun st => (r, st).

(** [try: body / except Exception as e: handler]. *)
Definition try_except {A} (body : M A) (handler : pyexn -> M A) : M A :=
  fun st =>
    match body st with
    | (Ok a, st') => (Ok a, st')
    | (Raise e, st') =>
        if is_Exception (exn_cls e) then handler e st' else (Raise e, st')
    end.

Fixpoint for_each {A} (l : list A) (body : A -> M unit) : M unit :=
  match l with
  | [] => mret tt
  | x :: r => body x ;; for_each r body
  end.

Fixpoint enumerate_from {A} (i : Z) (l : list A) : list (Z * A) :=
  match l with
  | [] => []
  | x :: r => (i, x) :: enumerate_from (i + 1) r
  end.

Definition enumerate {A} (l : list A) : list (Z * A) := enumerate_from 0 l.

(** [print(t)] on a standard output that encodes as UTF-8: the text is
    encoded before anything is written. *)
Definition print (t : text) : M unit := fun st =>
  match utf8_strict t with
  | Ok _ => (Ok tt, State (files st) (log st ++ [Printed t]))
  | Raise e => (Raise e, st)
  end.

(** [f.write] of the encoder's pieces one after the other: the content
    written so far, and the exception that stopped the writing, if any. *)
Fixpoint write_pieces (pieces : list text) (written : text)
  : text * result unit :=
  match pieces with
  | [] => (written, Ok tt)
  | p :: r =>
      match utf8_strict p with
      | Ok _ => write_pieces r (written ++ p)
      | Raise e => (written, Raise e)
      end
  end.

(** [with open(path, 'w', encoding='utf-8') as f:
       json.dump(v, f, ensure_ascii=False, indent=2)].
    Opening truncates the file; leaving the [with] block closes it with
    what was written, also when [json.dump] raised. *)
Definition dump_to_file (e : env) (path : text) (v : pyvalue) : M unit :=
  fun st =>
    match open_w e path with
    | Some err => (Raise err, st)
    | None =>
        let (content, r) := write_pieces (iterencode 0 v) [] in
        (r, State (<[path := content]> (files st))
                  (log st ++ [Saved path content]))
    end.

Definition load (e : env) : M pyvalue := lift (source e).

(* ===================================================================== *)
(** ** [extract_batch.py] *)
(* ===================================================================== *)

(** Lines 6-12, the body of the [try]. *)
Definition try_block (e : env) (start count : Z) : M unit :=
  data ← load e;
  batch ← lift (getitem_slice (python e) data start (start + count));
  print (json_dumps batch).

(** [def extract_batch(start, count)]. *)
Definition extract_batch (e : env) (start count : Z) : M unit :=
  try_except (try_block e start count)
    (fun err => print (s2t "Error: " ++ s2t (exn_str err))).

(** [if __name__ == "__main__": extract_batch(30, 50)]. *)
Definition extract_batch_main (e : env) : M unit := extract_batch e 30 50.

(* ===================================================================== *)
(** ** [split_prompts.py] *)
(* ===================================================================== *)

(** [f'data/temp_chunk_{i}.json'] *)
Definition filename (i : Z) : text :=
  s2t "data/temp_chunk_" ++ int_str i ++ s2t ".json".

(** [f"Total items: {n}"] *)
Definition total_line (n : Z) : text := s2t "Total items: " ++ int_str n.

(** [f"Created {name} with {n} items"] *)
Definition created_line (name : text) (n : Z) : text :=
  s2t "Created " ++ name ++ s2t " with " ++ int_str n ++ s2t " items".

(** Lines 16-19, the body of the [for] loop. *)
Definition write_chunk (e : env) (ic : Z * pyvalue) : M unit :=
  dump_to_file e (filename ic.1) ic.2;;
  n ← lift (py_len ic.2);
  print (created_line (filename ic.1) n).

(** The script, with the chunk size as a parameter. *)
Definition split_prompts_with (size : Z) (e : env) : M unit :=
  data ← load e;
  n ← lift (py_len data);
  print (total_line n);;
  cs ← lift (chunks_of (python e) size data);
  for_each (enumerate cs) (write_chunk e).

(** The script as it is, [chunk_size = 50]. *)
Definition split_prompts (e : env) : M unit :=
  split_prompts_with chunk_size e.

Definition source_path : text := s2t "data/prompts.json".
Definition init : state := State ∅ [].

(* ===================================================================== *)
(** ** The JSON decoder *)
(* ===================================================================== *)

(** [WHITESPACE]: space, tab, line feed, carriage return. *)
Definition is_ws (c : N) : bool :=
  ((c =? 32) || (c =? 9) || (c =? 10) || (c =? 13))%N.

Fixpoint skip_ws (s : text) : text :=
  match s with
  | c :: r => if is_ws c then skip_ws r else s
  | [] => []
  end.

Definition hex_val (c : N) : option N :=
  (if (48 <=? c) && (c <=? 57) then Some (c - 48)
   else if (97 <=? c) && (c <=? 102) then Some (c - 87)
   else if (65 <=? c) && (c <=? 70) then Some (c - 55)
   else None)%N.

(** The four hex digits of a [\uXXXX] escape. *)
Definition hex4_val (a b c d : N) : option N :=
  match hex_val a, hex_val b, hex_val c, hex_val d with
  | Some x, Some y, Some z, Some w => Some (x * 4096 + y * 256 + z * 16 + w)%N
  | _, _, _, _ => None
  end.

(** [BACKSLASH]: the one-letter escapes. *)
Definition unescape (c : N) : option N :=
  (if c =? 34 then Some 34
   else if c =? 92 then Some 92
   else if c =? 47 then Some 47
   else if c =? 98 then Some 8
   else if c =? 102 then Some 12
   else if c =? 110 then Some 10
   else if c =? 114 then Some 13
   else if c =? 116 then Some 9
   else None)%N.

Definition is_high_surrogate (c : N) : bool :=
  ((55296 <=? c) && (c <=? 56319))%N.
Definition is_low_surrogate (c : N) : bool :=
  ((56320 <=? c) && (c <=? 57343))%N.
Definition join_surrogates (hi lo : N) : N :=
  (65536 + (hi - 55296) * 1024 + (lo - 56320))%N.

Definition cons_char (c : N) (r : option (text * text)) : option (text * text) :=
  match r with
  | Some (d, rest) => Some (c :: d, rest)
  | None => None
  end.

(** [scanstring], strict: the text after an opening quote, up to the
    closing one; the decoded string and what follows.  A control character
    is refused, a [\uXXXX] escape of a high surrogate followed by one of a
    low surrogate gives one code point, any other escaped surrogate stays
    as it is. *)
Fixpoint scanstring (s : text) : option (text * text) :=
  match s with
  | [] => None
  | c :: r =>
      if (c =? 34)%N then Some ([], r)
      else if (c =? 92)%N then
        match r with
        | [] => None
        | e :: r1 =>
            if (e =? 117)%N then
              match r1 with
              | h1 :: h2 :: h3 :: h4 :: r2 =>
                  match hex4_val h1 h2 h3 h4 with
                  | None => None
                  | Some u =>
                      match r2 with
                      | b :: e' :: r3 =>
                          if is_high_surrogate u && (b =? 92)%N && (e' =? 117)%N
                          then
                            match r3 with
                            | g1 :: g2 :: g3 :: g4 :: r4 =>
                                match hex4_val g1 g2 g3 g4 with
                                | None => None
                                | Some u2 =>
                                    if is_low_surrogate u2
                                    then cons_char (join_surrogates u u2)
                                                   (scanstring r4)
                                    else cons_char u (scanstring r2)
                                end
                            | _ => None
                            end
                          else cons_char u (scanstring r2)
                      | _ => cons_char u (scanstring r2)
                      end
                  end
              | _ => None
              end
            else
              match unescape e with
              | Some ch => cons_char ch (scanstring r1)
              | None => None
              end
        end
      else if (c <? 32)%N then None
      else cons_char c (scanstring r)
  end.

Definition digit_of (c : N) : option (Decimal.uint -> Decimal.uint) :=
  (if c =? 48 then Some Decimal.D0
   else if c =? 49 then Some Decimal.D1
   else if c =? 50 then Some Decimal.D2
   else if c =? 51 then Some Decimal.D3
   else if c =? 52 then Some Decimal.D4
   else if c =? 53 then Some Decimal.D5
   else if c =? 54 then Some Decimal.D6
   else if c =? 55 then Some Decimal.D7
   else if c =? 56 then Some Decimal.D8
   else if c =? 57 then Some Decimal.D9
   else None)%N.

Definition is_digit (c : N) : bool := ((48 <=? c) && (c <=? 57))%N.

(** [\d*], greedy. *)
Fixpoint scan_digits (s : text) : Decimal.uint * text :=
  match s with
  | c :: r =>
      match digit_of c with
      | Some d => let (u, rest) := scan_digits r in (d u, rest)
      | None => (Decimal.Nil, s)
      end
  | [] => (Decimal.Nil, [])
  end.

(** [0|[1-9]\d*] *)
Definition scan_integer (s : text) : option (Decimal.uint * text) :=
  match s with
  | c :: r =>
      if (c =? 48)%N then Some (Decimal.D0 Decimal.Nil, r)
      else if is_digit c then Some (scan_digits s)
      else None
  | [] => None
  end.

(** Whether a fraction [\.\d+] or an exponent [[eE][-+]?\d+] follows. *)
Definition float_tail (s : text) : bool :=
  match s with
  | c :: d :: r =>
      if (c =? 46)%N then is_digit d
      else if (c =? 101)%N || (c =? 69)%N then
        if is_digit d then true
        else if (d =? 45)%N || (d =? 43)%N then
          match r with
          | d' :: _ => is_digit d'
          | [] => false
          end
        else false
      else false
  | _ => false
  end.

(** [\d*], greedy, as text. *)
Fixpoint span_digits (s : text) : text * text :=
  match s with
  | c :: r =>
      if is_digit c then let (ds, rest) := span_digits r in (c :: ds, rest)
      else ([], s)
  | [] => ([], [])
  end.

(** The number a run of digits denotes. *)
Definition digits_val (ds : text) : Z :=
  fold_left (fun a c => 10 * a + (Z.of_N c - 48)) ds 0.

(** The fraction [(\.\d+)?]: its digits, and what follows. *)
Definition scan_frac (s : text) : text * text :=
  match s with
  | c :: d :: r =>
      if (c =? 46)%N && is_digit d then span_digits (d :: r) else ([], s)
  | _ => ([], s)
  end.

(** The exponent [([eE][-+]?\d+)?]: its value, and what follows. *)
Definition scan_exp (s : text) : option Z * text :=
  match s with
  | c :: d :: r =>
      if (c =? 101)%N || (c =? 69)%N then
        if is_digit d then
          let (ds, rest) := span_digits (d :: r) in (Some (digits_val ds), rest)
        else if (d =? 45)%N || (d =? 43)%N then
          match r with
          | d' :: _ =>
              if is_digit d' then
                let (ds, rest) := span_digits r in
                (Some (if (d =? 45)%N then - digits_val ds else digits_val ds),
                 rest)
              else (None, s)
          | [] => (None, s)
          end
        else (None, s)
      else (None, s)
  | _ => (None, s)
  end.

(** [float(integer + frac + exp)]: the literal denotes the integer and the
    fraction digits taken together, times ten to the exponent less the
    number of fraction digits. *)
Definition float_of_literal (neg : bool) (u : Decimal.uint) (fr : text)
           (ex : option Z) : spec_float :=
  float_of_decimal neg
    (Z.of_uint u * 10 ^ Z.of_nat (length fr) + digits_val fr)
    (default 0 ex - Z.of_nat (length fr)).

(** The float literal at the head of [s], the sign apart: an integer part
    with a fraction or an exponent after it. *)
Definition scan_float (neg : bool) (s : text) : option (spec_float * text) :=
  match scan_integer s with
  | Some (u, rest) =>
      if float_tail rest then
        let (fr, r1) := scan_frac rest in
        let (ex, r2) := scan_exp r1 in
        Some (float_of_literal neg u fr ex, r2)
      else None
  | None => None
  end.

(** [NUMBER_RE] at the head of [s].  An integer literal gives an [int]; a
    literal with a fraction or an exponent gives a [float]. *)
Definition scan_number (s : text) : option (pyvalue * text) :=
  match s with
  | c :: r =>
      if (c =? 45)%N then
        match scan_integer r with
        | Some (u, rest) =>
            if float_tail rest then
              match scan_float true r with
              | Some (x, rest') => Some (PFloat x, rest')
              | None => None
              end
            else Some (PInt (Z.of_int (Decimal.Neg u)), rest)
        | None => None
        end
      else
        match scan_integer s with
        | Some (u, rest) =>
            if float_tail rest then
              match scan_float false s with
              | Some (x, rest') => Some (PFloat x, rest')
              | None => None
              end
            else Some (PInt (Z.of_int (Decimal.Pos u)), rest)
        | None => None
        end
  | [] => None
  end.

(** [s] starts with [p]: what follows [p]. *)
Fixpoint strip_prefix (p s : text) : option text :=
  match p, s with
  | [], _ => Some s
  | a :: p', b :: s' => if (a =? b)%N then strip_prefix p' s' else None
  | _ :: _, [] => None
  end.

(** [null], [true], [false], one of the constants [NaN], [Infinity] and
    [-Infinity], which the decoder accepts, or a number. *)
Definition scan_atom (s : text) : option (pyvalue * text) :=
  match strip_prefix (s2t "null") s with
  | Some r => Some (PNone, r)
  | None =>
  match strip_prefix (s2t "true") s with
  | Some r => Some (PBool true, r)
  | None =>
  match strip_prefix (s2t "false") s with
  | Some r => Some (PBool false, r)
  | None =>
  match strip_prefix (s2t "NaN") s with
  | Some r => Some (PFloat S754_nan, r)
  | None =>
  match strip_prefix (s2t "Infinity") s with
  | Some r => Some (PFloat (S754_infinity false), r)
  | None =>
  match strip_prefix (s2t "-Infinity") s with
  | Some r => Some (PFloat (S754_infinity true), r)
  | None => scan_number s
  end end end end end end.

(** [d[k] = v] on a dict: an existing key keeps its place and takes the
    new value, a new key goes last. *)
Fixpoint dict_set (d : list (text * pyvalue)) (k : text) (v : pyvalue)
  : list (text * pyvalue) :=
  match d with
  | [] => [(k, v)]
  | (k', v') :: r =>
      if decide (k' = k) then (k', v) :: r else (k', v') :: dict_set r k v
  end.

Definition dict_of_pairs (pairs : list (text * pyvalue))
  : list (text * pyvalue) :=
  fold_left (fun d kv => dict_set d kv.1 kv.2) pairs [].

(** [scan_once] with the array and object loops of the scanner.  The fuel
    bounds the number of nested calls. *)
Fixpoint parse_value (fuel : nat) (s : text) : option (pyvalue * text) :=
  match fuel with
  | O => None
  | S f =>
      match s with
      | [] => None
      | c :: r =>
          if (c =? 34)%N then
            match scanstring r with
            | Some (d, rest) => Some (PStr d, rest)
            | None => None
            end
          else if (c =? 91)%N then
            match skip_ws r with
            | [] => None
            | c1 :: r1 =>
                if (c1 =? 93)%N then Some (PList [], r1)
                else
                  match parse_items f (c1 :: r1) with
                  | Some (vs, rest) => Some (PList vs, rest)
                  | None => None
                  end
            end
          else if (c =? 123)%N then
            match skip_ws r with
            | [] => None
            | c1 :: r1 =>
                if (c1 =? 125)%N then Some (PDict [], r1)
                else
                  match parse_members f (c1 :: r1) with
                  | Some (kvs, rest) => Some (PDict (dict_of_pairs kvs), rest)
                  | None => None
                  end
            end
          else scan_atom s
      end
  end
with parse_items (fuel : nat) (s : text) : option (list pyvalue * text) :=
  match fuel with
  | O => None
  | S f =>
      match parse_value f s with
      | None => None
      | Some (v, r) =>
          match skip_ws r with
          | [] => None
          | c :: r1 =>
              if (c =? 93)%N then Some ([v], r1)
              else if (c =? 44)%N then
                match parse_items f (skip_ws r1) with
                | Some (vs, rest) => Some (v :: vs, rest)
                | None => None
                end
              else None
          end
      end
  end
with parse_members (fuel : nat) (s : text)
  : option (list (text * pyvalue) * text) :=
  match fuel with
  | O => None
  | S f =>
      match s with
      | [] => None
      | q :: r =>
          if (q =? 34)%N then
            match scanstring r with
            | None => None
            | Some (k, r1) =>
                match skip_ws r1 with
                | [] => None
                | c :: r2 =>
                    if (c =? 58)%N then
                      match parse_value f (skip_ws r2) with
                      | None => None
                      | Some (v, r3) =>
                          match skip_ws r3 with
                          | [] => None
                          | c' :: r4 =>
                              if (c' =? 125)%N then Some ([(k, v)], r4)
                              else if (c' =? 44)%N then
                                match parse_members f (skip_ws r4) with
                                | Some (kvs, rest) => Some ((k, v) :: kvs, rest)
                                | None => None
                                end
                              else None
                          end
                      end
                    else None
                end
            end
          else None
      end
  end.

(** [json.loads(s)]: leading white space, one value, trailing white space
    and nothing else; a byte order mark at the head is refused.  [None]
    where [json.loads] raises.  The fuel
    is the length of the text and one more; [calls_le_length] shows that
    it is enough for what the encoder writes. *)
Definition json_loads (s : text) : option pyvalue :=
  match s with
  | 65279%N :: _ => None
  | _ =>
      match parse_value (S (length s)) (skip_ws s) with
      | Some (v, r) =>
          match skip_ws r with
          | [] => Some v
          | _ :: _ => None
          end
      | None => None
      end
  end.

(* ===================================================================== *)
(** ** Vocabulary of the specification *)
(* ===================================================================== *)

(** A Unicode scalar value: a code point that is not a surrogate. *)
Definition scalar_value (c : N) : bool :=
  negb (is_surrogate c) && (c <=? 1114111)%N.

Definition unicode_text (s : text) : bool := forallb scalar_value s.

(** A JSON value: its strings are Unicode text (RFC 8259: a string is a
    sequence of Unicode characters), its floats are binary64 numbers, as
    every Python float is, and the keys of each of its objects are pairwise
    distinct, as in every Python dict.  [json.load] also builds strings
    that are not Unicode text, from an escape such as [\ud800] with no low
    surrogate after it. *)
Fixpoint json_value (v : pyvalue) : bool :=
  match v with
  | PNone | PBool _ | PInt _ => true
  | PFloat x => float64 x
  | PStr s => unicode_text s
  | PList l => forallb json_value l
  | PDict items =>
      bool_decide (NoDup (map fst items))
      && forallb (fun kv => unicode_text (fst kv) && json_value (snd kv)) items
  end.

(** The truncating slice of the specification: drop [start] elements, keep
    at most [count]. *)
Definition truncating_slice {A} (l : list A) (start count : Z) : list A :=
  take (Z.to_nat count) (drop (Z.to_nat start) l).

(** The ceiling of [a / b]. *)
Definition ceil_div (a b : Z) : Z := - ((- a) / b).

(** What a log shows on standard output, one entry per [print] call, and
    as the stream of characters: [print] ends each text with a line feed. *)
Definition printed (l : list event) : list text :=
  flat_map (fun ev => match ev with Printed t => [t] | Saved _ _ => [] end) l.

Definition stdout (l : list event) : text :=
  flat_map (fun t => t ++ [LF]) (printed l).

(** The files a log closes, in order, with their content. *)
Definition saved (l : list event) : list (text * text) :=
  flat_map (fun ev => match ev with Saved p c => [(p, c)] | Printed _ => [] end) l.

(** What the script does for the chunk of index [i]: the file, then the
    line. *)
Definition chunk_events (i : Z) (c : list pyvalue) : list event :=
  [Saved (filename i) (json_dumps (PList c));
   Printed (created_line (filename i) (Z.of_nat (length c)))].

Fixpoint chunks_events (i : Z) (cs : list (list pyvalue)) : list event :=
  match cs with
  | [] => []
  | c :: r => chunk_events i c ++ chunks_events (i + 1) r
  end.

(** The files after the writes of a log, each one replacing what its
    path held. *)
Definition replay (ws : list (text * text)) (fs : gmap text text)
  : gmap text text :=
  fold_left (fun m pc => <[fst pc := snd pc]> m) ws fs.

(** What the specification says of a run of [extract_batch] on a Dataset:
    it ends normally, having printed the serialization of the truncating
    slice and nothing else; what is on standard output decodes to that
    slice; beyond the end of the Dataset the text is the empty array. *)
Definition prints_slice (e : env) (start count : Z) (st : state)
           (l : list pyvalue) : Prop :=
  let batch := PList (truncating_slice l start count) in
  extract_batch e start count st
  = (Ok tt, State (files st) (log st ++ [Printed (json_dumps batch)]))
  /\ json_loads (stdout [Printed (json_dumps batch)]) = Some batch
  /\ (Z.of_nat (length l) <= start -> json_dumps batch = s2t "[]").

(** What the specification says of a run of [split_prompts] on a Dataset:
    the chunks are those of line 13, they make up the Dataset, there are
    [ceil (N / size)] of them and at least one unless the Dataset is
    empty; the run ends normally; its events are the line
    [Total items: N] and then, chunk after chunk from index 0, the
    artifact closed with the chunk's serialization and the line
    [Created <filename> with <n> items]; afterwards each artifact holds
    its chunk. *)
Definition writes_chunks (size : Z) (e : env) (st : state)
           (l : list pyvalue) : Prop :=
  exists cs : list (list pyvalue),
    chunks_of (python e) size (PList l) = Ok (map PList cs)
    /\ concat cs = l
    /\ Z.of_nat (length cs) = ceil_div (Z.of_nat (length l)) size
    /\ (l <> [] -> cs <> [])
    /\ split_prompts_with size e st
       = (Ok tt,
          State (replay (saved (chunks_events 0 cs)) (files st))
                (log st ++ Printed (total_line (Z.of_nat (length l)))
                          :: chunks_events 0 cs))
    /\ printed (Printed (total_line (Z.of_nat (length l))) :: chunks_events 0 cs)
       = total_line (Z.of_nat (length l))
         :: imap (fun k c => created_line (filename (Z.of_nat k))
                                          (Z.of_nat (length c))) cs
    /\ saved (Printed (total_line (Z.of_nat (length l))) :: chunks_events 0 cs)
       = imap (fun k c => (filename (Z.of_nat k), json_dumps (PList c))) cs
    /\ (forall (k : nat) c, cs !! k = Some c ->
          replay (saved (chunks_events 0 cs)) (files st)
            !! filename (Z.of_nat k)
          = Some (json_dumps (PList c))).

(** A statement that does not look at the state it starts in: its outcome
    and its events are the same from every state. *)
Definition oblivious {A} (m : M A) : Prop :=
  exists (r : result A) (evs : list event),
    forall st, m st = (r, State (replay (saved evs) (files st)) (log st ++ evs)).

(** The nested calls the decoder makes on the serialization of a value. *)
Fixpoint calls (v : pyvalue) : nat :=
  match v with
  | PList l =>
      S ((fix go (l : list pyvalue) : nat :=
            match l with
            | [] => O
            | x :: r => S (Nat.max (calls x) (go r))
            end) l)
  | PDict items =>
      S ((fix go (l : list (text * pyvalue)) : nat :=
            match l with
            | [] => O
            | kx :: r => S (Nat.max (calls (snd kx)) (go r))
            end) items)
  | _ => 1%nat
  end.

Definition calls_items (l : list pyvalue) : nat :=
  fold_right (fun x n => S (Nat.max (calls x) n)) O l.

Definition calls_members (l : list (text * pyvalue)) : nat :=
  fold_right (fun kx n => S (Nat.max (calls (snd kx)) n)) O l.

(** The text of a value at an indentation level: the encoder's pieces,
    joined. *)
Definition encode (level : nat) (v : pyvalue) : text :=
  concat (iterencode level v).

(** The text of the elements of a list after the first, and of the items
    of a dict after the first, each with the separator before it. *)
Definition list_tail (level : nat) (r : list pyvalue) : text :=
  flat_map (fun y => s2t "," ++ newline_indent (S level) ++ encode (S level) y) r.

Definition dict_tail (level : nat) (r : list (text * pyvalue)) : text :=
  flat_map (fun ky => s2t "," ++ newline_indent (S level)
                      ++ encode_basestring (fst ky) ++ s2t ": "
                      ++ encode (S level) (snd ky)) r.

(** A character a serialized value can start with. *)
Definition value_head (c : N) : bool :=
  ((c =? 34) || (c =? 91) || (c =? 123) || (c =? 45) || (c =? 110)
   || (c =? 116) || (c =? 102) || (c =? 78) || (c =? 73))%N || is_digit c.

(** Whether a text starts with a digit. *)
Definition digit_head (s : text) : bool :=
  match s with
  | c :: _ => is_digit c
  | [] => false
  end.

(** A text that ends a number before it: it does not go on with a digit,
    a point or an exponent. *)
Definition ends_number (s : text) : bool :=
  match s with
  | [] => true
  | c :: _ => negb (is_digit c || (c =? 46) || (c =? 101) || (c =? 69))%N
  end.

(** A decoded top-level value that is a JSON object, a number ([int] or
    [float]), a boolean or null: everything [json.load] returns but a list
    and a string. *)
Definition object_number_boolean_or_null (v : pyvalue) : bool :=
  match v with
  | PDict _ | PInt _ | PFloat _ | PBool _ | PNone => true
  | PList _ | PStr _ => false
  end.

(** A text that holds no line feed: printed, it is one line. *)
Definition single_line (t : text) : bool :=
  forallb (fun c => negb (c =? LF)%N) t.

(** A text that UTF-8 can encode: no surrogate in it. *)
Definition encodable (s : text) : Prop :=
  Forall (fun c => is_surrogate c = false) s.

(* ===================================================================== *)
(** * Properties *)
(* ===================================================================== *)
(* ===================================================================== *)
(** ** Slices and chunks *)
(* ===================================================================== *)

Section Slices.
Context {A : Type}.
Implicit Types l : list A.

(** With bounds that are not negative, the slice is take-after-drop. *)
Lemma py_slice_truncating l (start count : Z) :
  0 <= start -> 0 <= count ->
  py_slice l start (start + count) = truncating_slice l start count.
Proof.
  intros Hs Hc. unfold py_slice, truncating_slice, adjust_index.
  destruct (Z.ltb_spec start 0); [lia|].
  destruct (Z.ltb_spec (start + count) 0); [lia|].
  destruct (Z.le_gt_cases (Z.of_nat (length l)) start) as [Hge|Hlt].
  - rewrite Z.min_r by lia. rewrite Z.min_r by lia.
    rewrite !drop_ge by lia. by rewrite !take_nil.
  - rewrite (Z.min_l start) by lia.
    destruct (Z.le_gt_cases (start + count) (Z.of_nat (length l))).
    + rewrite Z.min_l by lia. f_equal. lia.
    + rewrite Z.min_r by lia.
      rewrite (take_ge _ (Z.to_nat count)) by (rewrite length_drop; lia).
      apply take_ge. rewrite length_drop. lia.
Qed.

Lemma truncating_slice_beyond l (start count : Z) :
  Z.of_nat (length l) <= start -> truncating_slice l start count = [].
Proof.
  intros H. unfold truncating_slice. rewrite drop_ge by lia. apply take_nil.
Qed.

(** The chunks of a list, taken one after the other, rebuild a prefix. *)
Lemma concat_chunks_take l (s m : nat) :
  concat (map (fun k : nat => take s (drop (k * s) l)) (seq 0 m))
  = take (m * s) l.
Proof.
  induction m as [|m IH]; [by rewrite take_0|].
  rewrite seq_S, map_app, concat_app, IH. simpl.
  rewrite app_nil_r, take_take_drop. f_equal. lia.
Qed.
End Slices.

Lemma rmap_ok {A B} (f : A -> result B) (g : A -> B) (l : list A) :
  (forall x, In x l -> f x = Ok (g x)) -> rmap f l = Ok (map g l).
Proof.
  induction l as [|x r IH]; intros H; [done|].
  simpl. rewrite H by (by left). simpl. rewrite IH; [done|].
  intros y Hy. apply H. by right.
Qed.

Lemma ceil_div_bounds (a b : Z) :
  0 < b -> (ceil_div a b - 1) * b < a <= ceil_div a b * b.
Proof.
  intros Hb. unfold ceil_div.
  pose proof (Z.div_mod (- a) b ltac:(lia)).
  pose proof (Z.mod_pos_bound (- a) b Hb). nia.
Qed.

Lemma range_len_ceil (n size : Z) :
  0 <= n -> 0 < size -> range_len 0 n size = ceil_div n size.
Proof.
  intros Hn Hs. unfold range_len.
  destruct (Z.ltb_spec 0 size); [|lia].
  pose proof (ceil_div_bounds n size Hs) as Hc.
  destruct (Z.ltb_spec 0 n).
  - rewrite Z.sub_0_r.
    pose proof (Z.div_mod (n - 1) size ltac:(lia)).
    pose proof (Z.mod_pos_bound (n - 1) size Hs). nia.
  - assert (n = 0) by lia. subst. nia.
Qed.

(** The chunk of index [k] of a list. *)
Lemma chunks_of_list (py : cpython) (size : Z) (l : list pyvalue) :
  0 < size ->
  chunks_of py size (PList l)
  = Ok (map (fun k : nat =>
               PList (take (Z.to_nat size) (drop (k * Z.to_nat size) l)))
            (seq 0 (Z.to_nat (ceil_div (Z.of_nat (length l)) size)))).
Proof.
  intros Hs. unfold chunks_of, py_range. simpl.
  destruct (Z.eqb_spec size 0); [lia|]. simpl.
  rewrite range_len_ceil by lia.
  rewrite (rmap_ok _ (fun i : Z =>
             PList (take (Z.to_nat size) (drop (Z.to_nat i) l)))).
  - rewrite map_map. f_equal. apply map_ext. intros k.
    do 3 f_equal. lia.
  - intros i Hi. apply in_map_iff in Hi as (k & <- & _). simpl.
    rewrite py_slice_truncating by lia. reflexivity.
Qed.

Lemma ceil_div_nat (n s : nat) :
  (0 < s)%nat ->
  let m := Z.to_nat (ceil_div (Z.of_nat n) (Z.of_nat s)) in
  Z.of_nat m = ceil_div (Z.of_nat n) (Z.of_nat s)
  /\ (n <= m * s)%nat /\ (forall k, (k < m)%nat -> (k * s < n)%nat).
Proof.
  intros Hs m. pose proof (ceil_div_bounds (Z.of_nat n) (Z.of_nat s) ltac:(lia)) as Hb.
  assert (0 <= ceil_div (Z.of_nat n) (Z.of_nat s)) by nia.
  assert (Hm : Z.of_nat m = ceil_div (Z.of_nat n) (Z.of_nat s)) by (unfold m; lia).
  split; [done|]. split; [nia|]. intros k Hk. nia.
Qed.

(** C2: for every Dataset and every positive chunk size, the chunks the
    script builds, concatenated in index order, are the Dataset itself,
    element for element. *)
Theorem chunks_concat (py : cpython) (size : Z) (l : list pyvalue) :
  0 < size ->
  exists cs : list (list pyvalue),
    chunks_of py size (PList l) = Ok (map PList cs) /\ concat cs = l.
Proof.
  intros Hs.
  exists (map (fun k : nat => take (Z.to_nat size) (drop (k * Z.to_nat size) l))
              (seq 0 (Z.to_nat (ceil_div (Z.of_nat (length l)) size)))).
  split.
  - rewrite chunks_of_list by done. by rewrite map_map.
  - rewrite concat_chunks_take. apply take_ge.
    destruct (ceil_div_nat (length l) (Z.to_nat size) ltac:(lia)) as (_ & H & _).
    rewrite Z2Nat.id in H by lia. done.
Qed.

Lemma chunks_concat_witness :
  exists cs : list (list pyvalue),
    chunks_of Py312 2 (PList [PInt 1; PInt 2; PInt 3]) = Ok (map PList cs)
    /\ concat cs = [PInt 1; PInt 2; PInt 3].
Proof. apply (chunks_concat Py312 2 [PInt 1; PInt 2; PInt 3]). lia. Defined.

(** C3: the script builds ceil(len(Dataset) / chunkSize) chunks; each one
    but the last holds exactly chunkSize elements, the last one between 1
    and chunkSize; no chunk is empty, and the empty Dataset gives no chunk
    at all. *)
Theorem chunks_count_and_sizes (py : cpython) (size : Z) (l : list pyvalue) :
  0 < size ->
  exists cs : list (list pyvalue),
    chunks_of py size (PList l) = Ok (map PList cs)
    /\ Z.of_nat (length cs) = ceil_div (Z.of_nat (length l)) size
    /\ (forall (i : nat) c, cs !! i = Some c -> (S i < length cs)%nat ->
          Z.of_nat (length c) = size)
    /\ (forall c, last cs = Some c -> 1 <= Z.of_nat (length c) <= size)
    /\ (forall c, c ∈ cs -> c <> [])
    /\ (l = [] -> cs = []).
Proof.
  intros Hs. set (s := Z.to_nat size).
  set (m := Z.to_nat (ceil_div (Z.of_nat (length l)) size)).
  destruct (ceil_div_nat (length l) s ltac:(lia)) as (Hm & Hle & Hlt).
  replace (Z.of_nat s) with size in * by lia. fold m in Hm, Hle, Hlt.
  set (cs := map (fun k : nat => take s (drop (k * s) l)) (seq 0 m)).
  assert (Hlen : length cs = m) by (unfold cs; by rewrite length_map, length_seq).
  assert (Hget : forall (i : nat) c, cs !! i = Some c ->
            (i < m)%nat /\ c = take s (drop (i * s) l)).
  { intros i c Hi. unfold cs in Hi. rewrite list_lookup_fmap in Hi.
    destruct (seq 0 m !! i) as [k|] eqn:Hk; [|done].
    apply lookup_seq in Hk as [-> ?]. simpl in Hi. by inversion Hi. }
  exists cs. split; [|split; [|split; [|split; [|split]]]].
  - unfold cs. rewrite chunks_of_list by done. by rewrite map_map.
  - lia.
  - intros i c Hi Hlast. apply Hget in Hi as [_ ->].
    rewrite length_take, length_drop.
    specialize (Hlt (S i) ltac:(lia)). lia.
  - intros c Hc. rewrite last_lookup in Hc. apply Hget in Hc as [Hi ->].
    rewrite length_take, length_drop.
    specialize (Hlt _ Hi). rewrite Hlen in *. nia.
  - intros c Hc. apply list_elem_of_lookup in Hc as [i Hi].
    apply Hget in Hi as [Hi ->]. specialize (Hlt _ Hi).
    intros E. apply (f_equal length) in E.
    rewrite length_take, length_drop in E. simpl in E. lia.
  - intros ->. unfold cs. simpl in *.
    destruct m; [done|]. specialize (Hlt 0%nat ltac:(lia)). lia.
Qed.

Lemma chunks_count_and_sizes_witness :
  exists cs : list (list pyvalue),
    chunks_of Py312 2 (PList [PInt 1; PInt 2; PInt 3]) = Ok (map PList cs)
    /\ Z.of_nat (length cs) = ceil_div (Z.of_nat 3) 2
    /\ (forall (i : nat) c, cs !! i = Some c -> (S i < length cs)%nat ->
          Z.of_nat (length c) = 2)
    /\ (forall c, last cs = Some c -> 1 <= Z.of_nat (length c) <= 2)
    /\ (forall c, c ∈ cs -> c <> [])
    /\ ([PInt 1; PInt 2; PInt 3] = [] -> cs = []).
Proof. apply (chunks_count_and_sizes Py312 2 [PInt 1; PInt 2; PInt 3]). lia. Defined.

(* ===================================================================== *)
(** ** Induction on values *)
(* ===================================================================== *)

Lemma pyvalue_ind (P : pyvalue -> Prop) :
  P PNone ->
  (forall b, P (PBool b)) ->
  (forall z, P (PInt z)) ->
  (forall x, P (PFloat x)) ->
  (forall s, P (PStr s)) ->
  (forall l, Forall P l -> P (PList l)) ->
  (forall items, Forall (fun kv => P (snd kv)) items -> P (PDict items)) ->
  forall v, P v.
Proof.
  intros HN HB HI HF HS HL HD.
  refine (fix IH (v : pyvalue) : P v :=
    match v with
    | PNone => HN
    | PBool b => HB b
    | PInt z => HI z
    | PFloat x => HF x
    | PStr s => HS s
    | PList l => HL l
        ((fix go (l : list pyvalue) : Forall P l :=
            match l with
            | [] => List.Forall_nil _
            | x :: r => List.Forall_cons _ _ _ (IH x) (go r)
            end) l)
    | PDict items => HD items
        ((fix go (l : list (text * pyvalue)) : Forall (fun kv => P (snd kv)) l :=
            match l with
            | [] => List.Forall_nil _
            | kx :: r => List.Forall_cons _ _ _ (IH (snd kx)) (go r)
            end) items)
    end).
Qed.

(* ===================================================================== *)
(** ** Floats: the nearest double *)
(* ===================================================================== *)

Lemma div_eucl_div_mod (a b : Z) : Z.div_eucl a b = (a / b, a mod b).
Proof. unfold Z.div, Z.modulo. by destruct (Z.div_eucl a b). Qed.

Lemma binade_scale (p q c : Z) :
  0 < q -> 0 < c -> binade (p * c) (q * c) = binade p q.
Proof.
  intros Hq Hc. unfold binade. rewrite !Z.shiftl_mul_pow2 by lia.
  replace (p * c * 2 ^ 1100) with (p * 2 ^ 1100 * c) by ring.
  by rewrite Z.div_mul_cancel_r by lia.
Qed.

Lemma round_quotient_scale (n d c : Z) :
  0 < d -> 0 < c -> round_quotient (n * c) (d * c) = round_quotient n d.
Proof.
  intros Hd Hc. unfold round_quotient. rewrite !div_eucl_div_mod.
  rewrite Z.div_mul_cancel_r, Z.mul_mod_distr_r by lia.
  assert (Hlt : forall a b, (a * c <? b * c) = (a <? b)).
  { intros a b. destruct (Z.ltb_spec (a * c) (b * c)), (Z.ltb_spec a b);
      try done; nia. }
  replace (2 * (n mod d * c)) with (2 * (n mod d) * c) by ring.
  by rewrite !Hlt.
Qed.

(** The nearest double of a quotient does not depend on the fraction that
    denotes it. *)
Lemma nearest_double_scale (neg : bool) (p q c : Z) :
  0 < q -> 0 < c ->
  nearest_double neg (p * c) (q * c) = nearest_double neg p q.
Proof.
  intros Hq Hc. unfold nearest_double. rewrite binade_scale by done.
  set (e := binade p q). f_equal.
  destruct (Z.leb_spec 0 e).
  - rewrite !Z.shiftl_mul_pow2 by lia.
    replace (q * c * 2 ^ e) with (q * 2 ^ e * c) by ring.
    apply round_quotient_scale; [|done].
    pose proof (Z.pow_pos_nonneg 2 e ltac:(lia) ltac:(lia)). nia.
  - rewrite !Z.shiftl_mul_pow2 by lia.
    replace (p * c * 2 ^ (- e)) with (p * 2 ^ (- e) * c) by ring.
    by apply round_quotient_scale.
Qed.

(** Zeros at the end of the digits of a literal may move into its
    exponent. *)
Lemma float_of_decimal_shift (neg : bool) (m e j : Z) :
  0 < m -> 0 <= j ->
  float_of_decimal neg (m * 10 ^ j) (e - j) = float_of_decimal neg m e.
Proof.
  intros Hm Hj. unfold float_of_decimal.
  pose proof (Z.pow_pos_nonneg 10 j ltac:(lia) Hj) as Hp.
  destruct (Z.eqb_spec (m * 10 ^ j) 0); [nia|].
  destruct (Z.eqb_spec m 0); [lia|].
  destruct (Z.leb_spec 0 (e - j)), (Z.leb_spec 0 e); try lia.
  - f_equal. rewrite <- Z.mul_assoc, <- Z.pow_add_r by lia. do 2 f_equal. lia.
  - rewrite <- (nearest_double_scale neg (m * 10 ^ e) 1 (10 ^ (j - e)))
      by (try apply Z.pow_pos_nonneg; lia).
    f_equal; [|by rewrite Z.mul_1_l; f_equal; lia].
    rewrite <- Z.mul_assoc, <- Z.pow_add_r by lia. do 2 f_equal. lia.
  - rewrite <- (nearest_double_scale neg m (10 ^ (- e)) (10 ^ j))
      by (try apply Z.pow_pos_nonneg; lia).
    f_equal. rewrite <- Z.pow_add_r by lia. f_equal. lia.
Qed.

Lemma digits2_size (m : positive) : digits2_pos m = Pos.size m.
Proof. induction m; simpl; congruence. Qed.

Lemma digits2_log2 (m : positive) :
  Z.pos (digits2_pos m) = Z.log2 (Z.pos m) + 1.
Proof.
  rewrite digits2_size. destruct m; simpl; rewrite ?Pos2Z.inj_succ; lia.
Qed.

(** What it is to be a double: at most 53 bits, the exponent of a normal
    number or the least one, and no more than the greatest. *)
Lemma bounded_spec (m : positive) (e : Z) :
  bounded 53 1024 m e = true ->
  Z.max (Z.log2 (Z.pos m) + e - 52) (-1074) = e /\ e <= 971.
Proof.
  unfold bounded, canonical_mantissa, fexp, emin. rewrite digits2_log2.
  intros H. apply andb_true_iff in H as [H1 H2].
  apply Z.eqb_eq in H1. apply Z.leb_le in H2. lia.
Qed.

(** A double is the nearest double of its own value. *)
Lemma nearest_double_exact (neg : bool) (m : positive) (e : Z) :
  bounded 53 1024 m e = true ->
  nearest_double neg (if 0 <=? e then Z.pos m * 2 ^ e else Z.pos m)
                     (if 0 <=? e then 1 else 2 ^ (- e))
  = S754_finite neg m e.
Proof.
  intros Hb. apply bounded_spec in Hb as [Hmax Hle].
  assert (Hlog : Z.log2 (Z.pos m) <= 52) by lia.
  assert (Hlt : Z.pos m < 2 ^ 53) by (apply Z.log2_lt_pow2; lia).
  assert (Hbin : binade (if 0 <=? e then Z.pos m * 2 ^ e else Z.pos m)
                        (if 0 <=? e then 1 else 2 ^ (- e)) = e).
  { unfold binade. rewrite Z.shiftl_mul_pow2 by lia.
    assert (Hq : (if 0 <=? e then Z.pos m * 2 ^ e else Z.pos m) * 2 ^ 1100
                 / (if 0 <=? e then 1 else 2 ^ (- e))
                 = Z.pos m * 2 ^ (1100 + e)).
    { destruct (Z.leb_spec 0 e).
      - rewrite Z.div_1_r, <- Z.mul_assoc, <- Z.pow_add_r by lia.
        do 2 f_equal. lia.
      - replace (2 ^ 1100) with (2 ^ (1100 + e) * 2 ^ (- e))
          by (rewrite <- Z.pow_add_r by lia; f_equal; lia).
        rewrite Z.mul_assoc, Z.div_mul; [done|].
        pose proof (Z.pow_pos_nonneg 2 (- e) ltac:(lia) ltac:(lia)). lia. }
    rewrite Hq, Z.log2_mul_pow2 by lia. lia. }
  unfold nearest_double. rewrite Hbin.
  assert (Hround : round_quotient
                     (if 0 <=? e
                      then if 0 <=? e then Z.pos m * 2 ^ e else Z.pos m
                      else Z.shiftl (if 0 <=? e then Z.pos m * 2 ^ e else Z.pos m)
                                    (- e))
                     (if 0 <=? e
                      then Z.shiftl (if 0 <=? e then 1 else 2 ^ (- e)) e
                      else if 0 <=? e then 1 else 2 ^ (- e))
                   = Z.pos m).
  { unfold round_quotient. rewrite div_eucl_div_mod.
    destruct (Z.leb_spec 0 e).
    - rewrite Z.shiftl_mul_pow2, Z.mul_1_l by lia.
      pose proof (Z.pow_pos_nonneg 2 e ltac:(lia) ltac:(lia)).
      rewrite Z.div_mul, Z.mod_mul by lia.
      destruct (Z.ltb_spec (2 * 0) (2 ^ e)); [done|lia].
    - rewrite Z.shiftl_mul_pow2 by lia.
      pose proof (Z.pow_pos_nonneg 2 (- e) ltac:(lia) ltac:(lia)).
      rewrite Z.div_mul, Z.mod_mul by lia.
      destruct (Z.ltb_spec (2 * 0) (2 ^ (- e))); [done|lia]. }
  rewrite Hround. unfold make_double.
  change 9007199254740992 with (2 ^ 53).
  destruct (Z.eqb_spec (Z.pos m) (2 ^ 53)); [lia|].
  destruct (Z.leb_spec e 971); [done|lia].
Qed.

Lemma float_of_decimal_exact (neg : bool) (m : positive) (e : Z) :
  bounded 53 1024 m e = true ->
  float_of_decimal neg (exact_decimal m e).1 (exact_decimal m e).2
  = S754_finite neg m e.
Proof.
  intros Hb. rewrite <- (nearest_double_exact neg m e Hb).
  unfold float_of_decimal, exact_decimal.
  destruct (Z.leb_spec 0 e) as [He|He]; cbn [fst snd].
  - pose proof (Z.pow_pos_nonneg 2 e ltac:(lia) He).
    destruct (Z.eqb_spec (Z.pos m * 2 ^ e) 0); [nia|].
    cbn. by rewrite Z.mul_1_r.
  - pose proof (Z.pow_pos_nonneg 5 (- e) ltac:(lia) ltac:(lia)).
    destruct (Z.eqb_spec (Z.pos m * 5 ^ (- e)) 0); [nia|].
    destruct (Z.leb_spec 0 e); [lia|].
    replace (10 ^ (- e)) with (2 ^ (- e) * 5 ^ (- e))
      by (rewrite <- Z.pow_mul_l; done).
    apply nearest_double_scale; [|done].
    apply Z.pow_pos_nonneg; lia.
Qed.

Lemma strip10_ok (neg : bool) (fuel : nat) :
  forall d q : Z, 0 < d ->
    0 < (strip10 fuel d q).1
    /\ float_of_decimal neg (strip10 fuel d q).1 (strip10 fuel d q).2
       = float_of_decimal neg d q.
Proof.
  induction fuel as [|f IH]; intros d q Hd; [done|].
  cbn [strip10].
  destruct (Z.eqb_spec (d mod 10) 0) as [Hz|]; [|done].
  destruct (Z.eqb_spec d 0); [lia|]. cbn [andb negb].
  assert (Hd10 : d = d / 10 * 10).
  { pose proof (Z.div_mod d 10 ltac:(lia)). lia. }
  destruct (IH (d / 10) (q + 1) ltac:(lia)) as [Hpos Heq].
  split; [done|]. rewrite Heq.
  rewrite <- (float_of_decimal_shift neg (d / 10) (q + 1) 1) by lia.
  f_equal; [lia|lia].
Qed.

Lemma same_double_eq (neg : bool) (d q : Z) (m : positive) (e : Z) :
  same_double (float_of_decimal neg d q) m e = true ->
  float_of_decimal neg d q = S754_finite neg m e.
Proof.
  unfold float_of_decimal, nearest_double, make_double.
  repeat match goal with
         | |- context [if ?b then _ else _] => destruct b
         | |- context [match ?x with Z0 => _ | Zpos _ => _ | Zneg _ => _ end] =>
             destruct x
         end; cbn [same_double]; try done;
    intros H; apply andb_true_iff in H as [H1 H2];
    apply Pos.eqb_eq in H1; apply Z.eqb_eq in H2; congruence.
Qed.

Lemma candidate_ok (neg : bool) (m : positive) (e k : Z) (n : nat) (c : Z * Z) :
  candidate neg m e k n = Some c ->
  0 < c.1 /\ float_of_decimal neg c.1 c.2 = S754_finite neg m e.
Proof.
  assert (Hok : forall d q,
             (0 <? d) && same_double (float_of_decimal neg d q) m e = true ->
             0 < d /\ float_of_decimal neg d q = S754_finite neg m e).
  { intros d q H. apply andb_true_iff in H as [H1 H2].
    apply Z.ltb_lt in H1. split; [done|]. by apply same_double_eq. }
  unfold candidate. cbv zeta. rewrite div_eucl_div_mod. intros H.
  repeat case_match; simplify_eq; cbn [fst snd]; by apply Hok.
Qed.

Lemma shortest_ok (neg : bool) (m : positive) (e k : Z) (fuel : nat) :
  forall (n : nat) (c : Z * Z),
    shortest neg m e k fuel n = Some c ->
    0 < c.1 /\ float_of_decimal neg c.1 c.2 = S754_finite neg m e.
Proof.
  induction fuel as [|f IH]; intros n c; [done|]. cbn [shortest].
  destruct (candidate neg m e k n) as [c'|] eqn:Hc.
  - intros [= <-]. by eapply candidate_ok.
  - apply IH.
Qed.

(** The digits [float_repr] prints denote a decimal that reads back as the
    double. *)
Lemma float_digits_ok (neg : bool) (m : positive) (e : Z) :
  bounded 53 1024 m e = true ->
  0 < (float_digits neg m e).1
  /\ float_of_decimal neg (float_digits neg m e).1 (float_digits neg m e).2
     = S754_finite neg m e.
Proof.
  intros Hb. unfold float_digits.
  set (k := decimal_exponent _ _).
  assert (Hc : forall c : Z * Z,
             match shortest neg m e k 17 1 with
             | Some c => c
             | None => exact_decimal m e
             end = c ->
             0 < c.1 /\ float_of_decimal neg c.1 c.2 = S754_finite neg m e).
  { intros c <-. destruct (shortest neg m e k 17 1) as [c|] eqn:Hs.
    - by eapply shortest_ok.
    - split; [|by apply float_of_decimal_exact].
      pose proof (Z.pow_pos_nonneg 2 e ltac:(lia)).
      pose proof (Z.pow_pos_nonneg 5 (- e) ltac:(lia)).
      unfold exact_decimal. destruct (Z.leb_spec 0 e); cbn [fst]; nia. }
  destruct (Hc _ eq_refl) as [Hpos Heq].
  set (c := match shortest neg m e k 17 1 with
            | Some c => c | None => exact_decimal m e end) in *.
  destruct (strip10_ok neg (Z.to_nat (Z.log2 c.1)) c.1 c.2 Hpos) as [H1 H2].
  split; [done|]. by rewrite H2.
Qed.

(* ===================================================================== *)
(** ** Floats: the text of a double reads back *)
(* ===================================================================== *)

Lemma digit_of_not_digit (c : N) : is_digit c = false -> digit_of c = None.
Proof.
  unfold is_digit, digit_of. intros H.
  repeat match goal with
         | |- context [(c =? ?k)%N] => destruct (N.eqb_spec c k) as [->|?]; [done|]
         end.
  reflexivity.
Qed.

Lemma scan_digits_stop (rest : text) :
  digit_head rest = false -> scan_digits rest = (Decimal.Nil, rest).
Proof.
  destruct rest as [|c r]; [done|]. cbn [digit_head scan_digits]. intros H.
  by rewrite digit_of_not_digit.
Qed.

Lemma scan_digits_text (u : Decimal.uint) (rest : text) :
  digit_head rest = false ->
  scan_digits (text_of_uint u ++ rest) = (u, rest).
Proof.
  intros H. induction u; cbn [text_of_uint app];
    [by apply scan_digits_stop|..];
    cbn [scan_digits digit_of N.eqb Pos.eqb]; by rewrite IHu.
Qed.

Lemma nzhead_not_D0 (u u' : Decimal.uint) : Decimal.nzhead u <> Decimal.D0 u'.
Proof. induction u; simpl; congruence. Qed.

(** The digits of a positive number do not start with a zero. *)
Lemma to_uint_head (p : positive) (u : Decimal.uint) :
  Pos.to_uint p <> Decimal.D0 u.
Proof.
  intros H.
  pose proof (DecimalPos.Unsigned.to_of (Pos.to_uint p)) as Hn.
  rewrite DecimalPos.Unsigned.of_to in Hn. cbn [N.to_uint] in Hn.
  rewrite H in Hn at 1. rewrite H in Hn. unfold Decimal.unorm in Hn.
  cbn [Decimal.nzhead] in Hn.
  destruct (Decimal.nzhead u) eqn:Hz; try congruence.
  - injection Hn as Hu. subst u.
    by apply (DecimalPos.Unsigned.to_uint_nonzero p).
  - by apply nzhead_not_D0 in Hz.
Qed.

(** The integer part of a literal. *)
Lemma scan_integer_int_str (n : Z) (rest : text) :
  0 <= n -> digit_head rest = false ->
  exists u : Decimal.uint,
    scan_integer (int_str n ++ rest) = Some (u, rest) /\ Z.of_uint u = n.
Proof.
  intros Hn H. unfold int_str. destruct n as [|p|p]; [| |lia].
  - exists (Decimal.D0 Decimal.Nil). by cbn.
  - cbn [Z.to_int text_of_int]. exists (Pos.to_uint p). split.
    + pose proof (to_uint_head p) as Hhead.
      pose proof (DecimalPos.Unsigned.to_uint_nonnil p) as Hnil.
      pose proof (scan_digits_text (Pos.to_uint p) rest H) as Hscan.
      destruct (Pos.to_uint p) as [|u|u|u|u|u|u|u|u|u|u];
        [done|by destruct (Hhead u)|..];
        cbn [text_of_uint app] in *; unfold scan_integer;
        cbn [N.eqb Pos.eqb is_digit N.leb N.compare Pos.compare
             Pos.compare_cont andb];
        by rewrite Hscan.
    + unfold Z.of_uint. by rewrite DecimalPos.Unsigned.of_to.
Qed.

Lemma is_digit_char (d : Z) :
  0 <= d < 10 -> is_digit (48 + Z.to_N d) = true
                 /\ Z.of_N (48 + Z.to_N d) - 48 = d.
Proof.
  intros H. unfold is_digit. split; [|lia].
  apply andb_true_iff. split; apply N.leb_le; lia.
Qed.

Lemma fixed_digits_digits (j : nat) :
  forall n : Z, Forall (fun c => is_digit c = true) (fixed_digits j n).
Proof.
  induction j as [|j IH]; intros n; [constructor|].
  cbn [fixed_digits]. apply Forall_app. split; [apply IH|].
  constructor; [|constructor].
  apply is_digit_char, Z.mod_pos_bound. lia.
Qed.

Lemma fixed_digits_length (j : nat) :
  forall n : Z, length (fixed_digits j n) = j.
Proof.
  induction j as [|j IH]; intros n; [done|].
  cbn [fixed_digits]. rewrite length_app, IH. cbn. lia.
Qed.

Lemma digits_val_snoc (ds : text) (c : N) :
  digits_val (ds ++ [c]) = 10 * digits_val ds + (Z.of_N c - 48).
Proof. unfold digits_val. by rewrite fold_left_app. Qed.

Lemma digits_val_fixed (j : nat) :
  forall n : Z, 0 <= n -> digits_val (fixed_digits j n) = n mod 10 ^ Z.of_nat j.
Proof.
  induction j as [|j IH]; intros n Hn.
  - cbn. by rewrite Z.mod_1_r.
  - cbn [fixed_digits]. rewrite digits_val_snoc, IH by (apply Z.div_pos; lia).
    destruct (is_digit_char (n mod 10)) as [_ ->];
      [apply Z.mod_pos_bound; lia|].
    rewrite Nat2Z.inj_succ, Z.pow_succ_r by lia.
    rewrite Z.rem_mul_r by (try apply Z.pow_pos_nonneg; lia). lia.
Qed.

Lemma span_digits_stop (rest : text) :
  digit_head rest = false -> span_digits rest = ([], rest).
Proof.
  destruct rest as [|c r]; [done|]. cbn [digit_head span_digits].
  by intros ->.
Qed.

Lemma span_digits_app (ds rest : text) :
  Forall (fun c => is_digit c = true) ds -> digit_head rest = false ->
  span_digits (ds ++ rest) = (ds, rest).
Proof.
  intros Hds Hrest. induction Hds as [|c ds Hc _ IH];
    [by apply span_digits_stop|].
  cbn [app span_digits]. by rewrite Hc, IH.
Qed.

Lemma ndigits_fuel_bound (f : nat) :
  forall n : Z, 0 <= n < 2 ^ (Z.of_nat f + 1) ->
    n < 10 ^ Z.of_nat (ndigits_fuel f n).
Proof.
  induction f as [|f IH]; intros n Hn.
  - cbn in *. lia.
  - cbn [ndigits_fuel]. destruct (Z.ltb_spec n 10); [cbn; lia|].
    rewrite Nat2Z.inj_succ, Z.pow_succ_r by lia.
    assert (Hdiv : 0 <= n / 10 < 2 ^ (Z.of_nat f + 1)).
    { split; [apply Z.div_pos; lia|].
      apply Z.div_lt_upper_bound; [lia|].
      rewrite Nat2Z.inj_succ in Hn.
      replace (Z.succ (Z.of_nat f) + 1) with (Z.succ (Z.of_nat f + 1)) in Hn by lia.
      rewrite Z.pow_succ_r in Hn by lia. lia. }
    specialize (IH _ Hdiv).
    pose proof (Z.div_mod n 10 ltac:(lia)).
    pose proof (Z.mod_pos_bound n 10 ltac:(lia)). lia.
Qed.

Lemma ndigits_bound (n : Z) : 0 <= n -> n < 10 ^ Z.of_nat (ndigits n).
Proof.
  intros Hn. apply ndigits_fuel_bound. split; [done|].
  destruct (Z.eq_dec n 0) as [->|]; [cbn; lia|].
  rewrite Z2Nat.id by apply Z.log2_nonneg.
  apply Z.log2_spec. lia.
Qed.

Lemma ndigits_pos (n : Z) : (1 <= ndigits n)%nat.
Proof.
  unfold ndigits. destruct (Z.to_nat (Z.log2 n)); cbn [ndigits_fuel]; [lia|].
  destruct (n <? 10); lia.
Qed.

Lemma digits_val_decimal (n : Z) : 0 <= n -> digits_val (decimal n) = n.
Proof.
  intros Hn. unfold decimal. rewrite digits_val_fixed by done.
  apply Z.mod_small. split; [done|by apply ndigits_bound].
Qed.

Lemma digit_head_app (ds rest : text) :
  Forall (fun c => is_digit c = true) ds -> ds <> [] ->
  digit_head (ds ++ rest) = true.
Proof. intros [|c t Hc _] Hne; [done|exact Hc]. Qed.

Lemma fixed_digits_nonempty (j : nat) (n : Z) : fixed_digits (S j) n <> [].
Proof.
  intros H. apply (f_equal length) in H.
  rewrite fixed_digits_length in H. done.
Qed.

Lemma ends_number_digit_head (rest : text) :
  ends_number rest = true -> digit_head rest = false.
Proof.
  destruct rest as [|c r]; [done|]. cbn [ends_number digit_head].
  by destruct (is_digit c).
Qed.

Lemma scan_exp_none (rest : text) :
  ends_number rest = true -> scan_exp rest = (None, rest).
Proof.
  destruct rest as [|c [|d r]]; [done|done|]. cbn [ends_number scan_exp].
  destruct (is_digit c), (c =? 46)%N, (c =? 101)%N, (c =? 69)%N; done.
Qed.

Lemma scan_frac_none (c : N) (rest : text) :
  (c =? 46)%N = false -> scan_frac (c :: rest) = ([], c :: rest).
Proof. intros H. destruct rest; [done|]. cbn [scan_frac]. by rewrite H. Qed.

Lemma scan_frac_digits (ds rest : text) :
  Forall (fun c => is_digit c = true) ds -> ds <> [] ->
  digit_head rest = false ->
  scan_frac (46%N :: ds ++ rest) = (ds, rest).
Proof.
  intros Hds Hne Hrest. pose proof (span_digits_app ds rest Hds Hrest) as Hs.
  destruct Hds as [|c t Hc Ht]; [done|].
  cbn [app scan_frac] in *. change (46 =? 46)%N with true. by rewrite Hc.
Qed.

Lemma exp_digits_facts (x : Z) :
  0 <= x ->
  Forall (fun c => is_digit c = true) (exp_digits x)
  /\ exp_digits x <> [] /\ digits_val (exp_digits x) = x.
Proof.
  intros Hx. unfold exp_digits.
  assert (Hd : Forall (fun c => is_digit c = true) (decimal x))
    by apply fixed_digits_digits.
  assert (Hne : decimal x <> []).
  { unfold decimal. pose proof (ndigits_pos x).
    destruct (ndigits x); [lia|apply fixed_digits_nonempty]. }
  destruct (x <? 10).
  - split; [by constructor|]. split; [done|].
    cbn [app]. unfold digits_val. cbn [fold_left].
    by apply digits_val_decimal.
  - cbn [app]. split; [done|]. split; [done|by apply digits_val_decimal].
Qed.

Lemma scan_exp_digits (sgn : N) (x : Z) (rest : text) :
  0 <= x -> sgn = 45%N \/ sgn = 43%N -> digit_head rest = false ->
  scan_exp (101%N :: sgn :: exp_digits x ++ rest)
  = (Some (if (sgn =? 45)%N then - x else x), rest).
Proof.
  intros Hx Hsgn Hrest.
  destruct (exp_digits_facts x Hx) as (Hds & Hne & Hval).
  pose proof (span_digits_app _ rest Hds Hrest) as Hs.
  pose proof (digit_head_app _ rest Hds Hne) as Hh.
  cbn [scan_exp]. change (101 =? 101)%N with true. cbn [orb].
  assert (Hnd : is_digit sgn = false) by (by destruct Hsgn as [-> | ->]).
  assert (Hpm : ((sgn =? 45) || (sgn =? 43))%N = true)
    by (by destruct Hsgn as [-> | ->]).
  rewrite Hnd, Hpm.
  destruct (exp_digits x ++ rest) as [|d' r'] eqn:Heq; [done|].
  cbn [digit_head] in Hh. rewrite Hh, Hs, Hval. done.
Qed.

Lemma float_tail_frac (ds rest : text) :
  Forall (fun c => is_digit c = true) ds -> ds <> [] ->
  float_tail (46%N :: ds ++ rest) = true.
Proof. intros [|c t Hc _] Hne; [done|]. exact Hc. Qed.

Lemma float_tail_exp (sgn : N) (x : Z) (rest : text) :
  0 <= x -> sgn = 45%N \/ sgn = 43%N ->
  float_tail (101%N :: sgn :: exp_digits x ++ rest) = true.
Proof.
  intros Hx Hsgn. destruct (exp_digits_facts x Hx) as (Hds & Hne & _).
  pose proof (digit_head_app _ rest Hds Hne) as Hh.
  cbn [float_tail]. change (101 =? 46)%N with false.
  change (101 =? 101)%N with true. cbn [orb].
  destruct (exp_digits x ++ rest) as [|d' r']; [done|].
  by destruct Hsgn as [-> | ->].
Qed.

(** The digits and the exponent, written as [float_repr] writes them, read
    back as the decimal they denote. *)
Lemma scan_float_format (neg : bool) (d q : Z) (rest : text) :
  0 < d -> ends_number rest = true ->
  scan_float neg (format_digits d q ++ rest)
  = Some (float_of_decimal neg d q, rest).
Proof.
  intros Hd Hrest. pose proof (ends_number_digit_head rest Hrest) as Hdh.
  unfold format_digits.
  pose proof (ndigits_pos d) as Hlen.
  set (len := Z.of_nat (ndigits d)) in *.
  assert (Hlen1 : 1 <= len) by (unfold len; lia).
  destruct ((q + len <=? -4) || (16 <? q + len)).
  - (* exponent form *)
    set (j := Z.to_nat (len - 1)).
    set (x := q + len - 1).
    set (sgn := if x <? 0 then 45%N else 43%N).
    assert (Hsgn : sgn = 45%N \/ sgn = 43%N)
      by (unfold sgn; destruct (x <? 0); auto).
    assert (Hx : (if (sgn =? 45)%N then - Z.abs x else Z.abs x) = x).
    { unfold sgn. destruct (Z.ltb_spec x 0); cbn; lia. }
    assert (Hip : 0 <= d / 10 ^ (len - 1))
      by (apply Z.div_pos; [lia|apply Z.pow_pos_nonneg; lia]).
    rewrite <- !app_assoc. unfold scan_float.
    destruct (Z.eqb_spec len 1) as [Hone|Hmore].
    + cbn [app].
      destruct (scan_integer_int_str (d / 10 ^ (len - 1))
                  (101%N :: sgn :: exp_digits (Z.abs x) ++ rest))
        as (u & -> & Hu); [done|done|].
      rewrite float_tail_exp by (done || lia).
      rewrite scan_frac_none by done.
      rewrite scan_exp_digits by (done || lia).
      unfold float_of_literal. cbn [length default from_option id]. rewrite Hu, Hx.
      assert (E1 : d / 10 ^ (len - 1) * 10 ^ Z.of_nat 0 + digits_val [] = d).
      { rewrite Hone. change (10 ^ (1 - 1)) with 1. rewrite Z.div_1_r.
        change (digits_val []) with 0. change (10 ^ Z.of_nat 0) with 1. lia. }
      assert (E2 : x - Z.of_nat 0 = q) by (unfold x; lia).
      by rewrite E1, E2.
    + assert (Hj : Z.of_nat j = len - 1) by (unfold j; lia).
      assert (Hjs : exists j', j = S j') by (exists (Nat.pred j); lia).
      destruct Hjs as [j' Hj'].
      pose proof (fixed_digits_digits j d) as Hfd.
      assert (Hne : fixed_digits j d <> [])
        by (rewrite Hj'; apply fixed_digits_nonempty).
      cbn [app].
      destruct (scan_integer_int_str (d / 10 ^ (len - 1))
                  (46%N :: fixed_digits j d
                   ++ 101%N :: sgn :: exp_digits (Z.abs x) ++ rest))
        as (u & -> & Hu); [done|done|].
      rewrite float_tail_frac by done.
      rewrite scan_frac_digits by done.
      rewrite scan_exp_digits by (done || lia).
      unfold float_of_literal. cbn [default from_option id].
      rewrite Hu, Hx, fixed_digits_length, digits_val_fixed, Hj by lia.
      assert (E1 : d / 10 ^ (len - 1) * 10 ^ (len - 1) + d mod 10 ^ (len - 1) = d).
      { pose proof (Z.pow_pos_nonneg 10 (len - 1) ltac:(lia) ltac:(lia)).
        pose proof (Z.div_mod d (10 ^ (len - 1)) ltac:(lia)). lia. }
      assert (E2 : x - (len - 1) = q) by (unfold x; lia).
      by rewrite E1, E2.
  - destruct (Z.ltb_spec q 0) as [Hq|Hq].
    + (* digits after the point *)
      set (j := Z.to_nat (- q)).
      assert (Hj : Z.of_nat j = - q) by (unfold j; lia).
      assert (Hjs : exists j', j = S j') by (exists (Nat.pred j); lia).
      destruct Hjs as [j' Hj'].
      pose proof (fixed_digits_digits j d) as Hfd.
      assert (Hne : fixed_digits j d <> [])
        by (rewrite Hj'; apply fixed_digits_nonempty).
      assert (Hip : 0 <= d / 10 ^ (- q))
        by (apply Z.div_pos; [lia|apply Z.pow_pos_nonneg; lia]).
      rewrite <- app_assoc. cbn [app]. unfold scan_float.
      destruct (scan_integer_int_str (d / 10 ^ (- q))
                  (46%N :: fixed_digits j d ++ rest))
        as (u & -> & Hu); [done|done|].
      rewrite float_tail_frac by done.
      rewrite scan_frac_digits by done.
      rewrite scan_exp_none by done.
      unfold float_of_literal. cbn [default from_option id].
      rewrite Hu, fixed_digits_length, digits_val_fixed, Hj by lia.
      assert (E1 : d / 10 ^ (- q) * 10 ^ (- q) + d mod 10 ^ (- q) = d).
      { pose proof (Z.pow_pos_nonneg 10 (- q) ltac:(lia) ltac:(lia)).
        pose proof (Z.div_mod d (10 ^ (- q)) ltac:(lia)). lia. }
      assert (E2 : 0 - - q = q) by lia.
      by rewrite E1, E2.
    + (* an integer, with a zero after the point *)
      pose proof (Z.pow_pos_nonneg 10 q ltac:(lia) Hq) as Hp.
      rewrite <- app_assoc. change (s2t ".0" ++ rest) with (46%N :: [48%N] ++ rest).
      unfold scan_float.
      destruct (scan_integer_int_str (d * 10 ^ q) (46%N :: [48%N] ++ rest))
        as (u & -> & Hu); [nia|done|].
      rewrite float_tail_frac by (done || by repeat constructor).
      rewrite scan_frac_digits by (done || by repeat constructor).
      rewrite scan_exp_none by done.
      unfold float_of_literal. cbn [default from_option id length]. rewrite Hu.
      rewrite <- (float_of_decimal_shift neg d q (q + 1)) by lia.
      assert (E1 : d * 10 ^ q * 10 ^ Z.of_nat 1 + digits_val [48%N]
                   = d * 10 ^ (q + 1)).
      { change (digits_val [48%N]) with 0. rewrite Z.pow_add_r by lia.
        change (10 ^ Z.of_nat 1) with 10. change (10 ^ 1) with 10. lia. }
      assert (E2 : 0 - Z.of_nat 1 = q - (q + 1)) by lia.
      by rewrite E1, E2.
Qed.

(* ===================================================================== *)
(** ** Text that can be printed *)
(* ===================================================================== *)

Lemma encodable_app (s t : text) : encodable s -> encodable t -> encodable (s ++ t).
Proof. apply Forall_app_2. Qed.

Lemma encodable_s2t (s : string) : encodable (s2t s).
Proof.
  induction s as [|c r IH]; [constructor|]. constructor; [|exact IH].
  pose proof (N_ascii_bounded c) as Hc. unfold is_surrogate.
  destruct (N.leb_spec 55296 (N_of_ascii c)); [lia|done].
Qed.

Lemma encodable_uint (u : Decimal.uint) : encodable (text_of_uint u).
Proof. induction u; simpl; constructor; done. Qed.

Lemma encodable_int_str (z : Z) : encodable (int_str z).
Proof.
  unfold int_str. destruct (Z.to_int z); simpl;
    [|constructor; [done|]]; apply encodable_uint.
Qed.

Lemma encodable_digits (ds : text) :
  Forall (fun c => is_digit c = true) ds -> encodable ds.
Proof.
  intros H. eapply Forall_impl; [exact H|]. intros c Hc. unfold is_digit in Hc.
  apply andb_true_iff in Hc as [_ Hle]. apply N.leb_le in Hle.
  unfold is_surrogate. destruct (N.leb_spec 55296 c); [lia|done].
Qed.

Lemma encodable_format_digits (d q : Z) : encodable (format_digits d q).
Proof.
  unfold format_digits, exp_digits, decimal.
  repeat match goal with
         | |- context [if ?b then _ else _] => destruct b
         end;
    repeat first
      [ apply encodable_int_str
      | apply (encodable_s2t ".0")
      | apply encodable_digits, fixed_digits_digits
      | apply encodable_app
      | apply List.Forall_cons; [done|]
      | apply List.Forall_nil ].
Qed.

(** The text of a float is ASCII. *)
Lemma encodable_floatstr (x : spec_float) : encodable (floatstr x).
Proof.
  unfold floatstr, float_repr. destruct x as [[]|[]| |[] m e];
    try (by apply encodable_s2t).
  - apply encodable_app; [by constructor|apply encodable_format_digits].
  - apply encodable_app; [constructor|apply encodable_format_digits].
Qed.

Lemma find_surrogate_encodable (s : text) (pos : Z) :
  encodable s -> find_surrogate pos s = None.
Proof.
  intros H. revert pos. induction H as [|c r Hc _ IH]; intros pos; [done|].
  simpl. by rewrite Hc.
Qed.

Lemma utf8_strict_encodable (s : text) : encodable s -> utf8_strict s = Ok s.
Proof. intros H. unfold utf8_strict. by rewrite find_surrogate_encodable. Qed.

Lemma find_surrogate_some (s : text) (pos : Z) :
  ~ encodable s -> exists x, find_surrogate pos s = Some x.
Proof.
  revert pos. induction s as [|c r IH]; intros pos H.
  - destruct H. constructor.
  - simpl. destruct (is_surrogate c) eqn:Hc; [eauto|].
    apply IH. intros Hr. apply H. by constructor.
Qed.

Lemma utf8_strict_raises (s : text) :
  ~ encodable s ->
  exists msg, utf8_strict s = Raise (Exn UnicodeEncodeError msg).
Proof.
  intros H. unfold utf8_strict.
  destruct (find_surrogate_some s 0 H) as ([[a c] b] & ->). eauto.
Qed.

Lemma print_encodable (t : text) (st : state) :
  encodable t ->
  print t st = (Ok tt, State (files st) (log st ++ [Printed t])).
Proof. intros H. unfold print. by rewrite utf8_strict_encodable. Qed.

Lemma print_raises_unchanged (t : text) (st st' : state) (err : pyexn) :
  print t st = (Raise err, st') -> st' = st.
Proof.
  unfold print. destruct (utf8_strict t); intros [= ]; congruence.
Qed.

Lemma write_pieces_encodable (pieces : list text) (written : text) :
  Forall encodable pieces ->
  write_pieces pieces written = (written ++ concat pieces, Ok tt).
Proof.
  intros H. revert written. induction H as [|p r Hp _ IH]; intros written; simpl.
  - by rewrite app_nil_r.
  - rewrite utf8_strict_encodable by done. rewrite IH. by rewrite <- app_assoc.
Qed.

(* ===================================================================== *)
(** ** The encoder writes Unicode text for a JSON value *)
(* ===================================================================== *)

Lemma scalar_not_surrogate (c : N) : scalar_value c = true -> is_surrogate c = false.
Proof. unfold scalar_value. destruct (is_surrogate c); [done|done]. Qed.

Lemma unicode_text_encodable (s : text) : unicode_text s = true -> encodable s.
Proof.
  unfold unicode_text, encodable. rewrite forallb_forall, Forall_forall.
  intros H c Hc. apply scalar_not_surrogate, H. by apply list_elem_of_In.
Qed.

Lemma encodable_hex_digit (d : N) : (d < 16)%N -> is_surrogate (hex_digit d) = false.
Proof.
  intros H. unfold hex_digit, is_surrogate.
  destruct (N.ltb_spec d 10); destruct (N.leb_spec 55296 (48 + d));
    destruct (N.leb_spec 55296 (87 + d)); try done; lia.
Qed.

Lemma encodable_escape_char (c : N) :
  is_surrogate c = false -> encodable (escape_char c).
Proof.
  intros Hc. unfold escape_char.
  repeat (match goal with |- context [if ?b then _ else _] => destruct b eqn:? end;
          [by repeat constructor|]).
  match goal with |- context [if ?b then _ else _] => destruct b eqn:Hlt end.
  - apply N.ltb_lt in Hlt.
    repeat (constructor; [try done|]); [| |constructor].
    + apply encodable_hex_digit. apply N.Div0.div_lt_upper_bound. lia.
    + apply encodable_hex_digit. apply N.mod_lt. lia.
  - by repeat constructor.
Qed.

Lemma encodable_basestring (s : text) :
  encodable s -> encodable (encode_basestring s).
Proof.
  intros H. unfold encode_basestring. constructor; [done|].
  apply encodable_app; [|by repeat constructor].
  induction H as [|c r Hc _ IH]; simpl; [constructor|].
  apply encodable_app; [by apply encodable_escape_char|done].
Qed.

Lemma encodable_newline_indent (level : nat) : encodable (newline_indent level).
Proof.
  unfold newline_indent. constructor; [done|].
  apply Forall_forall. intros c Hc. apply list_elem_of_In, repeat_spec in Hc.
  by subst.
Qed.

Lemma encodable_sep (s : string) (level : nat) :
  encodable (s2t s ++ newline_indent level).
Proof. apply encodable_app; [apply encodable_s2t|apply encodable_newline_indent]. Qed.

Lemma scalar_text_encodable (v : pyvalue) (t : text) :
  json_value v = true -> scalar_text v = Some t -> encodable t.
Proof.
  destruct v as [|[]|z|x|s|l|items]; cbn [scalar_text json_value];
    intros Hv [= <-].
  - apply (encodable_s2t "null").
  - apply (encodable_s2t "true").
  - apply (encodable_s2t "false").
  - apply encodable_int_str.
  - apply encodable_floatstr.
  - by apply encodable_basestring, unicode_text_encodable.
Qed.

Lemma emit_encodable (rec : pyvalue -> list text) (buf : text) (v : pyvalue) :
  json_value v = true -> encodable buf -> Forall encodable (rec v) ->
  Forall encodable (emit rec buf v).
Proof.
  intros Hv Hb Hr. unfold emit. destruct (scalar_text v) as [t|] eqn:Ht.
  - constructor; [|constructor].
    apply encodable_app; [done|]. by apply (scalar_text_encodable v).
  - by constructor.
Qed.

Lemma emit_plain_encodable (rec : pyvalue -> list text) (v : pyvalue) :
  json_value v = true -> Forall encodable (rec v) ->
  Forall encodable (emit_plain rec v).
Proof.
  intros Hv Hr. unfold emit_plain. destruct (scalar_text v) as [t|] eqn:Ht; [|done].
  constructor; [|constructor]. by apply (scalar_text_encodable v).
Qed.

Lemma iterencode_encodable (v : pyvalue) :
  forall level, json_value v = true -> Forall encodable (iterencode level v).
Proof.
  induction v as [|b|z|x|s|l IH|items IH] using pyvalue_ind;
    intros level Hv.
  - repeat constructor.
  - destruct b; repeat constructor.
  - constructor; [apply encodable_int_str|constructor].
  - constructor; [apply encodable_floatstr|constructor].
  - constructor; [|constructor].
    by apply encodable_basestring, unicode_text_encodable.
  - destruct l as [|x r]; [repeat constructor|].
    simpl in Hv. apply andb_true_iff in Hv as [Hx Hr].
    apply Forall_cons in IH as [IHx IHr].
    cbn [iterencode]. apply Forall_app_2; [|apply Forall_app_2].
    + apply emit_encodable; [done| |by apply IHx].
      apply (encodable_sep "[").
    + clear IHx Hx x. induction r as [|y r IHl]; simpl; [constructor|].
      simpl in Hr. apply andb_true_iff in Hr as [Hy Hr].
      apply Forall_cons in IHr as [IHy IHr].
      apply Forall_app_2; [|by apply IHl].
      apply emit_encodable; [done| |by apply IHy].
      apply (encodable_sep ",").
    + constructor; [apply encodable_newline_indent|].
      constructor; [apply (encodable_s2t "]")|constructor].
  - destruct items as [|[k x] r]; [repeat constructor|].
    simpl in Hv. apply andb_true_iff in Hv as [_ Hv].
    apply andb_true_iff in Hv as [Hkx Hr].
    apply andb_true_iff in Hkx as [Hk Hx].
    apply Forall_cons in IH as [IHx IHr]. simpl in IHx.
    cbn [iterencode fst snd].
    constructor; [apply (encodable_s2t "{")|].
    constructor; [apply encodable_newline_indent|].
    constructor; [by apply encodable_basestring, unicode_text_encodable|].
    constructor; [apply (encodable_s2t ": ")|].
    apply Forall_app_2; [by apply emit_plain_encodable, IHx|].
    apply Forall_app_2.
    + clear IHx Hx Hk k x. induction r as [|[k y] r IHl]; simpl; [constructor|].
      simpl in Hr. apply andb_true_iff in Hr as [Hky Hr].
      apply andb_true_iff in Hky as [Hk Hy].
      apply Forall_cons in IHr as [IHy IHr]. simpl in IHy.
      constructor;
        [apply (encodable_sep ",")|].
      constructor; [by apply encodable_basestring, unicode_text_encodable|].
      constructor; [apply (encodable_s2t ": ")|].
      apply Forall_app_2; [by apply emit_plain_encodable, IHy|by apply IHl].
    + constructor; [apply encodable_newline_indent|].
      constructor; [apply (encodable_s2t "}")|constructor].
Qed.

Lemma json_dumps_encodable (v : pyvalue) :
  json_value v = true -> encodable (json_dumps v).
Proof.
  intros Hv. unfold json_dumps.
  pose proof (iterencode_encodable v 0%nat Hv) as H.
  induction H as [|p r Hp _ IH]; simpl; [constructor|by apply encodable_app].
Qed.

Lemma json_value_slice (l : list pyvalue) (start count : Z) :
  json_value (PList l) = true ->
  json_value (PList (truncating_slice l start count)) = true.
Proof.
  simpl. rewrite !forallb_forall. intros H x Hx. apply H.
  unfold truncating_slice in Hx.
  apply list_elem_of_In in Hx. apply list_elem_of_In.
  by eapply subseteq_drop, subseteq_take.
Qed.

(* ===================================================================== *)
(** ** [extract_batch]: what a run does *)
(* ===================================================================== *)

Lemma try_block_unfold (e : env) (start count : Z) (st : state) :
  try_block e start count st =
  match source e with
  | Raise err => (Raise err, st)
  | Ok data =>
      match getitem_slice (python e) data start (start + count) with
      | Raise err => (Raise err, st)
      | Ok batch => print (json_dumps batch) st
      end
  end.
Proof.
  unfold try_block, load, lift, mbind, M_bind.
  destruct (source e) as [data|err]; [|done].
  by destruct (getitem_slice (python e) data start (start + count)).
Qed.

(** A failure of the [try] block leaves the state as it was: nothing is
    printed before the text is encoded. *)
Lemma try_block_raises_unchanged (e : env) (start count : Z)
      (st st' : state) (err : pyexn) :
  try_block e start count st = (Raise err, st') -> st' = st.
Proof.
  rewrite try_block_unfold.
  destruct (source e) as [data|err0]; [|by intros [= ]].
  destruct (getitem_slice (python e) data start (start + count)) as [batch|err0];
    [|by intros [= ]].
  apply print_raises_unchanged.
Qed.

Lemma print_error_line (err : pyexn) (st : state) :
  print (s2t "Error: " ++ s2t (exn_str err)) st
  = (Ok tt, State (files st)
                  (log st ++ [Printed (s2t "Error: " ++ s2t (exn_str err))])).
Proof. apply print_encodable, encodable_app; apply encodable_s2t. Qed.

(** A failure while locating, reading or parsing the source file is a
    failure of the [try] block. *)
Lemma try_block_source_failure (e : env) (start count : Z) (st : state)
      (err : pyexn) :
  source e = Raise err -> try_block e start count st = (Raise err, st).
Proof. intros H. rewrite try_block_unfold. by rewrite H. Qed.

(** So is a failure to encode the serialized batch for standard output. *)
Lemma try_block_print_failure (e : env) (start count : Z) (st : state)
      (l : list pyvalue) :
  source e = Ok (PList l) ->
  ~ encodable (json_dumps (PList (py_slice l start (start + count)))) ->
  exists msg,
    try_block e start count st = (Raise (Exn UnicodeEncodeError msg), st).
Proof.
  intros Hs Hne. rewrite try_block_unfold, Hs. simpl.
  destruct (utf8_strict_raises _ Hne) as [msg Hmsg].
  exists msg. unfold print. by rewrite Hmsg.
Qed.

(** C4: whatever fails in the [try] block, be it locating, reading or
    parsing the source file, slicing, or writing the serialized batch, is
    caught when it is an [Exception]: the run prints the one line
    [Error: <message>] on standard output and returns normally. *)
Theorem extract_batch_catches (e : env) (start count : Z) (st : state)
        (err : pyexn) :
  fst (try_block e start count st) = Raise err ->
  is_Exception (exn_cls err) = true ->
  extract_batch e start count st
  = (Ok tt, State (files st)
                  (log st ++ [Printed (s2t "Error: " ++ s2t (exn_str err))])).
Proof.
  intros Hfail Hexn. unfold extract_batch, try_except.
  destruct (try_block e start count st) as [r st'] eqn:Hrun.
  simpl in Hfail. subst r.
  apply try_block_raises_unchanged in Hrun as ->.
  rewrite Hexn. apply print_error_line.
Qed.

Lemma extract_batch_catches_witness :
  let e := Env Py312 (Raise (Exn FileNotFoundError
                 "[Errno 2] No such file or directory: 'data/prompts.json'"))
               (fun _ => None) in
  extract_batch e 30 50 init
  = (Ok tt, State ∅
      [Printed (s2t "Error: [Errno 2] No such file or directory: 'data/prompts.json'")]).
Proof.
  intros e.
  apply (extract_batch_catches e 30 50 init
           (Exn FileNotFoundError
              "[Errno 2] No such file or directory: 'data/prompts.json'"));
    reflexivity.
Defined.

(** C8: a run of [extract_batch] only prints: it closes no file and leaves
    the files as they were, whatever the arguments and whatever the source
    file holds. *)
Theorem extract_batch_only_prints (e : env) (start count : Z) (st : state) :
  let st' := snd (extract_batch e start count st) in
  files st' = files st
  /\ exists lines : list text, log st' = log st ++ map Printed lines.
Proof.
  unfold extract_batch, try_except. rewrite try_block_unfold.
  assert (Hprint : forall t s,
            files (snd (print t s)) = files s
            /\ exists lines, log (snd (print t s)) = log s ++ map Printed lines).
  { intros t s. unfold print. destruct (utf8_strict t); simpl.
    - split; [done|]. by exists [t].
    - split; [done|]. exists []. by rewrite app_nil_r. }
  assert (Hsame : files st = files st
                  /\ exists lines, log st = log st ++ map Printed lines).
  { split; [done|]. exists []. by rewrite app_nil_r. }
  assert (Hcatch : forall err,
    let r := if is_Exception (exn_cls err)
             then print (s2t "Error: " ++ s2t (exn_str err)) st
             else (Raise err, st) in
    files (snd r) = files st
    /\ exists lines, log (snd r) = log st ++ map Printed lines).
  { intros err. simpl. destruct (is_Exception (exn_cls err)); [apply Hprint|done]. }
  destruct (source e) as [data|err]; [|apply Hcatch].
  destruct (getitem_slice (python e) data start (start + count)) as [batch|err];
    [|apply Hcatch].
  destruct (print (json_dumps batch) st) as [[[]|err] st1] eqn:Hp.
  - pose proof (Hprint (json_dumps batch) st) as H. by rewrite Hp in H.
  - apply print_raises_unchanged in Hp as ->. apply Hcatch.
Qed.

Lemma s2t_append (a b : string) : s2t (a ++ b) = s2t a ++ s2t b.
Proof.
  induction a as [|c a IH]; [done|].
  change (s2t (String c (a ++ b)) = (N_of_ascii c :: s2t a) ++ s2t b).
  change (s2t (String c (a ++ b))) with (N_of_ascii c :: s2t (a ++ b)).
  by rewrite IH.
Qed.

Lemma single_line_app (s t : text) :
  single_line (s ++ t) = single_line s && single_line t.
Proof. apply forallb_app. Qed.

Lemma single_line_uint (u : Decimal.uint) : single_line (s2t (string_of_uint u)) = true.
Proof. induction u; [done|..]; exact IHu. Qed.

Lemma single_line_int_repr (z : Z) : single_line (s2t (int_repr z)) = true.
Proof.
  unfold int_repr. destruct (Z.to_int z) as [u|u]; [apply single_line_uint|].
  exact (single_line_uint u).
Qed.

Lemma getitem_slice_not_sequence (py : cpython) (v : pyvalue) (lo hi : Z) :
  object_number_boolean_or_null v = true ->
  exists err,
    getitem_slice py v lo hi = Raise err
    /\ is_Exception (exn_cls err) = true
    /\ single_line (s2t (exn_str err)) = true.
Proof.
  destruct py, v as [|b|z|x|s|l|items]; intros Hv; try done;
    (eexists; split; [reflexivity|split; [reflexivity|]]);
    try reflexivity.
  cbn [exn_str]. rewrite !s2t_append, !single_line_app.
  by rewrite !single_line_int_repr.
Qed.

Lemma error_line_not_json (msg : text) :
  json_loads (stdout [Printed (s2t "Error: " ++ msg)]) = None.
Proof. reflexivity. Qed.

(** C9: when the source file holds well-formed JSON whose top-level value
    is an object, a number, [int] or [float], a boolean or null, the slice
    raises, whatever the interpreter, the exception is caught, and the run
    prints one [Error:] line, which is not JSON, and returns normally. *)
Theorem extract_batch_not_an_array (e : env) (start count : Z) (st : state)
        (v : pyvalue) :
  source e = Ok v ->
  object_number_boolean_or_null v = true ->
  exists err,
    getitem_slice (python e) v start (start + count) = Raise err
    /\ extract_batch e start count st
       = (Ok tt, State (files st)
                   (log st ++ [Printed (s2t "Error: " ++ s2t (exn_str err))]))
    /\ single_line (s2t "Error: " ++ s2t (exn_str err)) = true
    /\ json_loads (stdout [Printed (s2t "Error: " ++ s2t (exn_str err))]) = None.
Proof.
  intros Hs Hv.
  destruct (getitem_slice_not_sequence (python e) v start (start + count) Hv)
    as (err & Hget & Hexn & Hline).
  exists err. split; [done|]. split; [|split].
  - unfold extract_batch, try_except.
    rewrite try_block_unfold, Hs, Hget, Hexn. apply print_error_line.
  - rewrite single_line_app, Hline. reflexivity.
  - apply error_line_not_json.
Qed.

Lemma extract_batch_not_an_array_witness :
  let v := PFloat (float_of_decimal false 15 (-1)) in
  let e := Env Py311 (Ok v) (fun _ => None) in
  exists err,
    getitem_slice (python e) v 30 (30 + 50) = Raise err
    /\ extract_batch e 30 50 init
       = (Ok tt, State (files init)
                   (log init ++ [Printed (s2t "Error: " ++ s2t (exn_str err))]))
    /\ single_line (s2t "Error: " ++ s2t (exn_str err)) = true
    /\ json_loads (stdout [Printed (s2t "Error: " ++ s2t (exn_str err))]) = None.
Proof.
  intros v e.
  apply (extract_batch_not_an_array e 30 50 init v); reflexivity.
Defined.

(** The line for each kind of value, and for a dict on either side of
    CPython 3.12. *)
Example extract_batch_not_an_array_lines :
  let run py v := printed (log (snd (extract_batch (Env py (Ok v) (fun _ => None))
                                                   30 50 init))) in
  run Py312 (PFloat (float_of_decimal false 15 (-1)))
  = [s2t "Error: 'float' object is not subscriptable"]
  /\ run Py312 (PInt 7) = [s2t "Error: 'int' object is not subscriptable"]
  /\ run Py312 (PBool true) = [s2t "Error: 'bool' object is not subscriptable"]
  /\ run Py312 PNone = [s2t "Error: 'NoneType' object is not subscriptable"]
  /\ run Py312 (PDict [(s2t "a", PInt 1)]) = [s2t "Error: slice(30, 80, None)"]
  /\ run Py311 (PDict [(s2t "a", PInt 1)])
     = [s2t "Error: unhashable type: 'slice'"].
Proof. vm_compute. repeat split. Qed.

(* ===================================================================== *)
(** ** [split_prompts]: what a run does *)
(* ===================================================================== *)

Lemma bind_ok {A B} (m : M A) (k : A -> M B) (st st1 : state) (a : A) :
  m st = (Ok a, st1) -> (m ≫= k) st = k a st1.
Proof. intros H. unfold mbind, M_bind. by rewrite H. Qed.

Lemma bind_raise {A B} (m : M A) (k : A -> M B) (st st1 : state) (err : pyexn) :
  m st = (Raise err, st1) -> (m ≫= k) st = (Raise err, st1).
Proof. intros H. unfold mbind, M_bind. by rewrite H. Qed.

Lemma for_each_app {A} (pre post : list A) (body : A -> M unit) (st : state) :
  for_each (pre ++ post) body st =
  match for_each pre body st with
  | (Ok _, st1) => for_each post body st1
  | (Raise err, st1) => (Raise err, st1)
  end.
Proof.
  revert st. induction pre as [|x pre IH]; intros st; [done|].
  cbn [for_each app]. unfold mbind, M_bind.
  destruct (body x st) as [[[]|err] st1]; [apply IH|done].
Qed.

Lemma split_prompts_unfold (size : Z) (e : env) (st : state) :
  split_prompts_with size e st =
  match source e with
  | Raise err => (Raise err, st)
  | Ok data =>
      match py_len data with
      | Raise err => (Raise err, st)
      | Ok n =>
          match print (total_line n) st with
          | (Raise err, st0) => (Raise err, st0)
          | (Ok _, st0) =>
              match chunks_of (python e) size data with
              | Raise err => (Raise err, st0)
              | Ok cs => for_each (enumerate cs) (write_chunk e) st0
              end
          end
      end
  end.
Proof.
  unfold split_prompts_with, load, lift, mbind, M_bind.
  destruct (source e) as [data|err]; [|done].
  destruct (py_len data) as [n|err]; [|done].
  destruct (print _ st) as [[[]|err] st0]; [|done].
  by destruct (chunks_of (python e) size data).
Qed.

Lemma print_total_line (n : Z) (st : state) :
  print (total_line n) st
  = (Ok tt, State (files st) (log st ++ [Printed (total_line n)])).
Proof.
  apply print_encodable, encodable_app;
    [apply encodable_s2t|apply encodable_int_str].
Qed.

Lemma encodable_filename (i : Z) : encodable (filename i).
Proof.
  unfold filename. apply encodable_app; [apply encodable_s2t|].
  apply encodable_app; [apply encodable_int_str|apply encodable_s2t].
Qed.

Lemma print_created_line (name : text) (n : Z) (st : state) :
  encodable name ->
  print (created_line name n) st
  = (Ok tt, State (files st) (log st ++ [Printed (created_line name n)])).
Proof.
  intros Hn. apply print_encodable. unfold created_line.
  apply encodable_app; [apply encodable_s2t|].
  apply encodable_app; [done|].
  apply encodable_app; [apply encodable_s2t|].
  apply encodable_app; [apply encodable_int_str|apply encodable_s2t].
Qed.

(** A file that can be created takes the whole serialization of a JSON
    value. *)
Lemma dump_to_file_ok (e : env) (path : text) (v : pyvalue) (st : state) :
  open_w e path = None -> json_value v = true ->
  dump_to_file e path v st
  = (Ok tt, State (<[path := json_dumps v]> (files st))
                  (log st ++ [Saved path (json_dumps v)])).
Proof.
  intros Ho Hv. unfold dump_to_file. rewrite Ho.
  rewrite write_pieces_encodable by (by apply iterencode_encodable).
  reflexivity.
Qed.

Lemma write_chunk_ok (e : env) (i : Z) (c : list pyvalue) (st : state) :
  open_w e (filename i) = None -> json_value (PList c) = true ->
  write_chunk e (i, PList c) st
  = (Ok tt, State (<[filename i := json_dumps (PList c)]> (files st))
                  (log st ++ chunk_events i c)).
Proof.
  intros Ho Hv. unfold write_chunk. cbn [fst snd].
  erewrite bind_ok by (by apply dump_to_file_ok).
  unfold lift, py_len, mbind, M_bind.
  rewrite print_created_line by apply encodable_filename.
  cbn [files log]. unfold chunk_events. by rewrite <- app_assoc.
Qed.

(** C10: on the empty Dataset the script ends normally, prints the one
    line [Total items: 0] and closes no file. *)
Theorem split_prompts_empty (e : env) (st : state) :
  source e = Ok (PList []) ->
  split_prompts e st
  = (Ok tt, State (files st) (log st ++ [Printed (s2t "Total items: 0")])).
Proof.
  intros Hs. unfold split_prompts. rewrite split_prompts_unfold, Hs.
  cbn [py_len length]. rewrite print_total_line. reflexivity.
Qed.

Lemma split_prompts_empty_witness :
  split_prompts (Env Py312 (Ok (PList [])) (fun _ => None)) init
  = (Ok tt, State ∅ [Printed (s2t "Total items: 0")]).
Proof.
  apply (split_prompts_empty (Env Py312 (Ok (PList [])) (fun _ => None)) init).
  reflexivity.
Defined.

(** C5: the script catches nothing.  A failure while locating, reading or
    parsing the source file ends the run at once, with that exception and
    nothing printed or written; and when the loop has handled the chunks
    before and creating or writing the artifact of the next one raises, the
    run ends there, with that exception and in the state the failed write
    left. *)
Theorem split_prompts_propagates (size : Z) (e : env) (st : state)
        (err : pyexn) :
  (source e = Raise err -> split_prompts_with size e st = (Raise err, st))
  /\ (forall data n cs pre ic post st1 st2,
        source e = Ok data -> py_len data = Ok n ->
        chunks_of (python e) size data = Ok cs ->
        enumerate cs = pre ++ ic :: post ->
        for_each pre (write_chunk e)
                 (State (files st) (log st ++ [Printed (total_line n)]))
        = (Ok tt, st1) ->
        dump_to_file e (filename (fst ic)) (snd ic) st1 = (Raise err, st2) ->
        split_prompts_with size e st = (Raise err, st2)).
Proof.
  split.
  - intros Hs. rewrite split_prompts_unfold. by rewrite Hs.
  - intros data n cs pre ic post st1 st2 Hs Hn Hcs Hsplit Hpre Hfail.
    rewrite split_prompts_unfold, Hs, Hn, print_total_line, Hcs, Hsplit.
    rewrite for_each_app, Hpre. cbn [for_each].
    apply bind_raise. unfold write_chunk. by apply bind_raise.
Qed.

Lemma split_prompts_propagates_witness :
  let missing := Exn FileNotFoundError
                   "[Errno 2] No such file or directory: 'data/prompts.json'" in
  let denied := Exn PermissionError
                  "[Errno 13] Permission denied: 'data/temp_chunk_0.json'" in
  split_prompts_with 50 (Env Py312 (Raise missing) (fun _ => None)) init
  = (Raise missing, init)
  /\ split_prompts_with 50 (Env Py312 (Ok (PList [PInt 1])) (fun _ => Some denied)) init
     = (Raise denied, State ∅ [Printed (total_line 1)]).
Proof.
  intros missing denied. split.
  - apply (proj1 (split_prompts_propagates 50
                    (Env Py312 (Raise missing) (fun _ => None)) init missing)).
    reflexivity.
  - apply (proj2 (split_prompts_propagates 50
                    (Env Py312 (Ok (PList [PInt 1])) (fun _ => Some denied))
                    init denied)
             (PList [PInt 1]) 1 [PList [PInt 1]] [] (0, PList [PInt 1]) []
             (State ∅ [Printed (total_line 1)]));
      reflexivity.
Defined.

(* ===================================================================== *)
(** ** Artifact names and the files after a run *)
(* ===================================================================== *)

Lemma text_of_uint_inj (u u' : Decimal.uint) :
  text_of_uint u = text_of_uint u' -> u = u'.
Proof.
  revert u'. induction u; destruct u'; simpl; intros H;
    try done; injection H as H; f_equal; auto.
Qed.

Lemma text_of_uint_no_minus (u : Decimal.uint) (r : text) :
  text_of_uint u <> 45%N :: r.
Proof. destruct u; simpl; congruence. Qed.

Lemma int_str_inj (i j : Z) : int_str i = int_str j -> i = j.
Proof.
  unfold int_str. intros H. apply DecimalZ.to_int_inj.
  destruct (Z.to_int i) as [u|u], (Z.to_int j) as [u'|u']; simpl in H.
  - f_equal. by apply text_of_uint_inj.
  - by apply text_of_uint_no_minus in H.
  - symmetry in H. by apply text_of_uint_no_minus in H.
  - injection H as H. f_equal. by apply text_of_uint_inj.
Qed.

(** Distinct indexes give distinct artifact names. *)
Lemma filename_inj (i j : Z) : filename i = filename j -> i = j.
Proof.
  unfold filename. intros H.
  apply app_inv_head, app_inv_tail in H. by apply int_str_inj.
Qed.

Lemma replay_app (ws ws' : list (text * text)) (fs : gmap text text) :
  replay (ws ++ ws') fs = replay ws' (replay ws fs).
Proof. apply fold_left_app. Qed.

Lemma saved_app (l l' : list event) : saved (l ++ l') = saved l ++ saved l'.
Proof. apply flat_map_app. Qed.

Lemma printed_app (l l' : list event) : printed (l ++ l') = printed l ++ printed l'.
Proof. apply flat_map_app. Qed.

Lemma replay_lookup_other (ws : list (text * text)) (fs : gmap text text)
      (p : text) :
  p ∉ ws.*1 -> replay ws fs !! p = fs !! p.
Proof.
  revert fs. induction ws as [|[q c] ws IH]; intros fs Hp; [done|].
  cbn [replay fold_left fst snd]. fold (replay ws (<[q:=c]> fs)).
  rewrite fmap_cons, not_elem_of_cons in Hp. destruct Hp as [Hq Hp].
  rewrite IH by done. by rewrite lookup_insert_ne.
Qed.

(** Replaying the same writes depends on the files only where the writes
    do not reach. *)
Lemma replay_agree (ws : list (text * text)) (fs fs' : gmap text text) :
  (forall p, p ∉ ws.*1 -> fs !! p = fs' !! p) -> replay ws fs = replay ws fs'.
Proof.
  revert fs fs'. induction ws as [|[q c] ws IH]; intros fs fs' H.
  - apply map_eq. intros p. apply H. apply not_elem_of_nil.
  - cbn [replay fold_left fst snd]. apply IH. intros p Hp.
    destruct (decide (p = q)) as [->|Hne].
    + by rewrite !lookup_insert_eq.
    + rewrite !lookup_insert_ne by done. apply H.
      rewrite fmap_cons, not_elem_of_cons. done.
Qed.

Lemma replay_twice (ws : list (text * text)) (fs : gmap text text) :
  replay ws (replay ws fs) = replay ws fs.
Proof. apply replay_agree. intros p Hp. by apply replay_lookup_other. Qed.

Lemma saved_chunks_events (i : Z) (cs : list (list pyvalue)) :
  saved (chunks_events i cs)
  = imap (fun k c => (filename (i + Z.of_nat k), json_dumps (PList c))) cs.
Proof.
  revert i. induction cs as [|c cs IH]; intros i; [done|].
  cbn [chunks_events]. rewrite saved_app, IH. cbn [imap].
  rewrite Z.add_0_r. cbn. f_equal. apply imap_ext. intros k x _. simpl.
  do 2 f_equal. lia.
Qed.

Lemma printed_chunks_events (i : Z) (cs : list (list pyvalue)) :
  printed (chunks_events i cs)
  = imap (fun k c => created_line (filename (i + Z.of_nat k))
                                  (Z.of_nat (length c))) cs.
Proof.
  revert i. induction cs as [|c cs IH]; intros i; [done|].
  cbn [chunks_events]. rewrite printed_app, IH. cbn [imap].
  rewrite Z.add_0_r. cbn. f_equal. apply imap_ext. intros k x _. simpl.
  do 2 f_equal. lia.
Qed.

(** After the writes, the artifact of each chunk holds that chunk. *)
Lemma replay_chunks_lookup (cs : list (list pyvalue)) :
  forall (i : Z) (fs : gmap text text) (k : nat) (c : list pyvalue),
    cs !! k = Some c ->
    replay (saved (chunks_events i cs)) fs !! filename (i + Z.of_nat k)
    = Some (json_dumps (PList c)).
Proof.
  induction cs as [|c0 cs IH]; intros i fs k c Hk; [done|].
  cbn [chunks_events]. rewrite saved_app, replay_app.
  destruct k as [|k].
  - injection Hk as ->. rewrite Z.add_0_r.
    rewrite replay_lookup_other.
    + cbn. by rewrite lookup_insert_eq.
    + rewrite saved_chunks_events, fmap_imap. intros Hin.
      apply elem_of_lookup_imap in Hin as (j & x & Hf & _). simpl in Hf.
      apply filename_inj in Hf. lia.
  - simpl in Hk. replace (i + Z.of_nat (S k)) with ((i + 1) + Z.of_nat k) by lia.
    by apply IH.
Qed.

Lemma for_each_chunks (e : env) (cs : list (list pyvalue)) :
  forall (i : Z) (st : state),
    (forall k : nat, (k < length cs)%nat ->
       open_w e (filename (i + Z.of_nat k)) = None) ->
    Forall (fun c => json_value (PList c) = true) cs ->
    for_each (enumerate_from i (map PList cs)) (write_chunk e) st
    = (Ok tt, State (replay (saved (chunks_events i cs)) (files st))
                    (log st ++ chunks_events i cs)).
Proof.
  induction cs as [|c cs IH]; intros i st Hopen Hjson.
  - destruct st as [fs lg]. cbn. by rewrite app_nil_r.
  - apply Forall_cons in Hjson as [Hc Hcs].
    cbn [map enumerate_from for_each chunks_events].
    erewrite bind_ok; cycle 1.
    { apply write_chunk_ok; [|done].
      specialize (Hopen 0%nat ltac:(simpl; lia)). by rewrite Z.add_0_r in Hopen. }
    rewrite IH; [|intros k Hk|done].
    + cbn [files log]. rewrite saved_app, replay_app, <- app_assoc. reflexivity.
    + replace (i + 1 + Z.of_nat k) with (i + Z.of_nat (S k)) by lia.
      apply Hopen. simpl. lia.
Qed.




(* ===================================================================== *)
(** ** Running the script again *)
(* ===================================================================== *)

Lemma oblivious_lift {A} (r : result A) : oblivious (lift r).
Proof.
  exists r, []. intros [fs lg]. unfold lift. cbn. by rewrite app_nil_r.
Qed.

Lemma oblivious_ret {A} (a : A) : oblivious (mret a : M A).
Proof. exact (oblivious_lift (Ok a)). Qed.

Lemma oblivious_print (t : text) : oblivious (print t).
Proof.
  unfold print. destruct (utf8_strict t) as [t'|err].
  - exists (Ok tt), [Printed t]. by intros [fs lg].
  - exists (Raise err), []. intros [fs lg]. cbn. by rewrite app_nil_r.
Qed.

Lemma oblivious_dump_to_file (e : env) (path : text) (v : pyvalue) :
  oblivious (dump_to_file e path v).
Proof.
  unfold dump_to_file. destruct (open_w e path) as [err|].
  - exists (Raise err), []. intros [fs lg]. cbn. by rewrite app_nil_r.
  - destruct (write_pieces (iterencode 0 v) []) as [content r].
    exists r, [Saved path content]. by intros [fs lg].
Qed.

Lemma oblivious_bind {A B} (m : M A) (k : A -> M B) :
  oblivious m -> (forall a, oblivious (k a)) -> oblivious (m ≫= k).
Proof.
  intros (r & evs & Hm) Hk. destruct r as [a|err].
  - destruct (Hk a) as (r' & evs' & Hka).
    exists r', (evs ++ evs'). intros st.
    unfold mbind, M_bind. rewrite Hm, Hka. cbn [files log].
    by rewrite saved_app, replay_app, <- app_assoc.
  - exists (Raise err), evs. intros st.
    unfold mbind, M_bind. by rewrite Hm.
Qed.

Lemma oblivious_for_each {A} (l : list A) (body : A -> M unit) :
  (forall x, oblivious (body x)) -> oblivious (for_each l body).
Proof.
  intros Hb. induction l as [|x l IH]; [apply oblivious_ret|].
  cbn [for_each]. apply oblivious_bind; [apply Hb|done].
Qed.

Lemma oblivious_write_chunk (e : env) (ic : Z * pyvalue) :
  oblivious (write_chunk e ic).
Proof.
  unfold write_chunk. apply oblivious_bind; [apply oblivious_dump_to_file|].
  intros _. apply oblivious_bind; [apply oblivious_lift|].
  intros n. apply oblivious_print.
Qed.

Lemma oblivious_split_prompts (size : Z) (e : env) :
  oblivious (split_prompts_with size e).
Proof.
  unfold split_prompts_with, load.
  apply oblivious_bind; [apply oblivious_lift|]. intros data.
  apply oblivious_bind; [apply oblivious_lift|]. intros n.
  apply oblivious_bind; [apply oblivious_print|]. intros _.
  apply oblivious_bind; [apply oblivious_lift|]. intros cs.
  apply oblivious_for_each. intros ic. apply oblivious_write_chunk.
Qed.

(** C7: run again on the unchanged source, whatever the Dataset and the
    chunk size, the script ends the same way and does the same things in
    the same order, closing the same artifacts with the same content; the
    files after the second run are the files after the first. *)
Theorem split_prompts_rerun (size : Z) (e : env) (st : state) :
  let run1 := split_prompts_with size e st in
  let run2 := split_prompts_with size e (snd run1) in
  fst run2 = fst run1
  /\ files (snd run2) = files (snd run1)
  /\ exists evs : list event,
       log (snd run1) = log st ++ evs
       /\ log (snd run2) = log (snd run1) ++ evs.
Proof.
  destruct (oblivious_split_prompts size e) as (r & evs & H).
  cbn zeta. rewrite !H. cbn [fst snd files log].
  split; [done|]. split; [apply replay_twice|]. by exists evs.
Qed.

(** No artifact is the source file: a run leaves the Dataset as it is. *)
Lemma filename_not_source (i : Z) : filename i <> source_path.
Proof. unfold filename, source_path. intros H. cbv [s2t app] in H. discriminate H. Qed.

(* ===================================================================== *)
(** ** Decoding what the encoder wrote: strings and numbers *)
(* ===================================================================== *)

Lemma hex_val_hex_digit (d : N) : (d < 16)%N -> hex_val (hex_digit d) = Some d.
Proof.
  intros H. unfold hex_val, hex_digit.
  destruct (N.ltb_spec d 10).
  - destruct (N.leb_spec 48 (48 + d)); [|lia].
    destruct (N.leb_spec (48 + d) 57); [|lia]. cbn. f_equal. lia.
  - destruct (N.leb_spec 48 (87 + d)); [|lia].
    destruct (N.leb_spec (87 + d) 57); [lia|]. cbn.
    destruct (N.leb_spec 97 (87 + d)); [|lia].
    destruct (N.leb_spec (87 + d) 102); [|lia]. cbn. f_equal. lia.
Qed.

(** One character of a string, escaped, reads back as that character. *)
Lemma scanstring_escape_char (c : N) (t : text) :
  scanstring (escape_char c ++ t) = cons_char c (scanstring t).
Proof.
  unfold escape_char.
  destruct (N.eqb_spec c 34) as [->|H34]; [reflexivity|].
  destruct (N.eqb_spec c 92) as [->|H92]; [reflexivity|].
  destruct (N.eqb_spec c 10) as [->|H10]; [reflexivity|].
  destruct (N.eqb_spec c 13) as [->|H13]; [reflexivity|].
  destruct (N.eqb_spec c 9) as [->|H9]; [reflexivity|].
  destruct (N.eqb_spec c 8) as [->|H8]; [reflexivity|].
  destruct (N.eqb_spec c 12) as [->|H12]; [reflexivity|].
  destruct (N.ltb_spec c 32) as [Hlt|Hge].
  - cbn [app scanstring]. cbn [N.eqb Pos.eqb].
    unfold hex4_val. change (hex_val 48) with (Some 0%N).
    rewrite !hex_val_hex_digit
      by (first [apply N.Div0.div_lt_upper_bound; lia | apply N.mod_lt; lia]).
    assert (Hu : (0 * 4096 + 0 * 256 + c / 16 * 16 + c mod 16 = c)%N).
    { pose proof (N.div_mod c 16 ltac:(lia)). lia. }
    rewrite Hu.
    assert (Hhigh : is_high_surrogate c = false).
    { unfold is_high_surrogate. destruct (N.leb_spec 55296 c); [lia|done]. }
    rewrite Hhigh. cbn [andb].
    destruct t as [|b [|e' r3]]; reflexivity.
  - cbn [app scanstring].
    destruct (N.eqb_spec c 34); [done|]. destruct (N.eqb_spec c 92); [done|].
    destruct (N.ltb_spec c 32); [lia|]. reflexivity.
Qed.

Lemma scanstring_escaped (s rest : text) :
  scanstring (flat_map escape_char s ++ 34%N :: rest) = Some (s, rest).
Proof.
  induction s as [|c s IH]; [reflexivity|].
  cbn [flat_map]. rewrite <- app_assoc, scanstring_escape_char, IH. reflexivity.
Qed.

Lemma encode_basestring_app (s rest : text) :
  encode_basestring s ++ rest = 34%N :: flat_map escape_char s ++ 34%N :: rest.
Proof. unfold encode_basestring. cbn [app]. by rewrite <- app_assoc. Qed.

Lemma ends_number_digits (rest : text) :
  ends_number rest = true -> scan_digits rest = (Decimal.Nil, rest).
Proof.
  destruct rest as [|c r]; [done|]. cbn [ends_number scan_digits]. intros H.
  rewrite digit_of_not_digit; [done|].
  by destruct (is_digit c).
Qed.

Lemma ends_number_float_tail (rest : text) :
  ends_number rest = true -> float_tail rest = false.
Proof.
  destruct rest as [|c [|d r]]; [done|done|]. cbn [ends_number float_tail].
  destruct (is_digit c), (c =? 46)%N, (c =? 101)%N, (c =? 69)%N; done.
Qed.

Lemma scan_digits_uint (u : Decimal.uint) (rest : text) :
  ends_number rest = true ->
  scan_digits (text_of_uint u ++ rest) = (u, rest).
Proof.
  intros H. induction u; cbn [text_of_uint app];
    [by apply ends_number_digits|..];
    cbn [scan_digits]; change (digit_of _) with (Some Decimal.D0) ||
    idtac; cbn [digit_of N.eqb Pos.eqb]; by rewrite IHu.
Qed.

Lemma scan_integer_to_uint (p : positive) (rest : text) :
  ends_number rest = true ->
  scan_integer (text_of_uint (Pos.to_uint p) ++ rest)
  = Some (Pos.to_uint p, rest).
Proof.
  intros H. pose proof (to_uint_head p) as Hhead.
  pose proof (DecimalPos.Unsigned.to_uint_nonnil p) as Hnil.
  pose proof (scan_digits_uint (Pos.to_uint p) rest H) as Hscan.
  destruct (Pos.to_uint p) as [|u|u|u|u|u|u|u|u|u|u]; [done|by destruct (Hhead u)|..];
    cbn [text_of_uint app] in *; unfold scan_integer;
    cbn [N.eqb Pos.eqb is_digit N.leb N.compare Pos.compare Pos.compare_cont andb];
    by rewrite Hscan.
Qed.

(** An integer, printed, reads back as that integer. *)
Lemma scan_number_int_str (z : Z) (rest : text) :
  ends_number rest = true ->
  scan_number (int_str z ++ rest) = Some (PInt z, rest).
Proof.
  intros H. pose proof (ends_number_float_tail rest H) as Hf.
  unfold int_str. destruct z as [|p|p]; cbn [Z.to_int text_of_int].
  - cbn. by rewrite Hf.
  - pose proof (scan_integer_to_uint p rest H) as Hs.
    pose proof (to_uint_head p) as Hhead.
    pose proof (DecimalPos.Unsigned.to_uint_nonnil p) as Hnil.
    unfold scan_number.
    destruct (text_of_uint (Pos.to_uint p) ++ rest) as [|c r] eqn:Ht.
    { destruct (Pos.to_uint p); done. }
    assert (Hc : (c =? 45)%N = false).
    { destruct (Pos.to_uint p); cbn in Ht; try done; by injection Ht as <- _. }
    rewrite Hc, Hs, Hf. do 3 f_equal.
    exact (DecimalZ.of_to (Z.pos p)).
  - pose proof (scan_integer_to_uint p rest H) as Hs.
    unfold scan_number. cbn [app N.eqb Pos.eqb]. rewrite Hs, Hf.
    do 3 f_equal. exact (DecimalZ.of_to (Z.neg p)).
Qed.

(** Where the text of an integer starts: a digit or a minus sign. *)
Lemma int_str_head (z : Z) :
  exists c t, int_str z = c :: t /\ (is_digit c = true \/ c = 45%N).
Proof.
  unfold int_str. destruct z as [|p|p]; cbn [Z.to_int text_of_int].
  - exists 48%N, []. by split; [|left].
  - pose proof (DecimalPos.Unsigned.to_uint_nonnil p).
    destruct (Pos.to_uint p); [done|..]; eexists _, _; (split; [reflexivity|by left]).
  - eexists _, _. split; [reflexivity|by right].
Qed.

Lemma digit_head_uint (u : Decimal.uint) (t : text) :
  u <> Decimal.Nil -> digit_head (text_of_uint u ++ t) = true.
Proof. by destruct u. Qed.

Lemma digit_head_int_str (n : Z) (t : text) :
  0 <= n -> digit_head (int_str n ++ t) = true.
Proof.
  intros Hn. unfold int_str. destruct n as [|p|p]; [done| |lia].
  apply digit_head_uint, DecimalPos.Unsigned.to_uint_nonnil.
Qed.

(** A text that starts like a number is none of the names the scanner
    knows. *)
Lemma scan_atom_number (c : N) (r : text) :
  is_digit c = true \/ (c = 45%N /\ digit_head r = true) ->
  scan_atom (c :: r) = scan_number (c :: r).
Proof.
  intros Hc. unfold scan_atom.
  change (s2t "null") with (110%N :: s2t "ull").
  change (s2t "true") with (116%N :: s2t "rue").
  change (s2t "false") with (102%N :: s2t "alse").
  change (s2t "NaN") with (78%N :: s2t "aN").
  change (s2t "Infinity") with (73%N :: s2t "nfinity").
  change (s2t "-Infinity") with (45%N :: 73%N :: s2t "nfinity").
  cbn [strip_prefix].
  destruct Hc as [Hd|[-> Hr]].
  - unfold is_digit in Hd. apply andb_true_iff in Hd as [Hge Hle].
    apply N.leb_le in Hge, Hle.
    repeat match goal with
           | |- context [(?k =? c)%N] =>
               destruct (N.eqb_spec k c) as [?|_]; [lia|]
           end.
    reflexivity.
  - change (110 =? 45)%N with false. change (116 =? 45)%N with false.
    change (102 =? 45)%N with false. change (78 =? 45)%N with false.
    change (73 =? 45)%N with false. change (45 =? 45)%N with true.
    destruct r as [|d r']; [done|].
    cbn [digit_head] in Hr. cbn [strip_prefix].
    destruct (N.eqb_spec 73 d) as [<-|_]; [done|reflexivity].
Qed.

Lemma scan_atom_int_str (z : Z) (rest : text) :
  ends_number rest = true ->
  scan_atom (int_str z ++ rest) = Some (PInt z, rest).
Proof.
  intros H. rewrite <- (scan_number_int_str z rest H).
  unfold int_str. destruct z as [|p|p]; cbn [Z.to_int text_of_int].
  - apply scan_atom_number. by left.
  - pose proof (digit_head_uint (Pos.to_uint p) rest
                  (DecimalPos.Unsigned.to_uint_nonnil p)) as Hh.
    destruct (text_of_uint (Pos.to_uint p) ++ rest) as [|c r]; [done|].
    apply scan_atom_number. by left.
  - cbn [app]. apply scan_atom_number. right. split; [done|].
    apply digit_head_uint, DecimalPos.Unsigned.to_uint_nonnil.
Qed.

(* ===================================================================== *)
(** ** The text the encoder writes *)
(* ===================================================================== *)

Lemma json_dumps_encode (v : pyvalue) : json_dumps v = encode 0 v.
Proof. reflexivity. Qed.

Lemma encode_scalar (level : nat) (v : pyvalue) (t : text) :
  scalar_text v = Some t -> encode level v = t.
Proof.
  unfold encode.
  destruct v as [|[]|z|x|s|l|items]; cbn [scalar_text iterencode];
    intros [= <-]; cbn [concat]; by rewrite app_nil_r.
Qed.

Lemma concat_emit_plain (level : nat) (v : pyvalue) :
  concat (emit_plain (iterencode level) v) = encode level v.
Proof.
  unfold emit_plain. destruct (scalar_text v) as [t|] eqn:Ht; [|done].
  rewrite (encode_scalar level v t Ht). cbn [concat]. by rewrite app_nil_r.
Qed.

Lemma concat_emit (level : nat) (buf : text) (v : pyvalue) :
  concat (emit (iterencode level) buf v) = buf ++ encode level v.
Proof.
  unfold emit. destruct (scalar_text v) as [t|] eqn:Ht; [|done].
  rewrite (encode_scalar level v t Ht). cbn [concat]. by rewrite app_nil_r.
Qed.

Lemma concat_flat_map {A} (f : A -> list text) (l : list A) :
  concat (flat_map f l) = flat_map (fun x => concat (f x)) l.
Proof.
  induction l as [|x l IH]; [done|].
  cbn [flat_map]. by rewrite concat_app, IH.
Qed.

Lemma list_tail_pieces (level : nat) (r : list pyvalue) :
  flat_map (fun y => concat (emit (iterencode (S level))
                               (s2t "," ++ newline_indent (S level)) y)) r
  = list_tail level r.
Proof.
  unfold list_tail. apply flat_map_ext. intros y.
  by rewrite concat_emit, <- app_assoc.
Qed.

Lemma encode_list_cons (level : nat) (x : pyvalue) (r : list pyvalue) :
  encode level (PList (x :: r))
  = 91%N :: newline_indent (S level) ++ encode (S level) x
    ++ list_tail level r ++ newline_indent level ++ [93%N].
Proof.
  unfold encode at 1. cbn [iterencode].
  rewrite !concat_app, concat_emit, concat_flat_map, list_tail_pieces.
  cbn [concat]. rewrite app_nil_r.
  change (s2t "[") with [91%N]. change (s2t "]") with [93%N].
  cbn [app]. by rewrite <- !app_assoc.
Qed.

Lemma dict_tail_pieces (level : nat) (r : list (text * pyvalue)) :
  flat_map (fun ky => concat
              ((s2t "," ++ newline_indent (S level))
               :: encode_basestring (fst ky) :: s2t ": "
               :: emit_plain (iterencode (S level)) (snd ky))) r
  = dict_tail level r.
Proof.
  unfold dict_tail. apply flat_map_ext. intros [k y]. cbn [concat fst snd].
  by rewrite concat_emit_plain, <- !app_assoc.
Qed.

Lemma encode_dict_cons (level : nat) (k : text) (x : pyvalue)
      (r : list (text * pyvalue)) :
  encode level (PDict ((k, x) :: r))
  = 123%N :: newline_indent (S level) ++ encode_basestring k
    ++ 58%N :: 32%N :: encode (S level) x
    ++ dict_tail level r ++ newline_indent level ++ [125%N].
Proof.
  unfold encode at 1. cbn [iterencode fst snd].
  rewrite !concat_app, concat_emit_plain, concat_flat_map, dict_tail_pieces.
  cbn [concat]. rewrite !app_nil_r.
  change (s2t "{") with [123%N]. change (s2t "}") with [125%N].
  change (s2t ": ") with [58%N; 32%N].
  cbn [app]. rewrite <- !app_assoc. reflexivity.
Qed.

Lemma value_head_digit (c : N) : is_digit c = true -> value_head c = true.
Proof. unfold value_head. intros ->. apply orb_true_r. Qed.

Lemma format_digits_head (d q : Z) :
  exists c t, format_digits d q = c :: t /\ value_head c = true.
Proof.
  assert (H : forall n t', exists c t,
             int_str n ++ t' = c :: t /\ value_head c = true).
  { intros n t'. destruct (int_str_head n) as (c & t & -> & [Hd| ->]).
    - exists c, (t ++ t'). split; [done|by apply value_head_digit].
    - by exists 45%N, (t ++ t'). }
  unfold format_digits.
  repeat match goal with
         | |- context [if ?b then _ else _] => destruct b
         end; apply H.
Qed.

Lemma floatstr_head (x : spec_float) :
  exists c t, floatstr x = c :: t /\ value_head c = true.
Proof.
  unfold floatstr, float_repr. destruct x as [[]|[]| |[] m e];
    try (by eexists _, _).
  cbn [app]. apply format_digits_head.
Qed.

(** Every serialized value starts with a character that tells what it
    is. *)
Lemma encode_head (level : nat) (v : pyvalue) :
  exists c t, encode level v = c :: t /\ value_head c = true.
Proof.
  destruct v as [|[]|z|f|s|[|x r]|[|[k x] r]].
  - by exists 110%N, (s2t "ull").
  - by exists 116%N, (s2t "rue").
  - by exists 102%N, (s2t "alse").
  - rewrite (encode_scalar level (PInt z) (int_str z) eq_refl).
    destruct (int_str_head z) as (c & t & -> & [Hd| ->]).
    + exists c, t. split; [done|by apply value_head_digit].
    + by exists 45%N, t.
  - rewrite (encode_scalar level (PFloat f) _ eq_refl).
    apply floatstr_head.
  - rewrite (encode_scalar level (PStr s) _ eq_refl).
    by eexists _, _.
  - by exists 91%N, [93%N].
  - rewrite encode_list_cons. by eexists _, _.
  - by exists 123%N, [125%N].
  - rewrite encode_dict_cons. by eexists _, _.
Qed.

Lemma value_head_facts (c : N) :
  value_head c = true ->
  is_ws c = false /\ (c =? 93)%N = false /\ (c =? 125)%N = false
  /\ c <> 65279%N.
Proof.
  unfold value_head, is_digit, is_ws. intros H.
  repeat (apply orb_true_iff in H as [H|H]);
    try (apply N.eqb_eq in H; subst c; by repeat split).
  apply andb_true_iff in H as [H1 H2].
  apply N.leb_le in H1. apply N.leb_le in H2.
  repeat split; try (apply N.eqb_neq; lia); [|lia].
  repeat (apply orb_false_iff; split); apply N.eqb_neq; lia.
Qed.

Lemma skip_ws_head (c : N) (t : text) : is_ws c = false -> skip_ws (c :: t) = c :: t.
Proof. intros H. cbn [skip_ws]. by rewrite H. Qed.

Lemma skip_ws_newline_indent (level : nat) (t : text) :
  skip_ws (newline_indent level ++ t) = skip_ws t.
Proof.
  unfold newline_indent. cbn [app skip_ws]. change (is_ws LF) with true. cbn iota.
  induction (2 * level)%nat as [|n IH]; [done|]. exact IH.
Qed.

Lemma skip_ws_before_value (level level' : nat) (v : pyvalue) (t : text) :
  skip_ws (newline_indent level ++ encode level' v ++ t) = encode level' v ++ t.
Proof.
  rewrite skip_ws_newline_indent.
  destruct (encode_head level' v) as (c & u & -> & Hc).
  apply skip_ws_head. by apply value_head_facts.
Qed.

Lemma calls_list (l : list pyvalue) : calls (PList l) = S (calls_items l).
Proof.
  reflexivity.
Qed.

Lemma calls_dict (items : list (text * pyvalue)) :
  calls (PDict items) = S (calls_members items).
Proof.
  reflexivity.
Qed.

Lemma dict_set_fresh (d : list (text * pyvalue)) (k : text) (v : pyvalue) :
  k ∉ d.*1 -> dict_set d k v = d ++ [(k, v)].
Proof.
  induction d as [|[k' v'] d IH]; intros H; [done|].
  rewrite fmap_cons, not_elem_of_cons in H. destruct H as [Hne H].
  cbn [dict_set app]. destruct (decide (k' = k)) as [->|_]; [done|].
  by rewrite IH.
Qed.

(** A list of pairs with distinct keys is the dict built from it. *)
Lemma dict_of_pairs_nodup (items : list (text * pyvalue)) :
  NoDup items.*1 -> dict_of_pairs items = items.
Proof.
  unfold dict_of_pairs.
  assert (H : forall d, NoDup (d ++ items).*1 ->
            fold_left (fun d kv => dict_set d kv.1 kv.2) items d = d ++ items).
  { induction items as [|[k v] items IH]; intros d Hd.
    - by rewrite app_nil_r.
    - cbn [fold_left fst snd]. rewrite dict_set_fresh.
      + rewrite IH; rewrite <- app_assoc; done.
      + rewrite fmap_app, fmap_cons in Hd.
        apply NoDup_app in Hd as (_ & Hd & _).
        intros Hk. apply (Hd k Hk). by left. }
  intros Hn. by apply (H []).
Qed.

(* ===================================================================== *)
(** ** Decoding what the encoder wrote: values *)
(* ===================================================================== *)

Lemma parse_value_S (f : nat) (c : N) (r : text) :
  parse_value (S f) (c :: r) =
  if (c =? 34)%N then
    match scanstring r with
    | Some (d, rest) => Some (PStr d, rest)
    | None => None
    end
  else if (c =? 91)%N then
    match skip_ws r with
    | [] => None
    | c1 :: r1 =>
        if (c1 =? 93)%N then Some (PList [], r1)
        else
          match parse_items f (c1 :: r1) with
          | Some (vs, rest) => Some (PList vs, rest)
          | None => None
          end
    end
  else if (c =? 123)%N then
    match skip_ws r with
    | [] => None
    | c1 :: r1 =>
        if (c1 =? 125)%N then Some (PDict [], r1)
        else
          match parse_members f (c1 :: r1) with
          | Some (kvs, rest) => Some (PDict (dict_of_pairs kvs), rest)
          | None => None
          end
    end
  else scan_atom (c :: r).
Proof. reflexivity. Qed.

Lemma parse_items_S (f : nat) (s : text) :
  parse_items (S f) s =
  match parse_value f s with
  | None => None
  | Some (v, r) =>
      match skip_ws r with
      | [] => None
      | c :: r1 =>
          if (c =? 93)%N then Some ([v], r1)
          else if (c =? 44)%N then
            match parse_items f (skip_ws r1) with
            | Some (vs, rest) => Some (v :: vs, rest)
            | None => None
            end
          else None
      end
  end.
Proof. reflexivity. Qed.

Lemma parse_members_S (f : nat) (r : text) :
  parse_members (S f) (34%N :: r) =
  match scanstring r with
  | None => None
  | Some (k, r1) =>
      match skip_ws r1 with
      | [] => None
      | c :: r2 =>
          if (c =? 58)%N then
            match parse_value f (skip_ws r2) with
            | None => None
            | Some (v, r3) =>
                match skip_ws r3 with
                | [] => None
                | c' :: r4 =>
                    if (c' =? 125)%N then Some ([(k, v)], r4)
                    else if (c' =? 44)%N then
                      match parse_members f (skip_ws r4) with
                      | Some (kvs, rest) => Some ((k, v) :: kvs, rest)
                      | None => None
                      end
                    else None
                end
            end
          else None
      end
  end.
Proof. reflexivity. Qed.

Lemma format_digits_digit_head (d q : Z) (rest : text) :
  0 < d -> digit_head (format_digits d q ++ rest) = true.
Proof.
  intros Hd. unfold format_digits.
  pose proof (Z.pow_pos_nonneg 10 q ltac:(lia)) as Hq.
  repeat match goal with
         | |- context [if ?b then _ else _] => destruct b eqn:?
         end;
    rewrite <- ?app_assoc; apply digit_head_int_str;
    try (apply Z.div_pos; [lia|apply Z.pow_pos_nonneg; lia]).
  - apply Z.div_pos; [lia|]. apply Z.pow_pos_nonneg; [lia|].
    pose proof (ndigits_pos d). lia.
  - apply Z.div_pos; [lia|]. apply Z.pow_pos_nonneg; [lia|].
    pose proof (ndigits_pos d). lia.
  - apply Z.ltb_ge in Heqb0. specialize (Hq Heqb0). nia.
Qed.

(** A float literal, with its sign, is a number for the scanner. *)
Lemma scan_number_float (neg : bool) (s : text) (x : spec_float) (rest : text) :
  scan_float neg s = Some (x, rest) ->
  scan_number ((if neg then [45%N] else []) ++ s) = Some (PFloat x, rest).
Proof.
  intros H. pose proof H as H'. unfold scan_float in H'.
  destruct (scan_integer s) as [[u rest']|] eqn:Hi; [|done].
  destruct (float_tail rest') eqn:Hf; [|done]. clear H'.
  destruct neg; cbn [app].
  - unfold scan_number. change (45 =? 45)%N with true. by rewrite Hi, Hf, H.
  - destruct s as [|c r]; [done|]. unfold scan_number.
    destruct (N.eqb_spec c 45) as [->|_]; [done|]. by rewrite Hi, Hf, H.
Qed.

(** The text of a float reads back as that float. *)
Lemma scan_atom_floatstr (x : spec_float) (rest : text) :
  float64 x = true -> ends_number rest = true ->
  scan_atom (floatstr x ++ rest) = Some (PFloat x, rest).
Proof.
  intros Hx Hrest. pose proof (ends_number_digit_head rest Hrest) as Hdh.
  assert (Hzero : forall neg,
             scan_float neg (s2t "0.0" ++ rest) = Some (S754_zero neg, rest)).
  { intros neg. unfold scan_float.
    change (s2t "0.0" ++ rest) with (48%N :: 46%N :: [48%N] ++ rest).
    cbn [scan_integer N.eqb Pos.eqb].
    rewrite float_tail_frac by (done || by repeat constructor).
    rewrite scan_frac_digits by (done || by repeat constructor).
    by rewrite scan_exp_none. }
  unfold floatstr, float_repr. destruct x as [neg|[]| |neg m e];
    try reflexivity.
  - pose proof (scan_number_float neg _ _ _ (Hzero neg)) as Hn.
    destruct neg; cbn [app] in Hn |- *.
    + change (s2t "-0.0" ++ rest) with (45%N :: s2t "0.0" ++ rest).
      rewrite scan_atom_number; [done|by right].
    + change (s2t "0.0" ++ rest) with (48%N :: s2t ".0" ++ rest) in *.
      rewrite scan_atom_number; [done|by left].
  - destruct (float_digits_ok neg m e Hx) as [Hpos Heq].
    pose proof (scan_float_format neg _ (float_digits neg m e).2 rest
                  Hpos Hrest) as Hs.
    rewrite Heq in Hs. apply scan_number_float in Hs.
    pose proof (format_digits_digit_head _ (float_digits neg m e).2 rest Hpos)
      as Hh.
    rewrite <- app_assoc.
    destruct neg; cbn [app] in Hs |- *.
    + rewrite scan_atom_number; [done|by right].
    + destruct (format_digits _ _ ++ rest) as [|c r]; [done|].
      rewrite scan_atom_number; [done|by left].
Qed.

Lemma floatstr_first (x : spec_float) :
  exists c t, floatstr x = c :: t
    /\ (c =? 34)%N = false /\ (c =? 91)%N = false /\ (c =? 123)%N = false.
Proof.
  assert (H : forall d q, exists c t, format_digits d q = c :: t
             /\ (c =? 34)%N = false /\ (c =? 91)%N = false
             /\ (c =? 123)%N = false).
  { assert (H : forall n t', exists c t, int_str n ++ t' = c :: t
               /\ (c =? 34)%N = false /\ (c =? 91)%N = false
               /\ (c =? 123)%N = false).
    { intros n t'. destruct (int_str_head n) as (c & t & -> & [Hd| ->]).
      - exists c, (t ++ t'). split; [done|]. unfold is_digit in Hd.
        apply andb_true_iff in Hd as [Hge Hle].
        apply N.leb_le in Hge, Hle. repeat split; apply N.eqb_neq; lia.
      - by exists 45%N, (t ++ t'). }
    intros d q. unfold format_digits.
    repeat match goal with
           | |- context [if ?b then _ else _] => destruct b
           end; apply H. }
  unfold floatstr, float_repr. destruct x as [[]|[]| |[] m e];
    try (by eexists _, _).
  cbn [app]. apply H.
Qed.

(** What the decoder is to do with a value: read it back from its text,
    given calls enough, whatever follows that ends a number. *)
Lemma reads_back_scalar (v : pyvalue) (t : text) :
  json_value v = true ->
  scalar_text v = Some t ->
  forall (fuel : nat) (rest : text),
    (1 <= fuel)%nat -> ends_number rest = true ->
    parse_value fuel (t ++ rest) = Some (v, rest).
Proof.
  intros Hv Ht fuel rest Hfuel Hrest.
  destruct fuel as [|f]; [lia|].
  destruct v as [|[]|z|x|s|l|items]; cbn [scalar_text] in Ht;
    try discriminate Ht; injection Ht as <-.
  - reflexivity.
  - reflexivity.
  - reflexivity.
  - pose proof (scan_atom_int_str z rest Hrest) as Ha.
    destruct (int_str_head z) as (c & u & Hz & Hc). rewrite Hz in *.
    cbn [app] in *. rewrite parse_value_S.
    assert (Hne : (c =? 34)%N = false /\ (c =? 91)%N = false
                  /\ (c =? 123)%N = false).
    { destruct Hc as [Hd| ->]; [|done]. unfold is_digit in Hd.
      apply andb_true_iff in Hd as [Hge Hle].
      apply N.leb_le in Hge. apply N.leb_le in Hle.
      repeat split; apply N.eqb_neq; lia. }
    destruct Hne as (-> & -> & ->). exact Ha.
  - pose proof (scan_atom_floatstr x rest Hv Hrest) as Ha.
    destruct (floatstr_first x) as (c & u & Hx & H1 & H2 & H3).
    rewrite Hx in *. cbn [app] in *. rewrite parse_value_S.
    by rewrite H1, H2, H3.
  - rewrite encode_basestring_app, parse_value_S. cbn [N.eqb Pos.eqb].
    by rewrite scanstring_escaped.
Qed.

Lemma ends_number_list_tail (level : nat) (r : list pyvalue) (t : text) :
  ends_number (list_tail level r ++ newline_indent level ++ t) = true.
Proof. by destruct r. Qed.

Lemma ends_number_dict_tail (level : nat) (r : list (text * pyvalue)) (t : text) :
  ends_number (dict_tail level r ++ newline_indent level ++ t) = true.
Proof. by destruct r. Qed.

Section ReadBack.
Variable level : nat.

(** The loop over the elements of a list, given that each element reads
    back. *)
Lemma parse_items_reads_back (r : list pyvalue) :
  Forall (fun v => forall (fuel : nat) (rest : text),
            (calls v <= fuel)%nat -> ends_number rest = true ->
            parse_value fuel (encode (S level) v ++ rest) = Some (v, rest)) r ->
  forall (x : pyvalue) (fuel : nat) (rest : text),
    (forall (fuel : nat) (rest : text),
       (calls x <= fuel)%nat -> ends_number rest = true ->
       parse_value fuel (encode (S level) x ++ rest) = Some (x, rest)) ->
    (calls_items (x :: r) <= fuel)%nat ->
    parse_items fuel
      (encode (S level) x ++ list_tail level r ++ newline_indent level
       ++ 93%N :: rest)
    = Some (x :: r, rest).
Proof.
  induction 1 as [|y r Hy Hr IH]; intros x fuel rest Hx Hfuel;
    cbn [calls_items fold_right] in Hfuel; (destruct fuel as [|f]; [lia|]);
    rewrite parse_items_S.
  - rewrite Hx by (done || lia). cbn [list_tail flat_map app].
    rewrite skip_ws_newline_indent. reflexivity.
  - rewrite Hx; [|lia|apply ends_number_list_tail].
    cbn [list_tail flat_map]. change (s2t ",") with [44%N].
    rewrite <- !app_assoc. cbn [app skip_ws is_ws N.eqb Pos.eqb orb].
    rewrite skip_ws_before_value.
    fold (list_tail level r).
    rewrite IH; [done|done|]. cbn [calls_items fold_right]. lia.
Qed.

(** The loop over the items of a dict. *)
Lemma parse_members_reads_back (r : list (text * pyvalue)) :
  Forall (fun kv => forall (fuel : nat) (rest : text),
            (calls (snd kv) <= fuel)%nat -> ends_number rest = true ->
            parse_value fuel (encode (S level) (snd kv) ++ rest)
            = Some (snd kv, rest)) r ->
  forall (k : text) (x : pyvalue) (fuel : nat) (rest : text),
    (forall (fuel : nat) (rest : text),
       (calls x <= fuel)%nat -> ends_number rest = true ->
       parse_value fuel (encode (S level) x ++ rest) = Some (x, rest)) ->
    (calls_members ((k, x) :: r) <= fuel)%nat ->
    parse_members fuel
      (encode_basestring k ++ 58%N :: 32%N :: encode (S level) x
       ++ dict_tail level r ++ newline_indent level ++ 125%N :: rest)
    = Some ((k, x) :: r, rest).
Proof.
  induction 1 as [|[k' y] r Hy Hr IH]; intros k x fuel rest Hx Hfuel;
    cbn [calls_members fold_right snd] in Hfuel; (destruct fuel as [|f]; [lia|]);
    rewrite encode_basestring_app, parse_members_S, scanstring_escaped;
    cbn [skip_ws is_ws N.eqb Pos.eqb orb].
  - destruct (encode_head (S level) x) as (c & u & Hhead & Hc).
    rewrite Hhead at 1. cbn [app].
    rewrite skip_ws_head by (by apply value_head_facts).
    replace (c :: u ++ dict_tail level [] ++ newline_indent level ++ 125%N :: rest)
      with (encode (S level) x ++ dict_tail level [] ++ newline_indent level
            ++ 125%N :: rest) by (by rewrite Hhead).
    rewrite Hx by (done || lia). cbn [dict_tail flat_map app].
    rewrite skip_ws_newline_indent. reflexivity.
  - destruct (encode_head (S level) x) as (c & u & Hhead & Hc).
    rewrite Hhead at 1. cbn [app].
    rewrite skip_ws_head by (by apply value_head_facts).
    replace (c :: u ++ dict_tail level ((k', y) :: r) ++ newline_indent level
             ++ 125%N :: rest)
      with (encode (S level) x ++ dict_tail level ((k', y) :: r)
            ++ newline_indent level ++ 125%N :: rest) by (by rewrite Hhead).
    rewrite Hx; [|lia|apply ends_number_dict_tail].
    cbn [dict_tail flat_map fst snd]. change (s2t ",") with [44%N].
    change (s2t ": ") with [58%N; 32%N].
    rewrite <- !app_assoc. cbn [app skip_ws is_ws N.eqb Pos.eqb orb].
    rewrite skip_ws_newline_indent, encode_basestring_app.
    cbn [skip_ws is_ws N.eqb Pos.eqb orb].
    fold (dict_tail level r).
    rewrite <- encode_basestring_app.
    rewrite IH; [done|done|]. cbn [calls_members fold_right snd]. lia.
Qed.
End ReadBack.

(** A JSON value reads back from its text. *)
Lemma parse_value_reads_back (v : pyvalue) :
  json_value v = true ->
  forall (level fuel : nat) (rest : text),
    (calls v <= fuel)%nat -> ends_number rest = true ->
    parse_value fuel (encode level v ++ rest) = Some (v, rest).
Proof.
  induction v as [|b|z|x|s|l IH|items IH] using pyvalue_ind;
    intros Hv level fuel rest Hfuel Hrest.
  - rewrite (encode_scalar level PNone _ eq_refl).
    by apply (reads_back_scalar PNone).
  - destruct b.
    + rewrite (encode_scalar level (PBool true) _ eq_refl).
      by apply (reads_back_scalar (PBool true)).
    + rewrite (encode_scalar level (PBool false) _ eq_refl).
      by apply (reads_back_scalar (PBool false)).
  - rewrite (encode_scalar level (PInt z) _ eq_refl).
    by apply (reads_back_scalar (PInt z)).
  - rewrite (encode_scalar level (PFloat x) _ eq_refl).
    by apply (reads_back_scalar (PFloat x)).
  - rewrite (encode_scalar level (PStr s) _ eq_refl).
    by apply (reads_back_scalar (PStr s)).
  - rewrite calls_list in Hfuel. destruct fuel as [|f]; [lia|].
    destruct l as [|x r]; [reflexivity|].
    cbn [json_value forallb] in Hv. apply andb_true_iff in Hv as [Hx Hr].
    apply Forall_cons in IH as [IHx IHr].
    rewrite encode_list_cons. cbn [app]. rewrite parse_value_S.
    cbn [N.eqb Pos.eqb]. rewrite <- !app_assoc. cbn [app].
    rewrite skip_ws_before_value.
    destruct (encode_head (S level) x) as (c & u & Hhead & Hc).
    rewrite Hhead at 1. cbn [app].
    destruct (value_head_facts c Hc) as (_ & -> & _).
    replace (c :: u ++ list_tail level r ++ newline_indent level ++ 93%N :: rest)
      with (encode (S level) x ++ list_tail level r ++ newline_indent level
            ++ 93%N :: rest) by (by rewrite Hhead).
    rewrite (parse_items_reads_back level r); [done| |by auto|lia].
    rewrite Forall_forall in IHr |- *. intros y Hy fuel' rest'.
    apply IHr; [done|]. rewrite forallb_forall in Hr. apply Hr.
    by apply list_elem_of_In.
  - rewrite calls_dict in Hfuel. destruct fuel as [|f]; [lia|].
    destruct items as [|[k x] r]; [reflexivity|].
    cbn [json_value] in Hv. apply andb_true_iff in Hv as [Hnodup Hv].
    apply bool_decide_eq_true in Hnodup.
    cbn [forallb fst snd] in Hv. apply andb_true_iff in Hv as [Hkx Hr].
    apply andb_true_iff in Hkx as [_ Hx].
    apply Forall_cons in IH as [IHx IHr]. cbn [snd] in IHx.
    rewrite encode_dict_cons. cbn [app]. rewrite parse_value_S.
    cbn [N.eqb Pos.eqb]. rewrite <- !app_assoc.
    rewrite skip_ws_newline_indent, encode_basestring_app.
    cbn [app skip_ws is_ws N.eqb Pos.eqb orb].
    rewrite <- encode_basestring_app. rewrite <- !app_assoc. cbn [app].
    rewrite (parse_members_reads_back level r); [|  |by auto|lia].
    + by rewrite dict_of_pairs_nodup.
    + rewrite Forall_forall in IHr |- *. intros [k' y] Hy fuel' rest'.
      apply (IHr (k', y)); [done|]. rewrite forallb_forall in Hr.
      specialize (Hr (k', y) ltac:(by apply list_elem_of_In)).
      by apply andb_true_iff in Hr as [_ Hr].
Qed.

Lemma calls_items_length (level : nat) (r : list pyvalue) :
  Forall (fun v => forall level, (calls v <= length (encode level v))%nat) r ->
  (calls_items r <= length (list_tail level r))%nat.
Proof.
  induction 1 as [|y r Hy _ IH]; [done|].
  cbn [calls_items fold_right list_tail flat_map].
  rewrite !length_app. specialize (Hy (S level)).
  unfold calls_items, list_tail in IH.
  change (length (s2t ",")) with 1%nat. lia.
Qed.

Lemma calls_members_length (level : nat) (r : list (text * pyvalue)) :
  Forall (fun kv => forall level,
            (calls (snd kv) <= length (encode level (snd kv)))%nat) r ->
  (calls_members r <= length (dict_tail level r))%nat.
Proof.
  induction 1 as [|[k y] r Hy _ IH]; [done|].
  cbn [calls_members fold_right dict_tail flat_map fst snd].
  rewrite !length_app. specialize (Hy (S level)). cbn [snd] in Hy.
  unfold calls_members, dict_tail in IH.
  change (length (s2t ",")) with 1%nat. lia.
Qed.

(** The decoder makes no more nested calls than the text has
    characters. *)
Lemma calls_le_length (v : pyvalue) :
  forall level, (calls v <= length (encode level v))%nat.
Proof.
  induction v as [|b|z|x|s|l IH|items IH] using pyvalue_ind; intros level.
  - destruct (encode_head level PNone) as (c & u & -> & _). cbn. lia.
  - destruct (encode_head level (PBool b)) as (c & u & -> & _). cbn. lia.
  - destruct (encode_head level (PInt z)) as (c & u & -> & _). cbn. lia.
  - destruct (encode_head level (PFloat x)) as (c & u & -> & _). cbn. lia.
  - destruct (encode_head level (PStr s)) as (c & u & -> & _). cbn. lia.
  - destruct l as [|x r];
      [destruct (encode_head level (PList [])) as (c & u & -> & _); cbn; lia|].
    apply Forall_cons in IH as [IHx IHr].
    rewrite calls_list, encode_list_cons. cbn [calls_items fold_right length].
    rewrite !length_app.
    pose proof (calls_items_length level r IHr). specialize (IHx (S level)).
    unfold calls_items in *. cbn [length]. lia.
  - destruct items as [|[k x] r];
      [destruct (encode_head level (PDict [])) as (c & u & -> & _); cbn; lia|].
    apply Forall_cons in IH as [IHx IHr]. cbn [snd] in IHx.
    rewrite calls_dict, encode_dict_cons.
    cbn [calls_members fold_right length snd].
    rewrite !length_app. cbn [length]. rewrite !length_app.
    pose proof (calls_members_length level r IHr). specialize (IHx (S level)).
    unfold calls_members in *. cbn [length]. lia.
Qed.

(** Round trip: the serialization of a JSON value, with or without the
    line feed [print] adds, decodes to that value. *)
Lemma json_loads_dumps (v : pyvalue) (tail : text) :
  json_value v = true ->
  tail = [] \/ tail = [LF] ->
  json_loads (json_dumps v ++ tail) = Some v.
Proof.
  intros Hv Htail. rewrite json_dumps_encode. unfold json_loads.
  pose proof (calls_le_length v 0) as Hcalls.
  destruct (encode_head 0 v) as (c & u & Hhead & Hc).
  destruct (value_head_facts c Hc) as (Hws & _ & _ & Hbom).
  assert (Hskip : skip_ws (encode 0 v ++ tail) = encode 0 v ++ tail).
  { rewrite Hhead. cbn [app]. by apply skip_ws_head. }
  assert (Hrun : parse_value (S (length (encode 0 v ++ tail)))
                             (skip_ws (encode 0 v ++ tail))
                 = Some (v, tail)).
  { rewrite Hskip. apply parse_value_reads_back; [done| |].
    - rewrite length_app. lia.
    - by destruct Htail as [-> | ->]. }
  rewrite Hrun.
  assert (Hend : skip_ws tail = []) by (by destruct Htail as [-> | ->]).
  rewrite Hend. rewrite Hhead. cbn [app].
  destruct c as [|p]; [done|].
  destruct (decide (N.pos p = 65279%N)) as [E|E]; [done|].
  repeat (destruct p as [p|p|]; try done).
Qed.

(* ===================================================================== *)
(** ** [extract_batch]: the batch on standard output *)
(* ===================================================================== *)

Lemma stdout_one_line (t : text) : stdout [Printed t] = t ++ [LF].
Proof. unfold stdout, printed. cbn [flat_map app]. by rewrite !app_nil_r. Qed.




(** The scenarios of the specification, run. *)
Example extract_batch_scenario :
  let l := [PStr (s2t "a"); PStr (s2t "b"); PStr (s2t "c"); PStr (s2t "d");
            PStr (s2t "e")] in
  let e := Env Py312 (Ok (PList l)) (fun _ => None) in
  extract_batch e 2 2 init
  = (Ok tt, State ∅ [Printed (json_dumps (PList [PStr (s2t "c"); PStr (s2t "d")]))])
  /\ extract_batch e 10 5 init = (Ok tt, State ∅ [Printed (s2t "[]")]).
Proof. split; reflexivity. Qed.

(** Outside the JSON values: a string with a lone surrogate, which
    [json.load] builds from the escape [\ud800], cannot be encoded for
    standard output; the failure is caught like any other. *)
Example extract_batch_lone_surrogate :
  let e := Env Py312 (Ok (PList [PStr [55296%N]])) (fun _ => None) in
  extract_batch e 0 1 init
  = (Ok tt,
     State ∅ [Printed (s2t "Error: 'utf-8' codec can't encode character '\ud800' in position 5: surrogates not allowed")]).
Proof. reflexivity. Qed.

(** Floats, as CPython reads and prints them. *)
Example float_of_decimal_examples :
  float_of_decimal false 1 (-1) = S754_finite false 7205759403792794 (-56)
  /\ float_of_decimal true 25 (-1) = S754_finite true 5629499534213120 (-51)
  /\ float_of_decimal false 1 22 = S754_finite false 4768371582031250 21
  /\ float_of_decimal false 5 (-324) = S754_finite false 1 (-1074)
  /\ float_of_decimal false 17976931348623157 292
     = S754_finite false 9007199254740991 971
  /\ float_of_decimal false 1 400 = S754_infinity false
  /\ float_of_decimal true 1 (-400) = S754_zero true.
Proof. vm_compute. repeat split. Qed.

Example floatstr_examples :
  map floatstr
      [S754_finite false 7205759403792794 (-56);
       S754_finite false 6755399441055744 (-52);
       S754_finite true 5629499534213120 (-51);
       S754_finite false 7036874417766400 (-46);
       S754_finite false 5000000000000000 1;
       S754_finite false 4768371582031250 21;
       S754_finite false 8854437155380585 (-69);
       S754_finite false 7378697629483821 (-66);
       S754_finite false 8483885939586761 (-36);
       S754_finite false 6004799503160661 (-54);
       S754_finite false 1 (-1074);
       S754_finite false 9007199254740991 971;
       S754_zero false; S754_zero true;
       S754_nan; S754_infinity false; S754_infinity true]
  = map s2t
      ["0.1"; "1.5"; "-2.5"; "100.0"; "1e+16"; "1e+22"; "1.5e-05"; "0.0001";
       "123456.789"; "0.3333333333333333"; "5e-324";
       "1.7976931348623157e+308"; "0.0"; "-0.0";
       "NaN"; "Infinity"; "-Infinity"]%string.
Proof. vm_compute. reflexivity. Qed.

Example json_loads_floats :
  json_loads (s2t "[1.5, -0.0, 1e22, 2E-3, 10, NaN, -Infinity]")
  = Some (PList [PFloat (S754_finite false 6755399441055744 (-52));
                 PFloat (S754_zero true);
                 PFloat (S754_finite false 4768371582031250 21);
                 PFloat (float_of_decimal false 2 (-3));
                 PInt 10;
                 PFloat S754_nan; PFloat (S754_infinity true)]).
Proof. vm_compute. reflexivity. Qed.

Example split_prompts_scenario :
  let e := Env Py312 (Ok (PList (repeat PNone 120))) (fun _ => None) in
  let run := split_prompts e init in
  fst run = Ok tt
  /\ printed (log (snd run))
     = [s2t "Total items: 120";
        s2t "Created data/temp_chunk_0.json with 50 items";
        s2t "Created data/temp_chunk_1.json with 50 items";
        s2t "Created data/temp_chunk_2.json with 20 items"]
  /\ map fst (saved (log (snd run)))
     = [s2t "data/temp_chunk_0.json"; s2t "data/temp_chunk_1.json";
        s2t "data/temp_chunk_2.json"].
Proof. vm_compute. repeat split; reflexivity. Qed.

(* ===================================================================== *)
(** * Further properties of [extract_batch.py] *)
(* ===================================================================== *)

(** What a run on a list of JSON values prints, whatever the integers
    passed. *)
Lemma extract_batch_list_run (e : env) (start count : Z) (st : state)
      (l : list pyvalue) :
  source e = Ok (PList l) ->
  json_value (PList l) = true ->
  extract_batch e start count st
  = (Ok tt,
     State (files st)
           (log st ++ [Printed (json_dumps
                                  (PList (py_slice l start (start + count))))])).
Proof.
  intros Hs Hv. unfold extract_batch, try_except.
  rewrite try_block_unfold, Hs. cbn [getitem_slice].
  rewrite print_encodable; [done|]. apply json_dumps_encodable.
  cbn [json_value] in Hv |- *. rewrite forallb_forall in Hv |- *.
  intros x Hx. apply Hv. apply list_elem_of_In. apply list_elem_of_In in Hx.
  unfold py_slice in Hx. by eapply subseteq_drop, subseteq_take.
Qed.

(** A slice is a run of consecutive elements of the sequence, whatever the
    bounds, and is no longer than the distance between them when the
    second is not below the first. *)
Lemma py_slice_segment {A} (l : list A) (lo hi : Z) :
  exists pre post : list A,
    l = pre ++ py_slice l lo hi ++ post
    /\ (lo <= hi -> Z.of_nat (length (py_slice l lo hi)) <= hi - lo).
Proof.
  unfold py_slice.
  set (n := Z.of_nat (length l)).
  set (a := adjust_index n lo). set (b := adjust_index n hi).
  exists (take (Z.to_nat a) l),
         (drop (Z.to_nat (b - a)) (drop (Z.to_nat a) l)).
  split.
  - by rewrite take_drop, take_drop.
  - intros Hle. rewrite length_take, length_drop.
    unfold a, b, adjust_index, n.
    destruct (Z.ltb_spec lo 0), (Z.ltb_spec hi 0); lia.
Qed.



Ltac same_window :=
  match goal with
  | |- take ?a (drop ?b ?l) = take ?c (drop ?d ?l) =>
      replace a with c by lia; replace b with d by lia; reflexivity
  end.

(** Both bounds negative: the window counts from the end. *)
Lemma py_slice_from_end {A} (l : list A) (lo hi : Z) :
  - Z.of_nat (length l) <= lo -> lo <= hi < 0 ->
  py_slice l lo hi = truncating_slice l (Z.of_nat (length l) + lo) (hi - lo).
Proof.
  intros Hlo Hhi. unfold py_slice, truncating_slice, adjust_index.
  destruct (Z.ltb_spec lo 0); [|lia]. destruct (Z.ltb_spec hi 0); [|lia].
  same_window.
Qed.

(** A negative start and a stop that is not: the stop is an index from the
    front, and the slice is empty unless it lies beyond the start. *)
Lemma py_slice_crossing {A} (l : list A) (lo hi : Z) :
  lo < 0 -> 0 <= hi <= Z.of_nat (length l) + lo -> py_slice l lo hi = [].
Proof.
  intros Hlo Hhi. unfold py_slice, adjust_index.
  destruct (Z.ltb_spec lo 0); [|lia]. destruct (Z.ltb_spec hi 0); [lia|].
  replace (Z.to_nat _) with 0%nat by lia. by rewrite take_0.
Qed.

(** A start from the front and a negative stop: the stop counts from the
    end. *)
Lemma py_slice_negative_stop {A} (l : list A) (lo hi : Z) :
  0 <= lo <= Z.of_nat (length l) -> - Z.of_nat (length l) <= hi < 0 ->
  py_slice l lo hi = truncating_slice l lo (Z.of_nat (length l) + hi - lo).
Proof.
  intros Hlo Hhi. unfold py_slice, truncating_slice, adjust_index.
  destruct (Z.ltb_spec lo 0); [lia|]. destruct (Z.ltb_spec hi 0); [|lia].
  same_window.
Qed.





Lemma unicode_text_slice (s : text) (lo hi : Z) :
  unicode_text s = true -> unicode_text (py_slice s lo hi) = true.
Proof.
  unfold unicode_text. rewrite !forallb_forall. intros H c Hc. apply H.
  apply list_elem_of_In. apply list_elem_of_In in Hc. unfold py_slice in Hc.
  by eapply subseteq_drop, subseteq_take.
Qed.

(** X4: a source file whose top-level value is a JSON string is not an
    error for [extract_batch]: the string is sliced by characters like a
    list by elements, and the run prints the slice as one JSON string,
    which decodes to that slice. *)
Theorem extract_batch_top_level_string (e : env) (start count : Z)
        (st : state) (s : text) :
  source e = Ok (PStr s) ->
  unicode_text s = true ->
  0 <= start -> 0 <= count ->
  let batch := PStr (truncating_slice s start count) in
  extract_batch e start count st
  = (Ok tt, State (files st) (log st ++ [Printed (json_dumps batch)]))
  /\ json_dumps batch = encode_basestring (truncating_slice s start count)
  /\ json_loads (stdout [Printed (json_dumps batch)]) = Some batch.
Proof.
  intros Hs Hu Hstart Hcount batch.
  assert (Hb : json_value batch = true).
  { unfold batch. rewrite <- py_slice_truncating by done.
    by apply unicode_text_slice. }
  split; [|split].
  - unfold extract_batch, try_except. rewrite try_block_unfold, Hs.
    cbn [getitem_slice]. rewrite py_slice_truncating by done. fold batch.
    by rewrite print_encodable by (by apply json_dumps_encodable).
  - rewrite json_dumps_encode. by apply encode_scalar.
  - rewrite stdout_one_line. apply json_loads_dumps; [done|by right].
Qed.

Lemma extract_batch_top_level_string_witness :
  let e := Env Py312 (Ok (PStr (s2t "banana"))) (fun _ => None) in
  let batch := PStr (truncating_slice (s2t "banana") 2 3) in
  extract_batch e 2 3 init
  = (Ok tt, State (files init) (log init ++ [Printed (json_dumps batch)]))
  /\ json_dumps batch = encode_basestring (truncating_slice (s2t "banana") 2 3)
  /\ json_loads (stdout [Printed (json_dumps batch)]) = Some batch.
Proof.
  intros e.
  apply (extract_batch_top_level_string e 2 3 init (s2t "banana"));
    [reflexivity|reflexivity|lia|lia].
Defined.

(** X5: how a run of [extract_batch] can end.  Either it returns normally
    having printed exactly one text, the batch or an [Error:] line, and
    nothing else; or the source raised an exception that is not an
    [Exception] ([KeyboardInterrupt], [SystemExit]), which leaves the
    function with nothing printed.  No [Exception] ever leaves it. *)
Theorem extract_batch_outcomes (e : env) (start count : Z) (st : state) :
  (exists t : text,
     extract_batch e start count st
     = (Ok tt, State (files st) (log st ++ [Printed t])))
  \/ (exists err : pyexn,
        source e = Raise err
        /\ is_Exception (exn_cls err) = false
        /\ extract_batch e start count st = (Raise err, st)).
Proof.
  unfold extract_batch, try_except. rewrite try_block_unfold.
  assert (Hcaught : forall err, is_Exception (exn_cls err) = true ->
    exists t, (if is_Exception (exn_cls err)
               then print (s2t "Error: " ++ s2t (exn_str err)) st
               else (Raise err, st))
              = (Ok tt, State (files st) (log st ++ [Printed t]))).
  { intros err ->. eexists. apply print_error_line. }
  destruct (source e) as [data|err] eqn:Hs.
  - left. destruct (getitem_slice (python e) data start (start + count)) as [batch|err] eqn:Hg.
    + unfold print at 1.
      destruct (utf8_strict (json_dumps batch)) as [t|err] eqn:Hu; [by eexists|].
      apply Hcaught. unfold utf8_strict in Hu.
      destruct (find_surrogate 0 (json_dumps batch)) as [[[a c] b]|]; [|done].
      by injection Hu as <-.
    + apply Hcaught.
      destruct data as [|b|z|x|s|l|items], (python e); cbn in Hg; try done;
        by injection Hg as <-.
  - destruct (is_Exception (exn_cls err)) eqn:Hexn.
    + left. eexists. apply print_error_line.
    + right. by exists err.
Qed.



(* ===================================================================== *)
(** * Further properties of [split_prompts.py] *)
(* ===================================================================== *)

(** X7: a source file whose top-level value is a number, [int] or
    [float], a boolean or null stops the script at [len(data)], on line 9:
    it raises [TypeError] before anything is printed or written. *)
Theorem split_prompts_unsized (e : env) (st : state) (v : pyvalue) :
  source e = Ok v ->
  v = PNone \/ (exists b, v = PBool b) \/ (exists z, v = PInt z)
  \/ (exists x, v = PFloat x) ->
  split_prompts e st
  = (Raise (Exn TypeError
              ("object of type '" ++ type_name v ++ "' has no len()")), st).
Proof.
  intros Hs Hv. unfold split_prompts. rewrite split_prompts_unfold, Hs.
  by destruct Hv as [-> | [[b ->] | [[z ->] | [x ->]]]].
Qed.

Lemma split_prompts_unsized_witness :
  split_prompts
    (Env Py311 (Ok (PFloat (float_of_decimal false 15 (-1)))) (fun _ => None))
    init
  = (Raise (Exn TypeError "object of type 'float' has no len()"), init).
Proof.
  apply (split_prompts_unsized
           (Env Py311 (Ok (PFloat (float_of_decimal false 15 (-1))))
                (fun _ => None))
           init (PFloat (float_of_decimal false 15 (-1))));
    [reflexivity|right; right; right; by eexists].
Defined.

Lemma rmap_first_raises {A B} (f : A -> result B) (x : A) (r : list A)
      (err : pyexn) :
  f x = Raise err -> rmap f (x :: r) = Raise err.
Proof. intros H. cbn [rmap]. by rewrite H. Qed.

(** The chunks of a dict that is not empty: slicing it raises at the first
    index, what depends on the interpreter. *)
Lemma chunks_dict_raises (py : cpython) (kv : text * pyvalue)
      (r : list (text * pyvalue)) :
  chunks py (PDict (kv :: r))
  = Raise (match py with
           | Py311 => Exn TypeError "unhashable type: 'slice'"
           | Py312 => Exn KeyError "slice(0, 50, None)"
           end).
Proof.
  unfold chunks, chunks_of, chunk_size, py_range. cbn [py_len rbind Z.eqb].
  unfold range_len. cbn [Z.ltb Z.compare].
  destruct (Z.ltb_spec 0 (Z.of_nat (length (kv :: r)))) as [Hpos|Hneg];
    [|cbn [length] in Hneg; lia].
  assert (Hq : 0 <= (Z.of_nat (length (kv :: r)) - 0 - 1) / 50)
    by (apply Z.div_pos; lia).
  destruct (Z.to_nat ((Z.of_nat (length (kv :: r)) - 0 - 1) / 50 + 1))
    as [|k] eqn:Hk; [lia|].
  cbn [seq map]. apply rmap_first_raises. by destruct py.
Qed.

(** X8: a source file whose top-level value is a JSON object.  An empty
    object passes for an empty Dataset: the script prints
    [Total items: 0], writes nothing and ends normally.  Any other object
    gets its count printed, then the slice on line 13 raises and the
    script ends there, no artifact created: [TypeError] on CPython 3.11
    and earlier, where a slice cannot be hashed, [KeyError] from 3.12
    on. *)
Theorem split_prompts_object (e : env) (st : state)
        (items : list (text * pyvalue)) :
  source e = Ok (PDict items) ->
  split_prompts e st
  = (match items with
     | [] => Ok tt
     | _ :: _ =>
         Raise (match python e with
                | Py311 => Exn TypeError "unhashable type: 'slice'"
                | Py312 => Exn KeyError "slice(0, 50, None)"
                end)
     end,
     State (files st)
           (log st ++ [Printed (total_line (Z.of_nat (length items)))])).
Proof.
  intros Hs. unfold split_prompts. rewrite split_prompts_unfold, Hs.
  cbn [py_len]. rewrite print_total_line.
  destruct items as [|kv r]; [reflexivity|].
  fold (chunks (python e) (PDict (kv :: r))). by rewrite chunks_dict_raises.
Qed.

Lemma split_prompts_object_witness :
  split_prompts (Env Py311 (Ok (PDict [(s2t "a", PInt 1)])) (fun _ => None)) init
  = (Raise (Exn TypeError "unhashable type: 'slice'"),
     State ∅ [Printed (s2t "Total items: 1")]).
Proof.
  apply (split_prompts_object
           (Env Py311 (Ok (PDict [(s2t "a", PInt 1)])) (fun _ => None)) init
           [(s2t "a", PInt 1)]).
  reflexivity.
Defined.

(* ===================================================================== *)
(** ** An artifact whose serialization cannot be encoded *)
(* ===================================================================== *)

Lemma encodable_concat (ps : list text) :
  encodable (concat ps) <-> Forall encodable ps.
Proof. unfold encodable. apply Forall_concat. Qed.

(** [f.write] piece by piece: all of the pieces, or the pieces before the
    first one that cannot be encoded. *)
Lemma write_pieces_cases (pieces : list text) :
  forall written : text,
    (Forall encodable pieces
     /\ write_pieces pieces written = (written ++ concat pieces, Ok tt))
    \/ (~ Forall encodable pieces
        /\ exists msg pre,
             write_pieces pieces written
             = (written ++ pre, Raise (Exn UnicodeEncodeError msg))
             /\ pre `prefix_of` concat pieces
             /\ pre <> concat pieces).
Proof.
  induction pieces as [|p r IH]; intros written.
  - left. split; [constructor|]. cbn. by rewrite app_nil_r.
  - cbn [write_pieces concat]. destruct (decide (Forall (fun c => is_surrogate c = false) p)) as [Hp|Hp];
      fold (encodable p) in Hp.
    + rewrite utf8_strict_encodable by done.
      destruct (IH (written ++ p)) as [[Hr ->]|(Hr & msg & pre & -> & Hpre & Hne)].
      * left. split; [by constructor|]. by rewrite <- app_assoc.
      * right. split; [intros H; apply Hr; by inversion H|].
        exists msg, (p ++ pre). rewrite <- app_assoc. split; [done|]. split.
        -- by apply prefix_app.
        -- intros H. by apply app_inv_head in H.
    + destruct (utf8_strict_raises p Hp) as [msg ->].
      right. split; [intros H; apply Hp; by inversion H|].
      exists msg, []. rewrite app_nil_r. split; [done|]. split.
      * apply prefix_nil.
      * destruct p as [|c p]; [destruct Hp; constructor|done].
Qed.

(** What [dump_to_file] leaves, whatever the value. *)
Lemma dump_to_file_cases (e : env) (path : text) (v : pyvalue) (st : state) :
  open_w e path = None ->
  (encodable (json_dumps v)
   /\ dump_to_file e path v st
      = (Ok tt, State (<[path := json_dumps v]> (files st))
                      (log st ++ [Saved path (json_dumps v)])))
  \/ (~ encodable (json_dumps v)
      /\ exists msg content,
           dump_to_file e path v st
           = (Raise (Exn UnicodeEncodeError msg),
              State (<[path := content]> (files st))
                    (log st ++ [Saved path content]))
           /\ content `prefix_of` json_dumps v
           /\ content <> json_dumps v).
Proof.
  intros Ho. unfold dump_to_file, json_dumps. rewrite Ho.
  destruct (write_pieces_cases (iterencode 0 v) [])
    as [[Hall ->]|(Hnot & msg & pre & -> & Hpre & Hne)].
  - left. split; [by apply encodable_concat|done].
  - right. split; [by rewrite encodable_concat|]. by exists msg, pre.
Qed.



(** The loop body on a chunk, whatever the environment. *)
Lemma write_chunk_cases (e : env) (i : Z) (c : list pyvalue) (st : state) :
  match open_w e (filename i) with
  | Some err => write_chunk e (i, PList c) st = (Raise err, st)
  | None =>
      (encodable (json_dumps (PList c))
       /\ write_chunk e (i, PList c) st
          = (Ok tt, State (<[filename i := json_dumps (PList c)]> (files st))
                          (log st ++ chunk_events i c)))
      \/ (~ encodable (json_dumps (PList c))
          /\ exists msg content,
               write_chunk e (i, PList c) st
               = (Raise (Exn UnicodeEncodeError msg),
                  State (<[filename i := content]> (files st))
                        (log st ++ [Saved (filename i) content]))
               /\ content `prefix_of` json_dumps (PList c)
               /\ content <> json_dumps (PList c))
  end.
Proof.
  destruct (open_w e (filename i)) as [err|] eqn:Ho.
  - unfold write_chunk. cbn [fst snd]. apply bind_raise.
    unfold dump_to_file. by rewrite Ho.
  - destruct (dump_to_file_cases e (filename i) (PList c) st Ho)
      as [[Henc Hrun]|(Hnot & msg & content & Hrun & Hpre & Hne)].
    + left. split; [done|]. unfold write_chunk. cbn [fst snd].
      erewrite bind_ok by exact Hrun.
      unfold lift, py_len, mbind, M_bind.
      rewrite print_created_line by apply encodable_filename.
      cbn [files log]. unfold chunk_events. by rewrite <- app_assoc.
    + right. split; [done|]. exists msg, content. split; [|done].
      unfold write_chunk. cbn [fst snd]. by apply bind_raise.
Qed.

(** The loop stops at the first chunk it cannot write. *)
Lemma for_each_chunks_cases (e : env) (cs : list (list pyvalue)) :
  forall (i : Z) (st : state),
  exists (j : nat) (tail : list event),
    (j <= length cs)%nat
    /\ (forall (k : nat) c, (k < j)%nat -> cs !! k = Some c ->
          open_w e (filename (i + Z.of_nat k)) = None
          /\ encodable (json_dumps (PList c)))
    /\ snd (for_each (enumerate_from i (map PList cs)) (write_chunk e) st)
       = State (replay (saved (chunks_events i (take j cs) ++ tail)) (files st))
               (log st ++ chunks_events i (take j cs) ++ tail)
    /\ match cs !! j with
       | None =>
           tail = []
           /\ fst (for_each (enumerate_from i (map PList cs)) (write_chunk e) st)
              = Ok tt
       | Some c =>
           match open_w e (filename (i + Z.of_nat j)) with
           | Some err =>
               tail = []
               /\ fst (for_each (enumerate_from i (map PList cs))
                                (write_chunk e) st) = Raise err
           | None =>
               ~ encodable (json_dumps (PList c))
               /\ exists msg content,
                    fst (for_each (enumerate_from i (map PList cs))
                                  (write_chunk e) st)
                    = Raise (Exn UnicodeEncodeError msg)
                    /\ tail = [Saved (filename (i + Z.of_nat j)) content]
                    /\ content `prefix_of` json_dumps (PList c)
                    /\ content <> json_dumps (PList c)
           end
       end.
Proof.
  induction cs as [|c cs IH]; intros i st.
  - exists 0%nat, []. destruct st as [fs lg]. cbn.
    rewrite app_nil_r. repeat split; try done; intros; lia.
  - cbn [map enumerate_from for_each].
    pose proof (write_chunk_cases e i c st) as Hc.
    destruct (open_w e (filename i)) as [err|] eqn:Ho.
    + exists 0%nat, []. cbn [take chunks_events app lookup list_lookup].
      rewrite Z.add_0_r, Ho.
      erewrite bind_raise by exact Hc. destruct st as [fs lg]. cbn.
      rewrite app_nil_r. repeat split; try done; intros; lia.
    + destruct Hc as [[Henc Hrun]|(Hnot & msg & content & Hrun & Hpre & Hne)].
      * erewrite bind_ok by exact Hrun.
        destruct (IH (i + 1) (State (<[filename i := json_dumps (PList c)]> (files st))
                                    (log st ++ chunk_events i c)))
          as (j & tail & Hj & Hbefore & Hstate & Hstop).
        exists (S j), tail. cbn [take chunks_events lookup list_lookup length].
        split; [lia|]. split; [|split].
        -- intros [|k] c' Hk Hc'.
           ++ injection Hc' as <-. by rewrite Z.add_0_r.
           ++ replace (i + Z.of_nat (S k)) with (i + 1 + Z.of_nat k) by lia.
              apply Hbefore; [lia|done].
        -- rewrite Hstate. cbn [files log].
           rewrite <- !app_assoc, !saved_app, !replay_app. reflexivity.
        -- replace (i + Z.of_nat (S j)) with (i + 1 + Z.of_nat j) by lia.
           exact Hstop.
      * exists 0%nat, [Saved (filename i) content].
        cbn [take chunks_events app lookup list_lookup].
        rewrite Z.add_0_r, Ho. erewrite bind_raise by exact Hrun.
        cbn [fst snd]. split; [cbn; lia|]. split; [intros; lia|].
        split; [done|]. split; [done|]. by exists msg, content.
Qed.



(* ===================================================================== *)
(** ** Where the items go, and reading the artifacts back *)
(* ===================================================================== *)

Lemma chunks_of_list_inv (py : cpython) (size : Z) (l : list pyvalue)
      (cs : list (list pyvalue)) :
  0 < size ->
  chunks_of py size (PList l) = Ok (map PList cs) ->
  cs = map (fun k : nat => take (Z.to_nat size) (drop (k * Z.to_nat size) l))
           (seq 0 (Z.to_nat (ceil_div (Z.of_nat (length l)) size))).
Proof.
  intros Hsize H. rewrite chunks_of_list in H by done.
  injection H as H. symmetry.
  rewrite <- (map_map _ PList) in H.
  revert H. apply (list_fmap_eq_inj PList). by intros x y [= ].
Qed.

Lemma chunks_json_value (py : cpython) (size : Z) (l : list pyvalue)
      (cs : list (list pyvalue)) :
  0 < size -> json_value (PList l) = true ->
  chunks_of py size (PList l) = Ok (map PList cs) ->
  Forall (fun c => json_value (PList c) = true) cs.
Proof.
  intros Hsize Hjson Hcs. rewrite (chunks_of_list_inv py size l cs) by done.
  apply Forall_forall. intros c Hc.
  apply list_elem_of_fmap in Hc as (k & -> & _).
  simpl in Hjson |- *. rewrite forallb_forall in Hjson |- *.
  intros x Hx. apply Hjson. apply list_elem_of_In.
  apply list_elem_of_In in Hx. by eapply subseteq_drop, subseteq_take.
Qed.

Lemma chunks_of_list_length (py : cpython) (size : Z) (l : list pyvalue)
      (cs : list (list pyvalue)) :
  0 < size ->
  chunks_of py size (PList l) = Ok (map PList cs) ->
  Z.of_nat (length cs) = ceil_div (Z.of_nat (length l)) size.
Proof.
  intros Hsize Hcs. rewrite (chunks_of_list_inv py size l cs) by done.
  rewrite length_map, length_seq.
  pose proof (ceil_div_bounds (Z.of_nat (length l)) size Hsize). nia.
Qed.

(** X11: line 13 puts the item of index [i] at position [i mod size] of
    the chunk of index [i div size]:
    [data[i] == chunks[i // size][i % size]]. *)
Theorem chunks_item_position (py : cpython) (size : Z) (l : list pyvalue)
        (cs : list (list pyvalue)) (i : nat) :
  0 < size ->
  chunks_of py size (PList l) = Ok (map PList cs) ->
  (i < length l)%nat ->
  exists c : list pyvalue,
    cs !! (i / Z.to_nat size)%nat = Some c
    /\ c !! (i mod Z.to_nat size)%nat = l !! i.
Proof.
  intros Hsize Hcs Hi. rewrite (chunks_of_list_inv py size l cs) by done.
  set (s := Z.to_nat size). assert (Hs : (0 < s)%nat) by (unfold s; lia).
  replace size with (Z.of_nat s) by (unfold s; lia).
  destruct (ceil_div_nat (length l) s Hs) as (_ & Hm & _).
  pose proof (Nat.div_mod_eq i s) as Hdm.
  pose proof (Nat.mod_upper_bound i s ltac:(lia)) as Hr.
  exists (take s (drop (i / s * s) l)). split.
  - rewrite list_lookup_fmap, lookup_seq_lt; [done|]. nia.
  - rewrite lookup_take_lt by done. rewrite lookup_drop. f_equal. lia.
Qed.

Lemma chunks_item_position_witness :
  exists c : list pyvalue,
    [[PInt 10; PInt 11]; [PInt 12; PInt 13]; [PInt 14]]
      !! (3 / Z.to_nat 2)%nat = Some c
    /\ c !! (3 mod Z.to_nat 2)%nat
       = [PInt 10; PInt 11; PInt 12; PInt 13; PInt 14] !! 3%nat.
Proof.
  apply (chunks_item_position Py312 2
           [PInt 10; PInt 11; PInt 12; PInt 13; PInt 14]
           [[PInt 10; PInt 11]; [PInt 12; PInt 13]; [PInt 14]] 3);
    [lia|reflexivity|simpl; lia].
Defined.

(** X12: the artifacts can be read back.  After a run on a Dataset of JSON
    values, floats among them, every file [data/temp_chunk_<k>.json]
    decodes, with [json.loads], to the chunk of index [k], and the decoded
    chunks, one after the other, are the Dataset. *)
Theorem split_prompts_artifacts_decode (size : Z) (e : env) (st : state)
        (l : list pyvalue) (cs : list (list pyvalue)) :
  0 < size ->
  source e = Ok (PList l) ->
  json_value (PList l) = true ->
  chunks_of (python e) size (PList l) = Ok (map PList cs) ->
  (forall k : nat, (k < length cs)%nat ->
     open_w e (filename (Z.of_nat k)) = None) ->
  (forall (k : nat) (c : list pyvalue), cs !! k = Some c ->
     exists t : text,
       files (snd (split_prompts_with size e st)) !! filename (Z.of_nat k)
       = Some t
       /\ json_loads t = Some (PList c))
  /\ concat cs = l.
Proof.
  intros Hsize Hs Hjson Hcs Hopen.
  pose proof (chunks_json_value (python e) size l cs Hsize Hjson Hcs) as Hall.
  split.
  - intros k c Hk. exists (json_dumps (PList c)). split.
    + rewrite split_prompts_unfold, Hs. cbn [py_len].
      rewrite print_total_line, Hcs. unfold enumerate.
      rewrite for_each_chunks by done. cbn [snd files].
      by apply (replay_chunks_lookup cs 0 _ k c).
    + rewrite <- (app_nil_r (json_dumps (PList c))).
      apply json_loads_dumps; [|by left].
      rewrite Forall_forall in Hall. apply Hall.
      by eapply list_elem_of_lookup_2.
  - rewrite (chunks_of_list_inv (python e) size l cs) by done.
    set (s := Z.to_nat size). assert (Hpos : (0 < s)%nat) by (unfold s; lia).
    replace size with (Z.of_nat s) by (unfold s; lia).
    destruct (ceil_div_nat (length l) s Hpos) as (_ & Hm & _).
    rewrite concat_chunks_take. by apply take_ge.
Qed.

Lemma split_prompts_artifacts_decode_witness :
  let l := [PInt 1; PFloat (float_of_decimal false 25 (-1));
            PDict [(s2t "k", PList [PNone; PFloat (S754_infinity true)])]] in
  let cs := [[PInt 1; PFloat (float_of_decimal false 25 (-1))];
             [PDict [(s2t "k", PList [PNone; PFloat (S754_infinity true)])]]] in
  let e := Env Py312 (Ok (PList l)) (fun _ => None) in
  (forall (k : nat) (c : list pyvalue), cs !! k = Some c ->
     exists t : text,
       files (snd (split_prompts_with 2 e init)) !! filename (Z.of_nat k)
       = Some t
       /\ json_loads t = Some (PList c))
  /\ concat cs = l.
Proof.
  intros l cs e.
  apply (split_prompts_artifacts_decode 2 e init l cs);
    [lia|reflexivity|reflexivity|reflexivity|intros; reflexivity].
Defined.

(* ===================================================================== *)
(** ** The files a run touches *)
(* ===================================================================== *)

(** The loop body closes at most one file, the one named after its
    index. *)
Lemma write_chunk_names (e : env) (ic : Z * pyvalue) (st : state) :
  exists evs : list event,
    snd (write_chunk e ic st)
    = State (replay (saved evs) (files st)) (log st ++ evs)
    /\ ((saved evs).*1 = [filename ic.1]
        \/ (saved evs = [] /\ fst (write_chunk e ic st) <> Ok tt)).
Proof.
  destruct st as [fs lg]. unfold write_chunk, dump_to_file, mbind, M_bind, lift.
  destruct (open_w e (filename ic.1)) as [err|].
  - exists []. cbn. rewrite app_nil_r. split; [done|]. by right.
  - destruct (write_pieces (iterencode 0 ic.2) []) as [content [[]|err]].
    + destruct (py_len ic.2) as [n|err].
      * rewrite print_created_line by apply encodable_filename.
        exists [Saved (filename ic.1) content;
                Printed (created_line (filename ic.1) n)].
        cbn. rewrite <- app_assoc. split; [done|]. by left.
      * exists [Saved (filename ic.1) content]. cbn. split; [done|]. by left.
    + exists [Saved (filename ic.1) content]. cbn. split; [done|]. by left.
Qed.

(** The loop closes the files of an initial segment of the indices, in
    order, and all of them when it ends normally. *)
Lemma for_each_names (e : env) (cs : list pyvalue) :
  forall (i : Z) (st : state),
  exists (j : nat) (evs : list event),
    (j <= length cs)%nat
    /\ snd (for_each (enumerate_from i cs) (write_chunk e) st)
       = State (replay (saved evs) (files st)) (log st ++ evs)
    /\ (saved evs).*1 = map (fun k : nat => filename (i + Z.of_nat k)) (seq 0 j)
    /\ (fst (for_each (enumerate_from i cs) (write_chunk e) st) = Ok tt ->
        j = length cs).
Proof.
  induction cs as [|c cs IH]; intros i st.
  - exists 0%nat, []. destruct st as [fs lg]. cbn. by rewrite app_nil_r.
  - cbn [enumerate_from for_each]. unfold mbind, M_bind.
    destruct (write_chunk_names e (i, c) st) as (evs & Hstate & Hnames).
    destruct (write_chunk e (i, c) st) as [[[]|err] st1] eqn:Hrun;
      cbn [fst snd] in Hstate, Hnames; subst st1.
    + destruct Hnames as [Hnames|[_ Hne]]; [|done].
      destruct (IH (i + 1) (State (replay (saved evs) (files st)) (log st ++ evs)))
        as (j & evs' & Hj & Hstate' & Hnames' & Hok).
      exists (S j), (evs ++ evs'). cbn [length]. split; [lia|].
      split; [|split].
      * rewrite Hstate'. cbn [files log].
        by rewrite saved_app, replay_app, <- app_assoc.
      * rewrite saved_app, fmap_app, Hnames, Hnames'.
        cbn [seq map app]. rewrite Z.add_0_r. f_equal.
        rewrite <- seq_shift, map_map. apply map_ext. intros k.
        f_equal. lia.
      * intros H. f_equal. by apply Hok.
    + destruct Hnames as [Hnames|[Hnone _]].
      * exists 1%nat, evs. cbn [length seq map fst snd].
        rewrite Z.add_0_r. split; [lia|]. by split.
      * exists 0%nat, evs. cbn [length seq map fst snd].
        rewrite Hnone. split; [lia|]. by split.
Qed.

(** What every run of the script closes, whatever its input. *)
Lemma split_prompts_names (size : Z) (e : env) (st : state) :
  exists (j : nat) (evs : list event),
    snd (split_prompts_with size e st)
    = State (replay (saved evs) (files st)) (log st ++ evs)
    /\ (saved evs).*1 = map (fun k : nat => filename (Z.of_nat k)) (seq 0 j)
    /\ (forall data cs, source e = Ok data -> chunks_of (python e) size data = Ok cs ->
          (j <= length cs)%nat
          /\ (fst (split_prompts_with size e st) = Ok tt -> j = length cs)).
Proof.
  assert (Hnil : forall r : result unit,
    exists (j : nat) (evs : list event),
      snd (r, st) = State (replay (saved evs) (files st)) (log st ++ evs)
      /\ (saved evs).*1 = map (fun k : nat => filename (Z.of_nat k)) (seq 0 j)
      /\ j = 0%nat).
  { intros r. exists 0%nat, []. destruct st as [fs lg]. cbn.
    by rewrite app_nil_r. }
  rewrite split_prompts_unfold.
  destruct (source e) as [data|err] eqn:Hs.
  2: { destruct (Hnil (Raise err)) as (j & evs & H1 & H2 & _).
       exists j, evs. split; [done|]. split; [done|]. intros ? ? [= ]. }
  destruct (py_len data) as [n|err].
  2: { destruct (Hnil (Raise err)) as (j & evs & H1 & H2 & ->).
       exists 0%nat, evs. split; [done|]. split; [done|].
       intros ? cs [= <-] _. split; [lia|]. intros [= ]. }
  rewrite print_total_line.
  destruct (chunks_of (python e) size data) as [cs|err] eqn:Hcs.
  - destruct (for_each_names e cs 0
                (State (files st) (log st ++ [Printed (total_line n)])))
      as (j & evs & Hj & Hstate & Hnames & Hok).
    exists j, (Printed (total_line n) :: evs). unfold enumerate.
    split; [|split].
    + rewrite Hstate. cbn [files log].
      change (saved (Printed ?t :: ?r)) with (saved r).
      by rewrite <- app_assoc.
    + exact Hnames.
    + intros data' cs' [= <-] Hcs'. rewrite Hcs in Hcs'.
      injection Hcs' as <-. by split.
  - exists 0%nat, [Printed (total_line n)]. cbn [snd fst].
    split; [done|]. split; [done|].
    intros data' cs' [= <-] Hcs'. congruence.
Qed.

Lemma filenames_nodup (j : nat) :
  NoDup (map (fun k : nat => filename (Z.of_nat k)) (seq 0 j)).
Proof.
  apply (NoDup_fmap_2_strong (fun k : nat => filename (Z.of_nat k))).
  - intros x y _ _ H. apply filename_inj in H. lia.
  - apply NoDup_seq.
Qed.

(** X13: the files a run closes, whatever the source file holds and
    whatever fails: [data/temp_chunk_0.json], [data/temp_chunk_1.json],
    ... up to some index, in this order and each of them once; the source
    file is not among them.  A run that ends normally has closed one file
    per chunk. *)
Theorem split_prompts_artifact_names (size : Z) (e : env) (st : state) :
  exists (j : nat) (evs : list event),
    log (snd (split_prompts_with size e st)) = log st ++ evs
    /\ (saved evs).*1 = map (fun k : nat => filename (Z.of_nat k)) (seq 0 j)
    /\ NoDup ((saved evs).*1)
    /\ (source_path ∉ (saved evs).*1)
    /\ (forall data cs, source e = Ok data -> chunks_of (python e) size data = Ok cs ->
          (j <= length cs)%nat
          /\ (fst (split_prompts_with size e st) = Ok tt -> j = length cs)).
Proof.
  destruct (split_prompts_names size e st) as (j & evs & Hstate & Hnames & Hj).
  exists j, evs. rewrite Hstate, Hnames. cbn [log].
  split; [done|]. split; [done|]. split; [apply filenames_nodup|].
  split; [|exact Hj].
  intros Hin. apply list_elem_of_fmap in Hin as (k & Hk & _).
  by apply (filename_not_source (Z.of_nat k)).
Qed.

(** X14: a file that is not one of the [data/temp_chunk_<k>.json] keeps
    its content, or its absence, through every run; so does the source
    file. *)
Theorem split_prompts_frame (size : Z) (e : env) (st : state) (p : text) :
  (forall k : nat, p <> filename (Z.of_nat k)) ->
  files (snd (split_prompts_with size e st)) !! p = files st !! p.
Proof.
  intros Hp.
  destruct (split_prompts_names size e st) as (j & evs & Hstate & Hnames & _).
  rewrite Hstate. cbn [files]. apply replay_lookup_other.
  rewrite Hnames. intros Hin.
  apply list_elem_of_fmap in Hin as (k & Hk & _). by apply (Hp k).
Qed.

Lemma split_prompts_frame_witness :
  let e := Env Py312 (Ok (PList [PInt 1; PInt 2; PInt 3])) (fun _ => None) in
  let st := State {[source_path := s2t "[1, 2, 3]"]} [] in
  files (snd (split_prompts_with 2 e st)) !! source_path
  = files st !! source_path.
Proof.
  intros e st. apply (split_prompts_frame 2 e st source_path).
  intros k H. by apply (filename_not_source (Z.of_nat k)).
Defined.

(** X15: the script removes nothing.  On a Dataset of [n] items, a file
    [data/temp_chunk_<k>.json] with [k >= ceil(n / size)], left by a run
    on a longer Dataset, is still there afterwards with its old
    content. *)
Theorem split_prompts_keeps_stale_chunks (size : Z) (e : env) (st : state)
        (l : list pyvalue) (k : Z) :
  0 < size ->
  source e = Ok (PList l) ->
  ceil_div (Z.of_nat (length l)) size <= k ->
  files (snd (split_prompts_with size e st)) !! filename k
  = files st !! filename k.
Proof.
  intros Hsize Hs Hk.
  destruct (split_prompts_names size e st) as (j & evs & Hstate & Hnames & Hj).
  pose proof (chunks_of_list (python e) size l Hsize) as Hcs.
  destruct (Hj _ _ Hs Hcs) as [Hle _].
  rewrite length_map, length_seq in Hle.
  rewrite Hstate. cbn [files]. apply replay_lookup_other.
  rewrite Hnames. intros Hin.
  apply list_elem_of_fmap in Hin as (i & Hi & Hin).
  apply filename_inj in Hi. apply elem_of_seq in Hin.
  pose proof (ceil_div_bounds (Z.of_nat (length l)) size Hsize). nia.
Qed.

Lemma split_prompts_keeps_stale_chunks_witness :
  let e := Env Py312 (Ok (PList [PInt 1; PInt 2; PInt 3])) (fun _ => None) in
  let st := State {[filename 2 := s2t "[7]"]} [] in
  files (snd (split_prompts_with 2 e st)) !! filename 2
  = files st !! filename 2.
Proof.
  intros e st.
  apply (split_prompts_keeps_stale_chunks 2 e st [PInt 1; PInt 2; PInt 3] 2);
    [lia|reflexivity|by vm_compute].
Defined.

(* ===================================================================== *)
(** ** The script as it is: 50 items per chunk *)
(* ===================================================================== *)



(* ===================================================================== *)
(** ** A source file that holds a JSON string *)
(* ===================================================================== *)

Lemma chunks_of_string (py : cpython) (size : Z) (s : text) :
  0 < size ->
  chunks_of py size (PStr s)
  = Ok (map (fun k : nat =>
               PStr (take (Z.to_nat size) (drop (k * Z.to_nat size) s)))
            (seq 0 (Z.to_nat (ceil_div (Z.of_nat (length s)) size)))).
Proof.
  intros Hs. unfold chunks_of, py_range. simpl.
  destruct (Z.eqb_spec size 0); [lia|]. simpl.
  rewrite range_len_ceil by lia.
  rewrite (rmap_ok _ (fun i : Z =>
             PStr (take (Z.to_nat size) (drop (Z.to_nat i) s)))).
  - rewrite map_map. f_equal. apply map_ext. intros k.
    do 3 f_equal. lia.
  - intros i Hi. apply in_map_iff in Hi as (k & <- & _). simpl.
    rewrite py_slice_truncating by lia. reflexivity.
Qed.

(** The loop on pieces of text. *)
Lemma for_each_pieces (e : env) (ps : list text) :
  forall (i : Z) (st : state),
    (forall k : nat, (k < length ps)%nat ->
       open_w e (filename (i + Z.of_nat k)) = None) ->
    Forall (fun p => unicode_text p = true) ps ->
    exists evs : list event,
      for_each (enumerate_from i (map PStr ps)) (write_chunk e) st
      = (Ok tt, State (replay (saved evs) (files st)) (log st ++ evs))
      /\ saved evs
         = imap (fun k p => (filename (i + Z.of_nat k), json_dumps (PStr p))) ps
      /\ printed evs
         = imap (fun k p => created_line (filename (i + Z.of_nat k))
                                         (Z.of_nat (length p))) ps.
Proof.
  induction ps as [|p ps IH]; intros i st Hopen Hall.
  - exists []. destruct st as [fs lg]. cbn. by rewrite app_nil_r.
  - apply Forall_cons in Hall as [Hp Hps].
    assert (Ho : open_w e (filename i) = None).
    { specialize (Hopen 0%nat ltac:(simpl; lia)). by rewrite Z.add_0_r in Hopen. }
    destruct (IH (i + 1)
                (State (<[filename i := json_dumps (PStr p)]> (files st))
                       (log st ++ [Saved (filename i) (json_dumps (PStr p));
                                   Printed (created_line (filename i)
                                              (Z.of_nat (length p)))])))
      as (evs & Hrun & Hsaved & Hprinted); [|done|].
    { intros k Hk. replace (i + 1 + Z.of_nat k) with (i + Z.of_nat (S k)) by lia.
      apply Hopen. simpl. lia. }
    exists ([Saved (filename i) (json_dumps (PStr p));
             Printed (created_line (filename i) (Z.of_nat (length p)))] ++ evs).
    split; [|split].
    + cbn [map enumerate_from for_each].
      assert (Hw : write_chunk e (i, PStr p) st
                   = (Ok tt,
                      State (<[filename i := json_dumps (PStr p)]> (files st))
                            (log st ++ [Saved (filename i) (json_dumps (PStr p));
                                        Printed (created_line (filename i)
                                                   (Z.of_nat (length p)))]))).
      { unfold write_chunk. cbn [fst snd].
        erewrite bind_ok by (by apply dump_to_file_ok).
        unfold lift, py_len, mbind, M_bind.
        rewrite print_created_line by apply encodable_filename.
        cbn [files log]. by rewrite <- app_assoc. }
      rewrite (bind_ok _ _ _ _ _ Hw), Hrun. cbn [files log].
      by rewrite saved_app, replay_app, <- app_assoc.
    + rewrite saved_app, Hsaved. cbn [imap]. rewrite Z.add_0_r. cbn.
      f_equal. apply imap_ext. intros k x _. simpl. do 2 f_equal. lia.
    + rewrite printed_app, Hprinted. cbn [imap]. rewrite Z.add_0_r. cbn.
      f_equal. apply imap_ext. intros k x _. simpl. do 2 f_equal. lia.
Qed.

(** After writes under pairwise distinct names, each name holds what was
    written under it. *)
Lemma replay_lookup_nodup (ws : list (text * text)) :
  forall (fs : gmap text text) (k : nat) (p c : text),
    NoDup (ws.*1) -> ws !! k = Some (p, c) -> replay ws fs !! p = Some c.
Proof.
  induction ws as [|[q c0] ws IH]; intros fs k p c Hnd Hk; [done|].
  rewrite fmap_cons in Hnd. apply NoDup_cons in Hnd as [Hq Hnd].
  cbn [replay fold_left fst snd]. fold (replay ws (<[q:=c0]> fs)).
  destruct k as [|k].
  - injection Hk as -> ->. rewrite replay_lookup_other by done.
    by rewrite lookup_insert_eq.
  - by apply (IH _ k).
Qed.

(** X17: a source file that holds a JSON string.  The script takes it for
    a Dataset of characters: it prints the number of characters, cuts the
    string into pieces of [size] characters, writes each piece as a JSON
    string to the artifact of its index and ends normally; the pieces,
    one after the other, are the string. *)
Theorem split_prompts_top_level_string (size : Z) (e : env) (st : state)
        (s : text) :
  0 < size ->
  source e = Ok (PStr s) ->
  unicode_text s = true ->
  (forall k : nat, Z.of_nat k < ceil_div (Z.of_nat (length s)) size ->
     open_w e (filename (Z.of_nat k)) = None) ->
  exists ps : list text,
    concat ps = s
    /\ Z.of_nat (length ps) = ceil_div (Z.of_nat (length s)) size
    /\ fst (split_prompts_with size e st) = Ok tt
    /\ printed (log (snd (split_prompts_with size e st)))
       = printed (log st)
         ++ total_line (Z.of_nat (length s))
            :: imap (fun k p => created_line (filename (Z.of_nat k))
                                             (Z.of_nat (length p))) ps
    /\ (forall (k : nat) (p : text), ps !! k = Some p ->
          (k = (Z.to_nat (ceil_div (Z.of_nat (length s)) size) - 1)%nat
           \/ Z.of_nat (length p) = size)
          /\ files (snd (split_prompts_with size e st)) !! filename (Z.of_nat k)
             = Some (json_dumps (PStr p))).
Proof.
  intros Hsize Hs Htext Hopen.
  set (sz := Z.to_nat size).
  set (m := Z.to_nat (ceil_div (Z.of_nat (length s)) size)).
  set (ps := map (fun k : nat => take sz (drop (k * sz) s)) (seq 0 m)).
  assert (Hpos : (0 < sz)%nat) by (unfold sz; lia).
  assert (Hsz : size = Z.of_nat sz) by (unfold sz; lia).
  destruct (ceil_div_nat (length s) sz Hpos) as (Hm & Hcover & Hin).
  rewrite <- Hsz in Hm, Hcover, Hin. fold m in Hm, Hcover, Hin.
  assert (Hcs : chunks_of (python e) size (PStr s) = Ok (map PStr ps)).
  { unfold ps. rewrite chunks_of_string by done. by rewrite map_map. }
  assert (Hlen : length ps = m) by (unfold ps; by rewrite length_map, length_seq).
  destruct (for_each_pieces e ps 0
              (State (files st)
                     (log st ++ [Printed (total_line (Z.of_nat (length s)))])))
    as (evs & Hrun & Hsaved & Hprinted).
  { intros k Hk. apply Hopen. lia. }
  { apply Forall_forall. intros p Hp. unfold ps in Hp.
    apply list_elem_of_fmap in Hp as (k & -> & _).
    unfold unicode_text in Htext |- *. rewrite forallb_forall in Htext |- *.
    intros x Hx. apply Htext. apply list_elem_of_In.
    apply list_elem_of_In in Hx. by eapply subseteq_drop, subseteq_take. }
  assert (Hwhole : split_prompts_with size e st
                   = (Ok tt,
                      State (replay (saved evs) (files st))
                            (log st ++ Printed (total_line (Z.of_nat (length s)))
                                      :: evs))).
  { rewrite split_prompts_unfold, Hs. cbn [py_len].
    rewrite print_total_line, Hcs. unfold enumerate. rewrite Hrun.
    cbn [files log]. by rewrite <- app_assoc. }
  exists ps. rewrite Hwhole. cbn [fst snd files log].
  split; [|split; [|split; [|split]]].
  - unfold ps. rewrite concat_chunks_take. apply take_ge. lia.
  - lia.
  - done.
  - rewrite printed_app. change (printed (Printed ?t :: ?r)) with (t :: printed r).
    by rewrite Hprinted.
  - intros k p Hk. split.
    + unfold ps in Hk. rewrite list_lookup_fmap in Hk.
      destruct (seq 0 m !! k) as [k'|] eqn:Hseq; [|done].
      apply lookup_seq in Hseq as [-> Hlt]. injection Hk as <-.
      rewrite length_take, length_drop. fold m.
      destruct (decide (k = m - 1)%nat) as [->|Hne]; [by left|right].
      cbn [Nat.add]. specialize (Hin (S k) ltac:(lia)). lia.
    + apply (replay_lookup_nodup _ _ k).
      * rewrite Hsaved, fmap_imap.
        replace (imap _ ps) with
          (map (fun k : nat => filename (Z.of_nat k)) (seq 0 (length ps))).
        { apply (NoDup_fmap_2_strong (fun k : nat => filename (Z.of_nat k))).
          - intros x y _ _ H. apply filename_inj in H. lia.
          - apply NoDup_seq. }
        apply list_eq. intros j. rewrite list_lookup_fmap, list_lookup_imap.
        destruct (ps !! j) as [x|] eqn:Hj.
        -- rewrite lookup_seq_lt by (by eapply lookup_lt_Some). done.
        -- rewrite lookup_seq_ge by (by apply lookup_ge_None). done.
      * rewrite Hsaved, list_lookup_imap, Hk. done.
Qed.

Lemma split_prompts_top_level_string_witness :
  let s := s2t "top banana" in
  let e := Env Py312 (Ok (PStr s)) (fun _ => None) in
  exists ps : list text,
    concat ps = s
    /\ Z.of_nat (length ps) = ceil_div (Z.of_nat (length s)) 4
    /\ fst (split_prompts_with 4 e init) = Ok tt
    /\ printed (log (snd (split_prompts_with 4 e init)))
       = printed (log init)
         ++ total_line (Z.of_nat (length s))
            :: imap (fun k p => created_line (filename (Z.of_nat k))
                                             (Z.of_nat (length p))) ps
    /\ (forall (k : nat) (p : text), ps !! k = Some p ->
          (k = (Z.to_nat (ceil_div (Z.of_nat (length s)) 4) - 1)%nat
           \/ Z.of_nat (length p) = 4)
          /\ files (snd (split_prompts_with 4 e init)) !! filename (Z.of_nat k)
             = Some (json_dumps (PStr p))).
Proof.
  intros s e.
  apply (split_prompts_top_level_string 4 e init s);
    [lia|reflexivity|reflexivity|intros; reflexivity].
Defined.

(* ===================================================================== *)
(** * The two scripts on the same source file *)
(* ===================================================================== *)

(** X18: the two scripts agree.  After [split_prompts.py] has run on a
    Dataset, the artifact [data/temp_chunk_<k>.json] holds, character for
    character, the text that [extract_batch(50 * k, 50)] prints for the
    same source file. *)
Theorem extract_batch_prints_chunk (e : env) (st st' : state)
        (l : list pyvalue) (k : nat) :
  source e = Ok (PList l) ->
  json_value (PList l) = true ->
  (forall j : nat, Z.of_nat j < ceil_div (Z.of_nat (length l)) chunk_size ->
     open_w e (filename (Z.of_nat j)) = None) ->
  Z.of_nat k < ceil_div (Z.of_nat (length l)) chunk_size ->
  exists t : text,
    files (snd (split_prompts e st)) !! filename (Z.of_nat k) = Some t
    /\ extract_batch e (chunk_size * Z.of_nat k) chunk_size st'
       = (Ok tt, State (files st') (log st' ++ [Printed t])).
Proof.
  intros Hs Hjson Hopen Hk.
  assert (Hsize : 0 < chunk_size) by done.
  set (cs := map (fun k : nat =>
                    take (Z.to_nat chunk_size) (drop (k * Z.to_nat chunk_size) l))
                 (seq 0 (Z.to_nat (ceil_div (Z.of_nat (length l)) chunk_size)))).
  assert (Hcs : chunks_of (python e) chunk_size (PList l) = Ok (map PList cs)).
  { unfold cs. rewrite chunks_of_list by done. by rewrite map_map. }
  assert (Hlook : cs !! k
                  = Some (take (Z.to_nat chunk_size)
                               (drop (k * Z.to_nat chunk_size) l))).
  { unfold cs. rewrite list_lookup_fmap, lookup_seq_lt by lia. done. }
  exists (json_dumps (PList (take (Z.to_nat chunk_size)
                                  (drop (k * Z.to_nat chunk_size) l)))).
  split.
  - unfold split_prompts. rewrite split_prompts_unfold, Hs. cbn [py_len].
    rewrite print_total_line, Hcs. unfold enumerate.
    rewrite for_each_chunks.
    + cbn [snd files]. by apply (replay_chunks_lookup cs 0 _ k).
    + intros j Hj. apply Hopen. unfold cs in Hj.
      rewrite length_map, length_seq in Hj. lia.
    + by apply (chunks_json_value (python e) chunk_size l).
  - rewrite (extract_batch_list_run e _ _ st' l Hs Hjson).
    rewrite py_slice_truncating by (unfold chunk_size; lia).
    unfold truncating_slice.
    replace (Z.to_nat (chunk_size * Z.of_nat k))
      with (k * Z.to_nat chunk_size)%nat by (unfold chunk_size; lia).
    reflexivity.
Qed.

Lemma extract_batch_prints_chunk_witness :
  let l := repeat (PInt 7) 60 in
  let e := Env Py312 (Ok (PList l)) (fun _ => None) in
  exists t : text,
    files (snd (split_prompts e init)) !! filename (Z.of_nat 1) = Some t
    /\ extract_batch e (chunk_size * Z.of_nat 1) chunk_size init
       = (Ok tt, State (files init) (log init ++ [Printed t])).
Proof.
  intros l e.
  apply (extract_batch_prints_chunk e init init l 1);
    [reflexivity|reflexivity|intros; reflexivity|by vm_compute].
Defined.
